(** * CTWPF recommender: scoring and ranking engine

    A shallow embedding of [src/recommender.py] (class [CTWPFRecommender])
    and the properties of its profile builder, its CT/WP scoring, its use of
    the Gemini collaborator and its ranking step.

    Modelling conventions.
    - A Python [str] is its sequence of Unicode code points ([list N]), so
      that [len], [in], [replace], [split] and [strip] count characters the
      way Python does (the stopwords are Korean words).
    - A Python [dict] is an insertion-ordered association list with unique
      keys ([PyDict.set] overwrites in place or appends), because the code
      relies on the order ([sorted] is stable, [list(keys())[:10]]).
    - A Python [set] is enumerated in an order Python does not specify: the
      enumeration is the parameter [set_order], and properties that need it
      assume only that it permutes the elements.
    - Weights and scores are Python floats.  A finite float is the
      rational it denotes ([Q], compared with [==]).  The methods are
      given over exact arithmetic; where a result depends on the rounding
      of binary64 arithmetic (the order of the additions of the CT loop,
      the truncation of the percentage), the code is also given with
      every operation rounded, in module [B64].
    - [self] is a record threaded through the methods; calls to the Gemini
      client are logged in the ghost field [api_log], and the client itself
      is an arbitrary function of the requests made so far. *)

From Stdlib Require Import List NArith ZArith QArith Qround Qpower Bool Lia.
From Stdlib Require Import Permutation Sorted String Ascii Setoid Morphisms.
Import ListNotations.

Set Warnings "-register-all".
Local Open Scope Q_scope.

(* ================================================================== *)
(** * Python strings *)
(* ================================================================== *)

Module PyStr.

Definition str := list N.

(** ASCII literals, written as Rocq strings. *)
Fixpoint u (s : string) : str :=
  match s with
  | EmptyString => []
  | String c s' => N_of_ascii c :: u s'
  end.

Fixpoint eqb (a b : str) : bool :=
  match a, b with
  | [], [] => true
  | x :: a', y :: b' => N.eqb x y && eqb a' b'
  | _, _ => false
  end.

(** [x in l] for a list of strings. *)
Definition mem (x : str) (l : list str) : bool := existsb (eqb x) l.

(** [s.replace(" ", "")] *)
Definition remove_spaces (s : str) : str :=
  filter (fun c => negb (N.eqb c 32)) s.

Fixpoint startswith (s p : str) : bool :=
  match p, s with
  | [], _ => true
  | _ :: _, [] => false
  | c :: p', d :: s' => N.eqb c d && startswith s' p'
  end.

(** [p in s] for strings: substring containment. *)
Fixpoint contains (s p : str) : bool :=
  startswith s p ||
  match s with
  | [] => false
  | _ :: s' => contains s' p
  end.

(** [s.split(sep)] for a one-character separator: never returns []. *)
Fixpoint split (sep : N) (s : str) : list str :=
  match s with
  | [] => [[]]
  | c :: s' =>
      if N.eqb c sep then [] :: split sep s'
      else match split sep s' with
           | [] => [[c]]
           | w :: ws => (c :: w) :: ws
           end
  end.

(** Characters for which [str.isspace] holds. *)
Definition isspace (c : N) : bool :=
  ((9 <=? c) && (c <=? 13) || (28 <=? c) && (c <=? 32) || (c =? 133)
   || (c =? 160) || (c =? 5760) || (8192 <=? c) && (c <=? 8202)
   || (c =? 8232) || (c =? 8233) || (c =? 8239) || (c =? 8287)
   || (c =? 12288))%N.

Fixpoint lstrip (s : str) : str :=
  match s with
  | [] => []
  | c :: s' => if isspace c then lstrip s' else s
  end.

(** [s.strip()] *)
Definition strip (s : str) : str := rev (lstrip (rev (lstrip s))).

(** [sep.join(l)] *)
Fixpoint join (sep : str) (l : list str) : str :=
  match l with
  | [] => []
  | [w] => w
  | w :: l' => w ++ sep ++ join sep l'
  end.

(** Truthiness of a value that is [None] or a string. *)
Definition truthy (o : option str) : bool :=
  match o with
  | Some (_ :: _) => true
  | _ => false
  end.

End PyStr.

Import PyStr.

(* ================================================================== *)
(** * Python dictionaries (insertion ordered, unique keys) *)
(* ================================================================== *)

Module PyDict.

Definition dict (V : Type) := list (str * V).

Section Ops.
Context {V : Type}.

Fixpoint get (d : dict V) (k : str) : option V :=
  match d with
  | [] => None
  | (k', v) :: d' => if PyStr.eqb k k' then Some v else get d' k
  end.

(** [d.get(k, default)] *)
Definition get_default (d : dict V) (k : str) (default : V) : V :=
  match get d k with
  | Some v => v
  | None => default
  end.

(** [k in d] *)
Definition has (d : dict V) (k : str) : bool :=
  match get d k with
  | Some _ => true
  | None => false
  end.

(** [d[k] = v]: an existing key keeps its position. *)
Fixpoint set (d : dict V) (k : str) (v : V) : dict V :=
  match d with
  | [] => [(k, v)]
  | (k', v') :: d' =>
      if PyStr.eqb k k' then (k', v) :: d' else (k', v') :: set d' k v
  end.

Definition keys (d : dict V) : list str := map fst d.

(** The keys are pairwise distinct, as in every Python dict. *)
Definition wf (d : dict V) : Prop := NoDup (keys d).

End Ops.

End PyDict.

Abbreviation dict := PyDict.dict.

(* ================================================================== *)
(** * Constants of the class *)
(* ================================================================== *)

(** [self.STOPWORDS], in the order of the source. *)
Definition STOPWORDS : list str :=
  [ [44053; 51032]; [49688; 50629]; [54617; 51216]; [44368; 49688];
    [49884; 54744]; [44284; 51228]; [54217; 44032]; [52636; 49437];
    [51473; 44036; 44256; 49324]; [44592; 47568; 44256; 49324];
    [51060; 54644]; [44060; 50836]; [47785; 54364]; [48169; 48277];
    [48516; 49437];
    [54876; 50857]; [51060; 47200]; [49892; 49845]; [49548; 44060];
    [44592; 52488]; [51025; 50857]; [51652; 54665]; [44288; 47144];
    [54617; 45380]; [51204; 44277]; [54596; 49688]; [49440; 53469];
    [54617; 49373]; [49324; 50857; 51088]; [48143]; [51032]; [46321];
    [45824; 54616; 50668] ]%N.

Definition is_stopword (w : str) : bool := PyStr.mem w STOPWORDS.

(** The "none" sentinel of the forms, U+C5C6 U+C74C. *)
Definition NONE_SENTINEL : str := [50630; 51020]%N.
(** "API" + U+0020 + U+C624 U+B958 *)
Definition MSG_API_ERROR : str := [65; 80; 73; 32; 50724; 47448]%N.
(** "AI" + U+0020 + U+BD84 U+C11D + U+0020 + U+C2E4 U+D328 *)
Definition MSG_AI_FAILED : str :=
  [65; 73; 32; 48516; 49437; 32; 49892; 54056]%N.
(** U+BD84 U+C11D + U+0020 + U+BD88 U+AC00 *)
Definition MSG_NO_REASON : str := [48516; 49437; 32; 48520; 44032]%N.
(** U+D0C0 U+B300 U+D559 *)
Definition OTHER_UNIVERSITY : str := [53440; 45824; 54617]%N.
(** U+2190, the arrow of the annotated matches. *)
Definition ARROW : N := 8592%N.

(* ================================================================== *)
(** * Data model *)
(* ================================================================== *)

(** A value decoded from JSON ([json.loads]); numbers are rationals. *)
Inductive pyval : Type :=
| PNone
| PBool (b : bool)
| PNum (q : Q)
| PStr (s : str)
| PList (l : list pyval)
| PDict (d : list (str * pyval)).

(** A record of the course corpus.  A field is [None] when the JSON
    object has no such key ([course.get(key, default)] then yields the
    default). *)
Record Course : Type := {
  course_name : option str;
  professor : option str;
  university : option str;
  description : option str;
  keywords : option (dict Q)
}.

(** [course.get('keywords', {})] *)
Definition course_keywords (c : Course) : dict Q :=
  match keywords c with
  | Some kw => kw
  | None => []
  end.

(** [student_info_text] of [run_analysis]. *)
Record StudentInfo : Type := {
  profile_keywords : str;
  interest_text : str
}.

(** The two prompts sent to [client.models.generate_content], by the data
    they are built from. *)
Inductive Request : Type :=
| ExpandPrompt (keyword : str)
| EvaluatePrompt (student_info : StudentInfo) (course_info : Course).

(** What a call to the client does: it raises, or it returns a response
    whose [text] is [None] or a string. *)
Inductive Response : Type :=
| Raises
| Responds (text : option str).

(** The external collaborator: its answer may depend on every request
    made before. *)
Definition Client := list Request -> Request -> Response.

(** [networkx.DiGraph] as the code uses it: per node its [label]
    attribute (if it has one), its successors and its predecessors, all
    in insertion order. *)
Record DiGraph : Type := {
  g_node : dict (option str);
  g_succ : dict (list str);
  g_pred : dict (list str)
}.

Module Graph.

Definition empty : DiGraph := {| g_node := []; g_succ := []; g_pred := [] |}.

Definition adj_init (adj : dict (list str)) (n : str) : dict (list str) :=
  if PyDict.has adj n then adj else PyDict.set adj n [].

Definition adj_add (adj : dict (list str)) (n m : str) : dict (list str) :=
  let old := PyDict.get_default adj n [] in
  PyDict.set adj n (if PyStr.mem m old then old else old ++ [m]).

(** [G.add_node(n, label=label, ...)] *)
Definition add_node (G : DiGraph) (n label : str) : DiGraph :=
  {| g_node := PyDict.set (g_node G) n (Some label);
     g_succ := adj_init (g_succ G) n;
     g_pred := adj_init (g_pred G) n |}.

(** A node created by [add_edge] has no attributes. *)
Definition touch (G : DiGraph) (n : str) : DiGraph :=
  if PyDict.has (g_node G) n then G
  else {| g_node := PyDict.set (g_node G) n None;
          g_succ := adj_init (g_succ G) n;
          g_pred := adj_init (g_pred G) n |}.

(** [G.add_edge(src, dst, relation=rel)] *)
Definition add_edge (G : DiGraph) (src dst : str) : DiGraph :=
  let G1 := touch (touch G src) dst in
  {| g_node := g_node G1;
     g_succ := adj_add (g_succ G1) src dst;
     g_pred := adj_add (g_pred G1) dst src |}.

(** [G.nodes(data=True)], each node with [data.get('label', '')]. *)
Definition nodes_with_label (G : DiGraph) : list (str * str) :=
  map (fun '(n, a) => (n, match a with Some l => l | None => [] end))
      (g_node G).

(** [G.nodes[n].get('label', '')] *)
Definition label (G : DiGraph) (n : str) : str :=
  match PyDict.get (g_node G) n with
  | Some (Some l) => l
  | _ => []
  end.

Definition successors (G : DiGraph) (n : str) : list str :=
  PyDict.get_default (g_succ G) n [].

Definition predecessors (G : DiGraph) (n : str) : list str :=
  PyDict.get_default (g_pred G) n [].

End Graph.

(** [_load_ontology_data], from the rows of the two tables (already
    converted to stripped strings); [None] when a file is missing or
    reading it raises. *)
Definition load_ontology_data
    (tables : option (list (str * str) * list (str * str)))
  : option DiGraph :=
  match tables with
  | None => None
  | Some (node_rows, edge_rows) =>
      let G := fold_left (fun G '(n, l) => Graph.add_node G n l)
                         node_rows Graph.empty in
      Some (fold_left (fun G '(s, d) => Graph.add_edge G s d) edge_rows G)
  end.

(** The object [self].  [api_log] is a ghost field: the requests sent to
    the client so far, oldest first. *)
Record CTWPFRecommender : Type := {
  client : option Client;
  keyword_cache : dict (list str);
  graph : option DiGraph;
  target_courses : list Course;
  api_log : list Request
}.

(* ================================================================== *)
(** * ProfileBuilder: [get_keywords_from_input] *)
(* ================================================================== *)

(** [input_items] *)
Definition input_items (major : str) (double_major : option str)
    (history_courses : list str) : list str :=
  [major]
  ++ match double_major with
     | Some dm =>
         if PyStr.truthy double_major && negb (PyStr.eqb dm NONE_SENTINEL)
         then [dm] else []
     | None => []
     end
  ++ history_courses.

(** [if interest: keywords[interest] = 1.0] *)
Definition seed_interest (interest : option str) : dict Q :=
  match interest with
  | Some i => if PyStr.truthy interest then [(i, 1.0)] else []
  | None => []
  end.

(** The nodes whose label contains the item, spaces ignored. *)
Definition target_nodes (G : DiGraph) (item : str) : list str :=
  map fst
    (filter (fun '(_, l) =>
               PyStr.contains (remove_spaces l) (remove_spaces item))
            (Graph.nodes_with_label G)).

(** The body of [for neighbor in neighbors]. *)
Definition visit_neighbor (G : DiGraph) (kw : dict Q) (neighbor : str)
  : dict Q :=
  let neighbor_label := Graph.label G neighbor in
  if PyStr.truthy (Some neighbor_label) && negb (is_stopword neighbor_label)
  then PyDict.set kw neighbor_label
         (PyDict.get_default kw neighbor_label 0 + 0.5)
  else kw.

(** The body of [for root_node in target_nodes]. *)
Definition visit_root (G : DiGraph) (kw : dict Q) (root_node : str)
  : dict Q :=
  fold_left (visit_neighbor G)
    (Graph.successors G root_node ++ Graph.predecessors G root_node) kw.

(** The body of [for item in input_items] when the graph is loaded. *)
Definition visit_item (G : DiGraph) (kw : dict Q) (item : str) : dict Q :=
  fold_left (visit_root G) (target_nodes G item) (PyDict.set kw item 1.0).

Definition get_keywords_from_input (self : CTWPFRecommender)
    (major : str) (double_major : option str) (history_courses : list str)
    (interest : option str) : dict Q :=
  let keywords := seed_interest interest in
  let items := input_items major double_major history_courses in
  match graph self with
  | None => fold_left (fun kw item => PyDict.set kw item 1.0) items keywords
  | Some G => fold_left (visit_item G) items keywords
  end.

(** [get_idf_weight] *)
Definition get_idf_weight (word : str) : Q :=
  if (2 <? List.length word)%nat then 1.5 else 1.0.

(* ================================================================== *)
(** * Methods with effects: state of [self] and exceptions *)
(* ================================================================== *)

Inductive exn : Type :=
| APIError | TypeError | AttributeError | JSONDecodeError.

Inductive result (A : Type) : Type :=
| Ok (a : A)
| Raise (e : exn).
Arguments Ok {A} a.
Arguments Raise {A} e.

(** A method: it reads and updates [self], and returns or raises. *)
Definition M (A : Type) : Type :=
  CTWPFRecommender -> result A * CTWPFRecommender.

Definition ret {A} (a : A) : M A := fun self => (Ok a, self).

Definition raise {A} (e : exn) : M A := fun self => (Raise e, self).

Definition bind {A B} (m : M A) (k : A -> M B) : M B :=
  fun self =>
    match m self with
    | (Ok a, self') => k a self'
    | (Raise e, self') => (Raise e, self')
    end.

(** [try: body / except Exception: handler] *)
Definition try_except {A} (body : M A) (handler : exn -> M A) : M A :=
  fun self =>
    match body self with
    | (Ok a, self') => (Ok a, self')
    | (Raise e, self') => handler e self'
    end.

Declare Scope py_scope.
Delimit Scope py_scope with py.
Notation "x <- m ;; k" := (bind m (fun x => k))
  (at level 61, m at next level, right associativity) : py_scope.
Notation "' p <- m ;; k" := (bind m (fun p => k))
  (at level 61, p pattern, m at next level, right associativity) : py_scope.
Local Open Scope py_scope.

(** [self.client.models.generate_content(...)]: the request is logged,
    then the client answers. *)
Definition generate_content (c : Client) (req : Request) : M (option str) :=
  fun self =>
    let self' := {| client := client self;
                    keyword_cache := keyword_cache self;
                    graph := graph self;
                    target_courses := target_courses self;
                    api_log := api_log self ++ [req] |} in
    match c (api_log self) req with
    | Raises => (Raise APIError, self')
    | Responds text => (Ok text, self')
    end.

(** [self.keyword_cache[keyword] = related_words] *)
Definition cache_store (keyword : str) (related_words : list str) : M unit :=
  fun self =>
    (Ok tt, {| client := client self;
               keyword_cache :=
                 PyDict.set (keyword_cache self) keyword related_words;
               graph := graph self;
               target_courses := target_courses self;
               api_log := api_log self |}).

(** [expand_keyword_with_gemini] *)
Definition expand_keyword_with_gemini (keyword : str) : M (list str) :=
  fun self =>
    match client self with
    | None => ret [] self
    | Some c =>
        match PyDict.get (keyword_cache self) keyword with
        | Some cached => ret cached self
        | None =>
            try_except
              (if is_stopword keyword then ret []
               else
                 text <- generate_content c (ExpandPrompt keyword) ;;
                 match text with
                 | Some (ch :: t) =>
                     let related_words :=
                       map PyStr.strip (PyStr.split 44 (ch :: t)) in
                     _ <- cache_store keyword related_words ;;
                     ret related_words
                 | _ => ret []
                 end)
              (fun _ => ret [])
              self
        end
    end.

(** [result.get(key, default)] on a decoded JSON value: only a dict has
    [get]. *)
Definition py_get (v : pyval) (key : str) (default : pyval) : M pyval :=
  match v with
  | PDict d => ret (PyDict.get_default d key default)
  | _ => raise AttributeError
  end.

(** [ctwp_score + ai_score]: a float plus a decoded JSON value. *)
Definition py_add (x : Q) (v : pyval) : M Q :=
  match v with
  | PNum q => ret (x + q)
  | PBool b => ret (x + (if b then 1 else 0))
  | _ => raise TypeError
  end.

Section Engine.

(** The order in which Python enumerates a set built from the given
    elements. *)
Variable set_order : list str -> list str.

(** [json.loads] on a string: [None] when it raises [JSONDecodeError]. *)
Variable json_loads : str -> option pyval.

(** [json.loads(response.text)] *)
Definition loads_text (text : option str) : M pyval :=
  match text with
  | None => raise TypeError
  | Some t =>
      match json_loads t with
      | Some v => ret v
      | None => raise JSONDecodeError
      end
  end.

(** [evaluate_relevance_with_gemini] *)
Definition evaluate_relevance_with_gemini
    (student_info : StudentInfo) (course_info : Course)
  : M (pyval * pyval) :=
  fun self =>
    match client self with
    | None => ret (PNum 0, PStr MSG_API_ERROR) self
    | Some c =>
        try_except
          (text <- generate_content c
                     (EvaluatePrompt student_info course_info) ;;
           result <- loads_text text ;;
           score <- py_get result (u "score") (PNum 0) ;;
           reason <- py_get result (u "reason") (PStr MSG_NO_REASON) ;;
           ret (score, reason))
          (fun _ => ret (PNum 0, PStr MSG_AI_FAILED))
          self
    end.

(** ** ScoringEngine: [calculate_ctwp_score] *)

(** [filtered_ct], as the [for] loop enumerates it. *)
Definition filtered_ct (student_dict course_keywords : dict Q)
  : list str :=
  set_order
    (filter (fun t => PyDict.has course_keywords t && negb (is_stopword t))
            (PyDict.keys student_dict)).

(** The body of [for term in filtered_ct]. *)
Definition ct_step (student_dict course_keywords : dict Q)
    (acc : Q * list str) (term : str) : Q * list str :=
  let '(ct_score, matches) := acc in
  let s_weight := PyDict.get_default student_dict term 1.0 in
  let c_weight := PyDict.get_default course_keywords term 1.0 in
  (ct_score + s_weight * c_weight * get_idf_weight term, matches ++ [term]).

Definition ct_loop (student_dict course_keywords : dict Q)
  : Q * list str :=
  fold_left (ct_step student_dict course_keywords)
            (filtered_ct student_dict course_keywords) (0, []).

(** [sorted(..., key=lambda x: x[1], reverse=True)]: a stable sort, the
    entries of equal weight keep their order. *)
Fixpoint insert_desc {A} (key : A -> Q) (x : A) (l : list A) : list A :=
  match l with
  | [] => [x]
  | y :: l' =>
      if Qle_bool (key y) (key x) then x :: l
      else y :: insert_desc key x l'
  end.

Fixpoint sorted_desc {A} (key : A -> Q) (l : list A) : list A :=
  match l with
  | [] => []
  | x :: l' => insert_desc key x (sorted_desc key l')
  end.

(** [sorted_student_terms] *)
Definition sorted_student_terms (student_dict : dict Q)
  : list (str * Q) :=
  firstn 5 (sorted_desc snd student_dict).

(** The annotated match [e_term(<-s_term)] with the arrow U+2190. *)
Definition annotate (e_term s_term : str) : str :=
  e_term ++ [40%N; ARROW] ++ s_term ++ [41%N].

(** The body of [for e_term in expanded]. *)
Definition wp_step (course_keywords : dict Q) (s_term : str)
    (s_weight : Q) (acc : Q * list str) (e_term : str) : Q * list str :=
  let '(wp_score, matches) := acc in
  if PyDict.has course_keywords e_term then
    if is_stopword e_term || PyStr.mem e_term matches then acc
    else
      let c_weight := PyDict.get_default course_keywords e_term 1.0 in
      (wp_score + s_weight * 0.8 * c_weight,
       matches ++ [annotate e_term s_term])
  else acc.

(** [for s_term, s_weight in sorted_student_terms] *)
Fixpoint wp_loop (course_keywords : dict Q) (terms : list (str * Q))
    (acc : Q * list str) : M (Q * list str) :=
  match terms with
  | [] => ret acc
  | (s_term, s_weight) :: rest =>
      if is_stopword s_term then wp_loop course_keywords rest acc
      else
        expanded <- expand_keyword_with_gemini s_term ;;
        wp_loop course_keywords rest
          (fold_left (wp_step course_keywords s_term s_weight)
                     expanded acc)
  end.

(** The local variables [ct_score], [wp_score] and [matches] when the
    two loops are over. *)
Definition ctwp_components (student_dict course_keywords : dict Q)
  : M (Q * Q * list str) :=
  let '(ct_score, matches) := ct_loop student_dict course_keywords in
  ' (wp_score, matches') <-
      wp_loop course_keywords (sorted_student_terms student_dict)
              (0, matches) ;;
  ret (ct_score, wp_score, matches').

(** The elements of a list, each once, in order of first occurrence. *)
Fixpoint distinct (l : list str) : list str :=
  match l with
  | [] => []
  | x :: l' => x :: filter (fun y => negb (PyStr.eqb y x)) (distinct l')
  end.

Definition calculate_ctwp_score (student_dict course_keywords : dict Q)
  : M (Q * list str) :=
  ' (ct_score, wp_score, matches) <-
      ctwp_components student_dict course_keywords ;;
  let final_score := 0.5 * ct_score + 0.5 * wp_score in
  ret (final_score * 5.0, set_order (distinct matches)).

(** ** RankingAggregator: [run_analysis] *)

(** One entry of [recommendations]. *)
Record Recommendation : Type := {
  rec_course_name : str;
  rec_professor : str;
  rec_university : str;
  rec_total : Q;
  rec_ctwp : Q;
  rec_ai : pyval;
  rec_reason : pyval;
  rec_matched : str
}.

(** A row of the data frame once the percentage column is set. *)
Record Row : Type := {
  row_rec : Recommendation;
  row_percent : Z
}.

Definition row_total (r : Row) : Q := rec_total (row_rec r).

Definition DataFrame := list Row.

Definition or_default (o : option str) (default : str) : str :=
  match o with
  | Some s => s
  | None => default
  end.

(** [student_info_text] *)
Definition student_info_text (student_profile : dict Q)
    (interest : option str) : StudentInfo :=
  {| profile_keywords :=
       PyStr.join (u ", ") (firstn 10 (PyDict.keys student_profile));
     interest_text :=
       match interest with
       | Some i => if PyStr.truthy interest then i else NONE_SENTINEL
       | None => NONE_SENTINEL
       end |}.

(** [for course in self.target_courses] *)
Fixpoint score_courses (student_profile : dict Q) (info : StudentInfo)
    (courses : list Course) : M (list Recommendation) :=
  match courses with
  | [] => ret []
  | course :: rest =>
      ' (ctwp_score, matches) <-
          calculate_ctwp_score student_profile (course_keywords course) ;;
      ' (ai_score, ai_reason) <-
          evaluate_relevance_with_gemini info course ;;
      total_score <- py_add ctwp_score ai_score ;;
      let recommendation :=
        {| rec_course_name := or_default (course_name course) (u "Unknown");
           rec_professor := or_default (professor course) (u "Unknown");
           rec_university :=
             or_default (university course) OTHER_UNIVERSITY;
           rec_total := total_score;
           rec_ctwp := ctwp_score;
           rec_ai := ai_score;
           rec_reason := ai_reason;
           rec_matched :=
             match matches with
             | [] => NONE_SENTINEL
             | _ => PyStr.join (u ", ") (firstn 5 matches)
             end |} in
      recommendations <- score_courses student_profile info rest ;;
      ret (recommendation :: recommendations)
  end.

(** The maximum of a non-empty column. *)
Definition column_max (x : Q) (l : list Q) : Q :=
  fold_left (fun m y => if Qle_bool m y then y else m) l x.

(** [astype(int)]: truncation towards zero. *)
Definition astype_int (q : Q) : Z := Z.quot (Qnum q) (Zpos (Qden q)).

(** The percentage of one total, given the maximum of the column. *)
Definition percent_of (max_score : Q) (total : Q) : Z :=
  if negb (Qle_bool max_score 0) then astype_int (total / max_score * 95)
  else 0%Z.

Definition assign_percent (recommendations : list Recommendation)
  : DataFrame :=
  match recommendations with
  | [] => []
  | r0 :: rs =>
      let max_score := column_max (rec_total r0) (map rec_total rs) in
      map (fun r => {| row_rec := r;
                       row_percent := percent_of max_score (rec_total r) |})
          recommendations
  end.

(** [df.sort_values(by=total, ascending=False).head(5)].  pandas does
    not specify the order of rows of equal total; here they keep their
    order. *)
Definition top5 (df : DataFrame) : DataFrame :=
  firstn 5 (sorted_desc row_total df).

Definition run_analysis (major : str) (double_major : option str)
    (history : list str) (interest : option str)
  : M (DataFrame * dict Q) :=
  fun self =>
    let student_profile :=
      get_keywords_from_input self major double_major history interest in
    let info := student_info_text student_profile interest in
    (recommendations <-
       score_courses student_profile info (target_courses self) ;;
     ret (top5 (assign_percent recommendations), student_profile)) self.

End Engine.


(* ================================================================== *)
(** * Construction of the recommender and corpus lookup *)
(* ================================================================== *)

(** What [_load_course_data] finds at [file_path]: no file, a file whose
    reading or decoding raises, or the decoded list of courses. *)
Inductive CourseFile : Type :=
| FileMissing
| FileUnreadable
| FileContents (data : list Course).

(** [_load_course_data] *)
Definition load_course_data (file : CourseFile) : list Course :=
  match file with
  | FileContents data => data
  | _ => []
  end.

(** [__init__]: [api_key] is the argument, [env_api_key] is
    [os.getenv("GEMINI_API_KEY")], and [make_client] is
    [genai.Client(api_key=...)], [None] when it raises. *)
Definition init (api_key env_api_key : option str)
    (make_client : str -> option Client)
    (ontology : option (list (str * str) * list (str * str)))
    (course_file : CourseFile) : CTWPFRecommender :=
  let key := if PyStr.truthy api_key then api_key else env_api_key in
  {| client := match key with
               | Some k => if PyStr.truthy key then make_client k else None
               | None => None
               end;
     keyword_cache := [];
     graph := load_ontology_data ontology;
     target_courses := load_course_data course_file;
     api_log := [] |}.

(** The record [{"keywords": {}, "description": ""}]. *)
Definition no_course_data : Course :=
  {| course_name := None; professor := None; university := None;
     description := Some []; keywords := Some [] |}.

(** [course.get('course_name') == course_name] for a string
    [course_name]. *)
Definition has_name (name : str) (course : Course) : bool :=
  match course_name course with
  | Some n => PyStr.eqb n name
  | None => false
  end.

(** [for course in self.target_courses: if ...: return course], then the
    default record. *)
Fixpoint first_named (name : str) (courses : list Course) : Course :=
  match courses with
  | [] => no_course_data
  | course :: rest =>
      if has_name name course then course else first_named name rest
  end.

(** [get_course_data] *)
Definition get_course_data (self : CTWPFRecommender) (name : str)
  : Course :=
  first_named name (target_courses self).

(** ** The caller, [app.py] *)

Module App.

(** [history_list]: the comma-separated field, each part stripped. *)
Definition history_list (input_history : str) : list str :=
  match input_history with
  | [] => []
  | _ :: _ => map PyStr.strip (PyStr.split 44 input_history)
  end.

(** [interest_val] *)
Definition interest_val (input_interest : str) : option str :=
  match input_interest with
  | [] => None
  | _ :: _ => Some input_interest
  end.

(** What pressing the button does: nothing but an error message without
    an API key ([None]); otherwise a recommender is built with the key
    and [run_analysis] is called on the form fields. *)
Definition on_run (set_order : list str -> list str)
    (json_loads : str -> option pyval)
    (api_key : str) (env_api_key : option str)
    (make_client : str -> option Client)
    (ontology : option (list (str * str) * list (str * str)))
    (course_file : CourseFile)
    (input_major input_double input_history input_interest : str)
  : option (result (DataFrame * dict Q) * CTWPFRecommender) :=
  match api_key with
  | [] => None
  | _ :: _ =>
      let recommender :=
        init (Some api_key) env_api_key make_client ontology course_file in
      Some (run_analysis set_order json_loads input_major
              (Some input_double) (history_list input_history)
              (interest_val input_interest) recommender)
  end.

End App.

(* ================================================================== *)
(** * [syllabus_processor.py]: building the corpus *)
(* ================================================================== *)

Set Warnings "-abstract-large-number".

Module Syllabus.

(** U+C11C U+C6B8 U+B300 *)
Definition SEOUL : str := [49436; 50872; 45824]%N.
(** U+C2DC U+B9BD U+B300 *)
Definition CITY : str := [49884; 47549; 45824]%N.
(** U+C11C U+C6B8 U+C2DC U+B9BD U+B300 *)
Definition SEOUL_CITY : str := [49436; 50872; 49884; 47549; 45824]%N.
(** U+D55C U+C608 U+C885 *)
Definition ARTS : str := [54620; 50696; 51333]%N.
(** U+C5F0 U+C138 U+B300 *)
Definition YONSEI : str := [50672; 49464; 45824]%N.
(** U+ACE0 U+B824 U+B300 *)
Definition KOREA : str := [44256; 47140; 45824]%N.

(** [any(univ in s for univ in univs)] *)
Definition any_in (univs : list str) (s : str) : bool :=
  existsb (fun univ => PyStr.contains s univ) univs.

(** The text matched by [.*?] before the first [)]: no character of it
    is a newline. *)
Fixpoint until_close (s : str) : option str :=
  match s with
  | [] => None
  | c :: s' =>
      if N.eqb c 41 then Some []
      else if N.eqb c 10 then None
      else match until_close s' with
           | Some content => Some (c :: content)
           | None => None
           end
  end.

(** [re.search(r'\((.*?)\)', s)]: group 1 of the leftmost match. *)
Fixpoint search_parens (s : str) : option str :=
  match s with
  | [] => None
  | c :: s' =>
      if N.eqb c 40 then
        match until_close s' with
        | Some content => Some content
        | None => search_parens s'
        end
      else search_parens s'
  end.

Section Extract.

(** [os.path.splitext(filename)[0]], which depends on the platform. *)
Variable splitext_root : str -> str.

(** [extract_university_from_filename] *)
Definition extract_university_from_filename (filename : str) : str :=
  let name := splitext_root filename in
  let university := OTHER_UNIVERSITY in
  let university :=
    if PyStr.contains name [95%N] then
      let potential_uni := last (PyStr.split 95 name) [] in
      if any_in [SEOUL; CITY; ARTS; YONSEI; KOREA] potential_uni
      then potential_uni else university
    else university in
  let university :=
    match search_parens name with
    | Some content =>
        if any_in [SEOUL; CITY; ARTS] content then content else university
    | None => university
    end in
  if PyStr.contains name SEOUL then SEOUL
  else if PyStr.contains name CITY then SEOUL_CITY
  else if PyStr.contains name ARTS then ARTS
  else university.

End Extract.

(** "API Key" + U+0020 + U+C5C6 U+C74C *)
Definition MSG_NO_KEY : str :=
  [65; 80; 73; 32; 75; 101; 121; 32; 50630; 51020]%N.
(** U+D615 U+C2DD + U+0020 + U+C624 U+B958 *)
Definition MSG_BAD_FORMAT : str := [54805; 49885; 32; 50724; 47448]%N.
(** U+BD84 U+C11D + U+0020 + U+C2E4 U+D328 *)
Definition MSG_ANALYSIS_FAILED : str :=
  [48516; 49437; 32; 49892; 54056]%N.

(** [analyze_content_with_gemini].  [client] answers the prompt built
    from the first 20000 characters of the text; [json_loads] is
    [json.loads], [None] when it raises. *)
Definition analyze_content_with_gemini
    (client : option (str -> Response)) (json_loads : str -> option pyval)
    (raw_text file_name : str) : pyval :=
  match client with
  | None =>
      PDict [(u "course_name", PStr file_name); (u "keywords", PDict []);
             (u "description", PStr MSG_NO_KEY)]
  | Some c =>
      let failed :=
        PDict [(u "course_name", PStr file_name);
               (u "description", PStr MSG_ANALYSIS_FAILED);
               (u "keywords", PDict [])] in
      match c (firstn 20000 raw_text) with
      | Raises => failed
      | Responds None => failed
      | Responds (Some t) =>
          match json_loads t with
          | None => failed
          | Some data =>
              let data :=
                match data with
                | PList (first :: _) => first
                | PList [] => PDict []
                | _ => data
                end in
              match data with
              | PDict _ => data
              | _ =>
                  PDict [(u "course_name", PStr file_name);
                         (u "keywords", PDict []);
                         (u "description", PStr MSG_BAD_FORMAT)]
              end
          end
      end
  end.

End Syllabus.

(* ================================================================== *)
(** * Binary64 arithmetic *)
(* ================================================================== *)

(** A Python [float] is an IEEE 754 binary64 number, and every operation
    on floats returns the exact result rounded to the nearest binary64
    number, ties to the even significand.  A finite float is modelled as
    the rational it denotes, and [round] is that rounding: 53 significant
    bits, exponents from -1022 (below which the spacing stays 2^-1074) and
    no upper limit here; results of magnitude 2^1024 or more, which
    Python turns into [inf], stay finite and are refused by [to_int64]. *)

Module B64.

Definition pow2 (z : Z) : Q := 2 ^ z.

(** The binary exponent [e] of a positive rational: [2^e <= a < 2^(e+1)]. *)
Definition ilog2 (a : Q) : Z :=
  let e := (Z.log2 (Qnum a) - Z.log2 (Zpos (Qden a)))%Z in
  if Qle_bool (pow2 e) a then e else (e - 1)%Z.

(** The nearest integer, ties to even. *)
Definition rne (m : Q) : Z :=
  let f := Qfloor m in
  match Qcompare (m - inject_Z f) (1 # 2) with
  | Lt => f
  | Gt => (f + 1)%Z
  | Eq => if Z.even f then f else (f + 1)%Z
  end.

(** The exponent of the unit in the last place of [a]. *)
Definition ulp_exp (a : Q) : Z := (Z.max (ilog2 a) (-1022) - 52)%Z.

Definition round_pos (a : Q) : Q :=
  let k := ulp_exp a in inject_Z (rne (a / pow2 k)) * pow2 k.

Definition round (q : Q) : Q :=
  match Qcompare q 0 with
  | Eq => 0
  | Gt => round_pos q
  | Lt => - round_pos (- q)
  end.

(** [x + y], [x * y] and [x / y] on floats. *)
Definition fadd (x y : Q) : Q := round (x + y).
Definition fmul (x y : Q) : Q := round (x * y).
Definition fdiv (x y : Q) : Q := round (x / y).

(** [astype(int)] on a float64 column converts to int64 by truncation
    towards zero.  Only a value that truncates into the int64 range has
    a defined result: pandas raises on [inf], and numpy leaves the
    conversion of larger finite values unspecified. *)
Definition to_int64 (x : Q) : option Z :=
  if Qle_bool (inject_Z (2 ^ 63)) x
     || Qle_bool x (inject_Z (- 2 ^ 63 - 1))
  then None
  else Some (astype_int x).

(** ** [calculate_ctwp_score]: the CT loop in binary64 *)

(** [s_weight * c_weight * self.get_idf_weight(term)] *)
Definition ct_product (student_dict course_keywords : dict Q) (term : str)
  : Q :=
  let s_weight := PyDict.get_default student_dict term 1.0 in
  let c_weight := PyDict.get_default course_keywords term 1.0 in
  fmul (fmul s_weight c_weight) (get_idf_weight term).

(** The body of [for term in filtered_ct]. *)
Definition ct_step (student_dict course_keywords : dict Q)
    (acc : Q * list str) (term : str) : Q * list str :=
  let '(ct_score, matches) := acc in
  (fadd ct_score (ct_product student_dict course_keywords term),
   matches ++ [term]).

Definition ct_loop (set_order : list str -> list str)
    (student_dict course_keywords : dict Q) : Q * list str :=
  fold_left (ct_step student_dict course_keywords)
            (filtered_ct set_order student_dict course_keywords) (0, []).

(** ** [run_analysis]: the percentage column in binary64 *)

(** [(total / max_score) * 95] *)
Definition share (max_score total : Q) : Q :=
  fmul (fdiv total max_score) 95.

(** The percentage of one total, given the maximum of the column. *)
Definition percent_of (max_score total : Q) : option Z :=
  if negb (Qle_bool max_score 0) then to_int64 (share max_score total)
  else Some 0%Z.

(** The column of percentages of a column of totals. *)
Definition percent_column (totals : list Q) : list (option Z) :=
  match totals with
  | [] => []
  | t0 :: ts =>
      let max_score := column_max t0 ts in
      map (percent_of max_score) totals
  end.

End B64.
(* ================================================================== *)
(** * The properties, in the words of the specification *)
(* ================================================================== *)

(** ** Profile building *)

(** The seed terms: the major, the double major when one is given and is
    not the "none" sentinel, and the history courses. *)
Definition is_seed (major : str) (double_major : option str)
    (history_courses : list str) (k : str) : Prop :=
  k = major
  \/ (double_major = Some k /\ k <> [] /\ k <> NONE_SENTINEL)
  \/ In k history_courses.

(** The interest, when one is given. *)
Definition is_given_interest (interest : option str) (k : str) : Prop :=
  interest = Some k /\ k <> [].

(** [k] is the label of a 1-hop neighbour (successor or predecessor) of a
    node whose label contains some seed term. *)
Definition is_expansion_label (G : DiGraph) (items : list str) (k : str)
  : Prop :=
  exists item root_node neighbor,
    In item items
    /\ In root_node (target_nodes G item)
    /\ In neighbor (Graph.successors G root_node
                    ++ Graph.predecessors G root_node)
    /\ k = Graph.label G neighbor.

(** ** The collaborator *)

(** The number of requests a method sends to the client. *)
Definition calls_made {A} (m : M A) (self : CTWPFRecommender) : nat :=
  List.length (api_log (snd (m self))) - List.length (api_log self).

(** Two calls of [expand_keyword_with_gemini] with the same keyword. *)
Definition expand_twice (keyword : str) : M (list str * list str) :=
  (first <- expand_keyword_with_gemini keyword ;;
   second <- expand_keyword_with_gemini keyword ;;
   ret (first, second))%py.

(** The client, if there is one, answers the expansion prompt of
    [keyword] with a non-empty text. *)
Definition answers_expansion (self : CTWPFRecommender) (keyword : str)
  : Prop :=
  forall c, client self = Some c ->
  exists ch t, c (api_log self) (ExpandPrompt keyword)
               = Responds (Some (ch :: t)).

(** The client does not answer: the call raises, or the response has no
    text or an empty one. *)
Definition unanswered (r : Response) : Prop :=
  r = Raises \/ r = Responds None \/ r = Responds (Some []).

(** Calls of [expand_keyword_with_gemini], one after the other, on the
    same recommender. *)
Fixpoint expand_each (keywords : list str) : M unit :=
  match keywords with
  | [] => ret tt
  | k :: rest => (_ <- expand_keyword_with_gemini k ;; expand_each rest)%py
  end.

(** The failures of an evaluation that the code handles: there is no
    client, the call raises, the response has no text, the text is not
    JSON, or the JSON value is not an object.  A decoded object counts as
    a success whatever its entries are. *)
Definition evaluation_fails (json_loads : str -> option pyval)
    (self : CTWPFRecommender) (student_info : StudentInfo)
    (course_info : Course) : bool :=
  match client self with
  | None => true
  | Some c =>
      match c (api_log self) (EvaluatePrompt student_info course_info) with
      | Raises => true
      | Responds None => true
      | Responds (Some t) =>
          match json_loads t with
          | Some (PDict _) => false
          | _ => true
          end
      end
  end.

(** The JSON object of a successful evaluation. *)
Definition evaluation_object (json_loads : str -> option pyval)
    (self : CTWPFRecommender) (student_info : StudentInfo)
    (course_info : Course) : list (str * pyval) :=
  match client self with
  | Some c =>
      match c (api_log self) (EvaluatePrompt student_info course_info) with
      | Responds (Some t) =>
          match json_loads t with
          | Some (PDict d) => d
          | _ => []
          end
      | _ => []
      end
  | None => []
  end.

(** ** Scoring *)

Definition sumQ (l : list Q) : Q := fold_right Qplus 0 l.

(** [commonTerms = (keys(profile) & keys(courseKeywords)) \ StopwordSet] *)
Definition is_common_term (student_dict course_keywords : dict Q)
    (t : str) : bool :=
  PyDict.has student_dict t && PyDict.has course_keywords t
  && negb (is_stopword t).

Definition common_terms (student_dict course_keywords : dict Q)
  : list str :=
  filter (is_common_term student_dict course_keywords)
         (PyDict.keys student_dict).

(** [profile[term] * courseKeywords[term] * idf(term)] *)
Definition ct_term (student_dict course_keywords : dict Q) (t : str) : Q :=
  PyDict.get_default student_dict t 0
  * PyDict.get_default course_keywords t 0
  * get_idf_weight t.

(** The CT score as a sum over the common terms. *)
Definition ct_sum (student_dict course_keywords : dict Q) : Q :=
  sumQ (map (ct_term student_dict course_keywords)
            (common_terms student_dict course_keywords)).

(** The expansions requested for a list of profile terms, in order. *)
Fixpoint expand_all (terms : list (str * Q)) : M (list (str * list str)) :=
  match terms with
  | [] => ret []
  | (s, _) :: rest =>
      (expanded <- expand_keyword_with_gemini s ;;
       others <- expand_all rest ;;
       ret ((s, expanded) :: others))%py
  end.

(** What one returned term [e] adds for the profile term [s]:
    [profile[s] * 0.8 * courseKeywords[e]] when [e] is a key of the course
    keywords, is not a stopword and is not a CT match. *)
Definition wp_term (student_dict course_keywords : dict Q) (s e : str)
  : Q :=
  if PyDict.has course_keywords e && negb (is_stopword e)
     && negb (is_common_term student_dict course_keywords e)
  then PyDict.get_default student_dict s 0 * 0.8
       * PyDict.get_default course_keywords e 0
  else 0.

(** The WP score as a sum over the expansions. *)
Definition wp_sum (student_dict course_keywords : dict Q)
    (expansions : list (str * list str)) : Q :=
  sumQ (map (fun '(s, expanded) =>
               sumQ (map (wp_term student_dict course_keywords s) expanded))
            expansions).

(** "The top 5 profile terms by weight, excluding stopwords", read as:
    drop the stopwords, then take the five heaviest. *)
Definition top5_of_non_stopwords (student_dict : dict Q) : list (str * Q) :=
  firstn 5 (sorted_desc snd
              (filter (fun '(s, _) => negb (is_stopword s)) student_dict)).

(** What the code expands: the five heaviest terms, minus the stopwords
    among them. *)
Definition non_stopwords_of_top5 (student_dict : dict Q)
  : list (str * Q) :=
  filter (fun '(s, _) => negb (is_stopword s))
         (sorted_student_terms student_dict).

(** No key contains the arrow used to annotate propagated matches. *)
Definition arrow_free (course_keywords : dict Q) : bool :=
  forallb (fun k => negb (existsb (N.eqb ARROW) k))
          (PyDict.keys course_keywords).

(** ** Ranking *)

(** The values Python can add to a float. *)
Definition is_number (v : pyval) : bool :=
  match v with
  | PNum _ | PBool _ => true
  | _ => false
  end.

(** Every JSON object the decoder yields has a number as its "score"
    (or none). *)
Definition scores_are_numbers (json_loads : str -> option pyval) : Prop :=
  forall t d, json_loads t = Some (PDict d) ->
              is_number (PyDict.get_default d (u "score") (PNum 0)) = true.


(* ================================================================== *)
(** * Auxiliary definitions for the further properties *)
(* ================================================================== *)

(** The two loops of [_load_ontology_data]. *)
Definition add_nodes (rows : list (str * str)) (G : DiGraph) : DiGraph :=
  fold_left (fun G '(n, l) => Graph.add_node G n l) rows G.

Definition add_edges (rows : list (str * str)) (G : DiGraph) : DiGraph :=
  fold_left (fun G '(s, d) => Graph.add_edge G s d) rows G.

(** A string without leading or trailing whitespace. *)
Definition stripped (w : str) : Prop :=
  PyStr.lstrip w = w /\ PyStr.lstrip (rev w) = rev w.

(** No stopword is a key of the expansion cache. *)
Definition cache_clean (self : CTWPFRecommender) : Prop :=
  forall k, is_stopword k = true ->
            PyDict.get (keyword_cache self) k = None.

(** Every cached term is stripped. *)
Definition cache_stripped (self : CTWPFRecommender) : Prop :=
  forall k l w, PyDict.get (keyword_cache self) k = Some l ->
                In w l -> stripped w.

(** Every weight of the mapping is non-negative. *)
Definition nonneg_weights (d : dict Q) : Prop :=
  forall k v, In (k, v) d -> 0 <= v.


(** The client answers every expansion prompt with a non-empty text,
    whatever was requested before. *)
Definition answers_every_expansion (c : Client) : Prop :=
  forall log keyword, exists ch t,
    c log (ExpandPrompt keyword) = Responds (Some (ch :: t)).

(** Every term of the list that is not a stopword has an entry in the
    expansion cache. *)
Definition all_cached (terms : list (str * Q)) (self : CTWPFRecommender)
  : Prop :=
  forall s w, In (s, w) terms -> is_stopword s = false ->
              PyDict.has (keyword_cache self) s = true.

(* ================================================================== *)
(** * Concrete inputs used by the examples *)
(* ================================================================== *)

Module Fixtures.

(** A recommender without API key, graph or courses. *)
Definition bare : CTWPFRecommender :=
  {| client := None; keyword_cache := []; graph := None;
     target_courses := []; api_log := [] |}.

(** A small ontology: "computer science" -- "algorithm", and an edge
    from an unlabelled node. *)
Definition small_graph : DiGraph :=
  Graph.add_edge
    (Graph.add_edge
       (Graph.add_node
          (Graph.add_node Graph.empty (u "n1") (u "computer science"))
          (u "n2") (u "algorithm"))
       (u "n1") (u "n2"))
    (u "n3") (u "n1").

Definition with_graph : CTWPFRecommender :=
  {| client := None; keyword_cache := []; graph := Some small_graph;
     target_courses := []; api_log := [] |}.

(** A client whose every call raises. *)
Definition offline_client : Client := fun _ _ => Raises.

(** A client that answers every expansion with the same three terms and
    every evaluation with the text ["J"]. *)
Definition stub_client : Client :=
  fun _ req =>
    match req with
    | ExpandPrompt _ => Responds (Some (u "ads, brand , market"))
    | EvaluatePrompt _ _ => Responds (Some (u "J"))
    end.

Definition with_client (c : Client) (courses : list Course)
  : CTWPFRecommender :=
  {| client := Some c; keyword_cache := []; graph := None;
     target_courses := courses; api_log := [] |}.

(** A decoder that knows one text: ["J"] is the object
    [{"score": 40, "reason": "fits"}]. *)
Definition stub_loads (t : str) : option pyval :=
  if PyStr.eqb t (u "J")
  then Some (PDict [(u "score", PNum 40); (u "reason", PStr (u "fits"))])
  else None.

Definition no_info : StudentInfo :=
  {| profile_keywords := []; interest_text := NONE_SENTINEL |}.

Definition course (name : string) (kw : dict Q) : Course :=
  {| course_name := Some (u name); professor := None; university := None;
     description := None; keywords := Some kw |}.

(** The profile and the course keywords of the worked example. *)
Definition marketing : dict Q := [(u "marketing", 1.0)].

(** A profile of six terms of weight 1.0 whose first term, the interest,
    is the stopword U+BD84 U+C11D: built without a graph from the
    interest, the major "a" and the history "b", "c", "d", "e". *)
Definition crowded_profile : dict Q :=
  get_keywords_from_input bare (u "a") None [u "b"; u "c"; u "d"; u "e"]
    (Some [48516; 49437]%N).

(** A client that expands "e" to "x" and anything else to "zzz". *)
Definition picky_client : Client :=
  fun _ req =>
    match req with
    | ExpandPrompt k =>
        if PyStr.eqb k (u "e") then Responds (Some (u "x"))
        else Responds (Some (u "zzz"))
    | EvaluatePrompt _ _ => Raises
    end.

Definition x_course : dict Q := [(u "x", 1.0)].

(** Python's enumeration of a set, taken to be the insertion order. *)
Definition insertion_order (l : list str) : list str := l.

(** A recommender without client or graph over the given corpus. *)
Definition offline (courses : list Course) : CTWPFRecommender :=
  {| client := None; keyword_cache := []; graph := None;
     target_courses := courses; api_log := [] |}.


(** Six courses with different weights of one keyword. *)
Definition six_courses : list Course :=
  map (fun w => course "C" [(u "marketing", w)])
      [1.0; 3.0; 2.0; 0.5; 4.0; 2.5].

(** [run_analysis] for the major "marketing" alone. *)
Definition run_marketing (self : CTWPFRecommender)
  : result (DataFrame * dict Q) * CTWPFRecommender :=
  run_analysis insertion_order stub_loads (u "marketing") None [] None self.

Definition frame_of (r : result (DataFrame * dict Q) * CTWPFRecommender)
  : DataFrame :=
  match fst r with
  | Ok (df, _) => df
  | Raise _ => []
  end.

Definition profile_of (r : result (DataFrame * dict Q) * CTWPFRecommender)
  : dict Q :=
  match fst r with
  | Ok (_, profile) => profile
  | Raise _ => []
  end.

(** Two profiles and two course keyword mappings with the same entries
    in different orders. *)
Definition two_terms : dict Q := [(u "marketing", 1.0); (u "ai", 0.5)].
Definition two_terms' : dict Q := [(u "ai", 0.5); (u "marketing", 1.0)].
Definition two_keywords : dict Q := [(u "ai", 2.0); (u "marketing", 1.0)].
Definition two_keywords' : dict Q := [(u "marketing", 1.0); (u "ai", 2.0)].

(** The annotated match "a(<-b)", with the arrow U+2190. *)
Definition a_from_b : str := [97; 40; 8592; 98; 41]%N.

(** A client that expands every keyword to "a" and "a(<-b)". *)
Definition echo_client : Client :=
  fun _ req =>
    match req with
    | ExpandPrompt _ => Responds (Some (u "a, " ++ a_from_b))
    | EvaluatePrompt _ _ => Raises
    end.

(** Course keywords one of which is spelled like an annotated match. *)
Definition shadowed_course : dict Q := [(u "a", 1.0); (a_from_b, 1.0)].

End Fixtures.


Module MoreFixtures.

(** A recommender with the small ontology and the given client. *)
Definition online_with_graph (c : Client) : CTWPFRecommender :=
  {| client := Some c; keyword_cache := []; graph := Some Fixtures.small_graph;
     target_courses := []; api_log := [] |}.

(** The two tables from which [Fixtures.small_graph] is loaded. *)
Definition small_tables : list (str * str) * list (str * str) :=
  ([(u "n1", u "computer science"); (u "n2", u "algorithm")],
   [(u "n1", u "n2"); (u "n3", u "n1")]).



(** The run of the examples, on six courses without a client. *)
Definition six_run : result (DataFrame * dict Q) * CTWPFRecommender :=
  Fixtures.run_marketing (Fixtures.offline Fixtures.six_courses).

(** A client whose evaluations answer the text ["H"], and a decoder for
    which ["H"] is the object [{"score": "high"}]. *)
Definition wordy_client : Client :=
  fun _ req =>
    match req with
    | ExpandPrompt _ => Raises
    | EvaluatePrompt _ _ => Responds (Some (u "H"))
    end.

Definition wordy_loads (t : str) : option pyval :=
  if PyStr.eqb t (u "H")
  then Some (PDict [(u "score", PStr (u "high"))])
  else None.

End MoreFixtures.


Module B64Fixtures.



End B64Fixtures.
(* ================================================================== *)
(** * Facts about strings, dictionaries and folds *)
(* ================================================================== *)

Lemma fold_left_inv {A B : Type} (P : A -> Prop) (f : A -> B -> A)
    (l : list B) :
  (forall a x, In x l -> P a -> P (f a x)) ->
  forall a, P a -> P (fold_left f l a).
Proof.
  induction l as [|x l IH]; intros Hstep a Ha; simpl; [exact Ha|].
  apply IH.
  - intros a' y Hy. apply Hstep. now right.
  - apply Hstep; [now left | exact Ha].
Qed.

Module PyStrFacts.

Lemma eqb_eq (a b : str) : PyStr.eqb a b = true <-> a = b.
Proof.
  revert b. induction a as [|x a IH]; intros [|y b]; simpl;
    try (split; [discriminate | discriminate]); [tauto|].
  rewrite andb_true_iff, N.eqb_eq, IH.
  split; [intros [-> ->]; reflexivity | intros H; inversion H; auto].
Qed.

Lemma eqb_refl (a : str) : PyStr.eqb a a = true.
Proof. now apply eqb_eq. Qed.

Lemma eqb_neq (a b : str) : PyStr.eqb a b = false <-> a <> b.
Proof.
  rewrite <- eqb_eq. destruct (PyStr.eqb a b); split; congruence.
Qed.

Lemma eqb_sym (a b : str) : PyStr.eqb a b = PyStr.eqb b a.
Proof.
  destruct (PyStr.eqb a b) eqn:E; symmetry.
  - apply eqb_eq. symmetry. now apply eqb_eq.
  - apply eqb_neq. intros ->. apply eqb_neq in E. now apply E.
Qed.

Lemma str_eq_dec (a b : str) : {a = b} + {a <> b}.
Proof.
  destruct (PyStr.eqb a b) eqn:E; [left; now apply eqb_eq|].
  right; now apply eqb_neq.
Qed.

Lemma mem_In (x : str) (l : list str) : PyStr.mem x l = true <-> In x l.
Proof.
  unfold PyStr.mem. rewrite existsb_exists. split.
  - intros (y & Hy & E). apply eqb_eq in E. now subst.
  - intros H. exists x. split; [exact H | apply eqb_refl].
Qed.

Lemma mem_false (x : str) (l : list str) :
  PyStr.mem x l = false <-> ~ In x l.
Proof.
  rewrite <- mem_In. destruct (PyStr.mem x l); split; congruence.
Qed.

Lemma truthy_Some (s : str) : PyStr.truthy (Some s) = true <-> s <> [].
Proof. destruct s; simpl; split; congruence. Qed.

End PyStrFacts.

Import PyStrFacts.

Module PyDictFacts.

Section Facts.
Context {V : Type}.
Implicit Types (d : dict V) (k : str) (v : V).

Lemma get_set d k v k' :
  PyDict.get (PyDict.set d k v) k'
  = if PyStr.eqb k' k then Some v else PyDict.get d k'.
Proof.
  induction d as [|[k0 v0] d IH]; simpl; [reflexivity|].
  destruct (PyStr.eqb k k0) eqn:E; simpl.
  - apply eqb_eq in E. subst k0. now destruct (PyStr.eqb k' k).
  - rewrite IH. destruct (PyStr.eqb k' k0) eqn:E0; [|reflexivity].
    apply eqb_eq in E0. subst k0. rewrite eqb_sym, E. reflexivity.
Qed.

Lemma get_set_same d k v : PyDict.get (PyDict.set d k v) k = Some v.
Proof. now rewrite get_set, eqb_refl. Qed.

Lemma get_set_other d k v k' :
  k' <> k -> PyDict.get (PyDict.set d k v) k' = PyDict.get d k'.
Proof. intros H. apply eqb_neq in H. now rewrite get_set, H. Qed.

Lemma In_keys_get d k :
  In k (PyDict.keys d) <-> exists v, PyDict.get d k = Some v.
Proof.
  induction d as [|[k0 v0] d IH]; simpl.
  - split; [tauto | intros [v H]; discriminate].
  - destruct (PyStr.eqb k k0) eqn:E.
    + apply eqb_eq in E. split; [eauto | auto].
    + apply eqb_neq in E. rewrite <- IH. split; [|tauto].
      intros [H|H]; [congruence | exact H].
Qed.

Lemma has_In d k : PyDict.has d k = true <-> In k (PyDict.keys d).
Proof.
  rewrite In_keys_get. unfold PyDict.has.
  destruct (PyDict.get d k); split; eauto; try discriminate.
  intros [v H]; discriminate.
Qed.

Lemma keys_set d k v k' :
  In k' (PyDict.keys (PyDict.set d k v)) <-> k' = k \/ In k' (PyDict.keys d).
Proof.
  rewrite !In_keys_get, get_set.
  destruct (PyStr.eqb k' k) eqn:E.
  - apply eqb_eq in E. split; eauto.
  - apply eqb_neq in E. split; [auto | intros [H|H]; [contradiction|auto]].
Qed.

Lemma In_set d k v k1 v1 :
  In (k1, v1) (PyDict.set d k v) -> v1 = v \/ In (k1, v1) d.
Proof.
  induction d as [|[k0 v0] d IH]; simpl.
  - intros [H|[]]. left. congruence.
  - destruct (PyStr.eqb k k0); simpl.
    + intros [H|H]; [left; congruence | right; now right].
    + intros [H|H]; [right; now left|].
      destruct (IH H); [now left | right; now right].
Qed.

Lemma wf_set d k v : PyDict.wf d -> PyDict.wf (PyDict.set d k v).
Proof.
  unfold PyDict.wf.
  induction d as [|[k0 v0] d IH]; simpl; intros H.
  - constructor; [intros [] | constructor].
  - inversion H as [|? ? Hn Hd]; subst.
    destruct (PyStr.eqb k k0) eqn:E; simpl; constructor; auto.
    intros Hin. apply (keys_set d k v k0) in Hin.
    destruct Hin as [->|Hin]; [|contradiction].
    now rewrite eqb_refl in E.
Qed.

Lemma In_get d k v : PyDict.wf d -> In (k, v) d -> PyDict.get d k = Some v.
Proof.
  unfold PyDict.wf.
  induction d as [|[k0 v0] d IH]; simpl; intros Hwf; [tauto|].
  inversion Hwf as [|? ? Hn Hd]; subst.
  intros [H|H].
  - inversion H; subst. now rewrite eqb_refl.
  - destruct (PyStr.eqb k k0) eqn:E; [|auto].
    apply eqb_eq in E. subst k0. exfalso. apply Hn.
    change k with (fst (k, v)). now apply in_map.
Qed.

Lemma get_In d k v : PyDict.get d k = Some v -> In (k, v) d.
Proof.
  induction d as [|[k0 v0] d IH]; simpl; [discriminate|].
  destruct (PyStr.eqb k k0) eqn:E; [|auto].
  apply eqb_eq in E. subst k0. intros H. inversion H. now left.
Qed.

End Facts.

End PyDictFacts.

Import PyDictFacts.

(* ================================================================== *)
(** * ProfileBuilder *)
(* ================================================================== *)

Section ProfileBuilder.

Variables (major : str) (double_major : option str)
          (history_courses : list str) (interest : option str).

Let items := input_items major double_major history_courses.

Lemma input_items_seed (k : str) :
  In k items <-> is_seed major double_major history_courses k.
Proof.
  unfold items, input_items, is_seed. rewrite !in_app_iff.
  destruct double_major as [[|c dm]|]; cbn -[PyStr.eqb NONE_SENTINEL].
  - intuition congruence.
  - destruct (PyStr.eqb (c :: dm) NONE_SENTINEL) eqn:E;
      cbn -[PyStr.eqb NONE_SENTINEL].
    + apply eqb_eq in E. intuition congruence.
    + apply eqb_neq in E.
      intuition (subst; try congruence; auto).
  - intuition congruence.
Qed.

Lemma seed_interest_keys (k : str) :
  In k (PyDict.keys (seed_interest interest))
  <-> is_given_interest interest k.
Proof.
  unfold seed_interest, is_given_interest.
  destruct interest as [[|c i]|]; simpl.
  - split; [tauto | intros [H N]]. inversion H. subst. now contradiction N.
  - split.
    + intros [H|[]]. subst k. split; [reflexivity | discriminate].
    + intros [H _]. inversion H. now left.
  - split; [tauto | intros [H _]; discriminate].
Qed.

Lemma seed_interest_wf : PyDict.wf (seed_interest interest).
Proof.
  unfold seed_interest, PyDict.wf.
  destruct interest as [[|c i]|]; simpl; repeat constructor; intros [].
Qed.

Lemma seed_interest_values (k : str) (v : Q) :
  In (k, v) (seed_interest interest) -> v = 1.0.
Proof.
  unfold seed_interest.
  destruct interest as [[|c i]|]; simpl; try tauto.
  intros [H|[]]. congruence.
Qed.

(** ** Without a graph *)

Lemma plain_seed_keys (l : list str) (kw : dict Q) (k : str) :
  In k (PyDict.keys (fold_left (fun kw item => PyDict.set kw item 1.0) l kw))
  <-> In k l \/ In k (PyDict.keys kw).
Proof.
  revert kw. induction l as [|x l IH]; intros kw; simpl; [tauto|].
  rewrite IH, keys_set. intuition congruence.
Qed.

End ProfileBuilder.

Section Visits.

(** ** With a graph *)

Variable G : DiGraph.


Lemma visit_neighbor_keys (kw : dict Q) (neighbor k : str) :
  In k (PyDict.keys (visit_neighbor G kw neighbor)) ->
  In k (PyDict.keys kw)
  \/ (k = Graph.label G neighbor /\ k <> [] /\ is_stopword k = false).
Proof.
  unfold visit_neighbor.
  destruct (PyStr.truthy (Some (Graph.label G neighbor))) eqn:T; simpl;
    [|auto].
  destruct (is_stopword (Graph.label G neighbor)) eqn:S; simpl; [auto|].
  rewrite keys_set. intros [->|H]; [right | now left].
  apply truthy_Some in T. auto.
Qed.


Lemma visit_item_mono (kw : dict Q) (item k : str) :
  In k (PyDict.keys kw) \/ k = item ->
  In k (PyDict.keys (visit_item G kw item)).
Proof.
  intros H. unfold visit_item.
  apply fold_left_inv with (P := fun kw' => In k (PyDict.keys kw')).
  - intros kw1 root _ H1. unfold visit_root.
    apply fold_left_inv with (P := fun kw' => In k (PyDict.keys kw'));
      [|exact H1].
    intros kw2 nb _ H2. unfold visit_neighbor.
    destruct (_ && _); [|exact H2]. apply keys_set. now right.
  - apply keys_set. tauto.
Qed.

Lemma visit_items_mono (l : list str) (kw : dict Q) (k : str) :
  In k (PyDict.keys kw) \/ In k l ->
  In k (PyDict.keys (fold_left (visit_item G) l kw)).
Proof.
  revert kw. induction l as [|x l IH]; intros kw; simpl; [tauto|].
  intros H. apply IH.
  destruct H as [H|[H|H]]; [left | left | now right];
    apply visit_item_mono; auto.
Qed.

(** The weight of a stopword key is never incremented. *)
Let stop_at_one (kw : dict Q) : Prop :=
  forall k v, is_stopword k = true -> PyDict.get kw k = Some v -> v = 1.0.

Lemma visit_item_stop (kw : dict Q) (item : str) :
  stop_at_one kw -> stop_at_one (visit_item G kw item).
Proof.
  intros Hkw. unfold visit_item.
  apply fold_left_inv with (P := stop_at_one).
  - intros kw1 root _ H1. unfold visit_root.
    apply fold_left_inv with (P := stop_at_one); [|exact H1].
    intros kw2 nb _ H2. unfold visit_neighbor.
    destruct (PyStr.truthy _); simpl; [|exact H2].
    destruct (is_stopword (Graph.label G nb)) eqn:S; simpl; [exact H2|].
    intros k v Hs. rewrite get_set.
    destruct (PyStr.eqb k (Graph.label G nb)) eqn:E; [|now apply H2].
    apply eqb_eq in E. congruence.
  - intros k v Hs. rewrite get_set.
    destruct (PyStr.eqb k item); [congruence | now apply Hkw].
Qed.

End Visits.

Section Origin.

Variables (major : str) (double_major : option str)
          (history_courses : list str) (interest : option str)
          (G : DiGraph).

Let items := input_items major double_major history_courses.

(** Where a key of the profile can come from. *)
Let origin (k : str) : Prop :=
  In k items \/ is_given_interest interest k
  \/ (k <> [] /\ is_stopword k = false /\ is_expansion_label G items k).

Lemma visit_item_origin (kw : dict Q) (item : str) :
  In item items ->
  (forall k, In k (PyDict.keys kw) -> origin k) ->
  forall k, In k (PyDict.keys (visit_item G kw item)) -> origin k.
Proof.
  intros Hitem Hkw. unfold visit_item.
  apply fold_left_inv
    with (P := fun kw' => forall k, In k (PyDict.keys kw') -> origin k).
  - intros kw1 root Hroot H1. unfold visit_root.
    apply fold_left_inv
      with (P := fun kw' => forall k, In k (PyDict.keys kw') -> origin k);
      [|exact H1].
    intros kw2 nb Hnb H2 k Hk.
    destruct (visit_neighbor_keys _ _ _ _ Hk) as [H|(E & N & S)]; [auto|].
    right; right. repeat split; auto.
    exists item, root, nb. auto.
  - intros k Hk. apply keys_set in Hk. destruct Hk as [->|Hk]; [|auto].
    now left.
Qed.

End Origin.

(* ================================================================== *)
(** * The collaborator: expansion cache and evaluation *)
(* ================================================================== *)

Section Collaborator.

Lemma expand_no_client (keyword : str) (self : CTWPFRecommender) :
  client self = None ->
  expand_keyword_with_gemini keyword self = (Ok [], self).
Proof.
  intros H. unfold expand_keyword_with_gemini. now rewrite H.
Qed.

(** A cached keyword is answered from the cache: [self] is unchanged,
    the client is not called. *)
Lemma expand_cache_hit (keyword : str) (self : CTWPFRecommender)
    (c : Client) (cached : list str) :
  client self = Some c ->
  PyDict.get (keyword_cache self) keyword = Some cached ->
  expand_keyword_with_gemini keyword self = (Ok cached, self).
Proof.
  intros Hc Hk. unfold expand_keyword_with_gemini. now rewrite Hc, Hk.
Qed.

(** [expand_keyword_with_gemini] never raises, and it sends at most one
    request. *)
Lemma expand_returns (keyword : str) (self : CTWPFRecommender) :
  exists expanded self',
    expand_keyword_with_gemini keyword self = (Ok expanded, self')
    /\ client self' = client self
    /\ (api_log self' = api_log self
        \/ api_log self' = api_log self ++ [ExpandPrompt keyword]).
Proof.
  unfold expand_keyword_with_gemini.
  destruct (client self) as [c|] eqn:Hc; [|exists [], self; auto].
  destruct (PyDict.get (keyword_cache self) keyword) as [l|];
    [exists l, self; auto|].
  unfold try_except, bind, generate_content, cache_store, ret.
  destruct (is_stopword keyword); [exists [], self; auto|].
  destruct (c (api_log self) (ExpandPrompt keyword)) as [|[[|ch t]|]];
    eexists; eexists; (split; [reflexivity|]); simpl; auto.
Qed.

(** A call that is answered without a change of [self] (a cache hit, a
    stopword, or no client) is answered in the same way after any other
    call: no call removes or replaces an entry of the cache, and none
    caches a list for a stopword. *)
Lemma expand_hit_stable (keyword other : str) (expanded : list str)
    (self : CTWPFRecommender) :
  expand_keyword_with_gemini keyword self = (Ok expanded, self) ->
  let self' := snd (expand_keyword_with_gemini other self) in
  expand_keyword_with_gemini keyword self' = (Ok expanded, self').
Proof.
  intros Hhit.
  assert (Hlog : forall (l : list Request) (r : Request), l ++ [r] <> l).
  { intros l r H. apply (f_equal (@List.length Request)) in H.
    rewrite length_app in H. simpl in H. lia. }
  assert (Hstate : forall (a b : list str) kc (s : CTWPFRecommender) r,
             (Ok a,
              {| client := client s; keyword_cache := kc;
                 graph := graph s; target_courses := target_courses s;
                 api_log := api_log s ++ [r] |}) = (Ok b, s) -> False).
  { intros a b kc s r H. inversion H as [[Ha Hs]].
    apply (f_equal api_log) in Hs. simpl in Hs. exact (Hlog _ _ Hs). }
  revert Hhit. unfold expand_keyword_with_gemini.
  destruct (client self) as [c|] eqn:Hc;
    [|intros Hhit; cbn [snd ret]; now rewrite Hc].
  destruct (PyDict.get (keyword_cache self) other) as [l|] eqn:Ho.
  { intros Hhit. cbn [snd ret]. rewrite Hc. exact Hhit. }
  unfold try_except, bind, generate_content, cache_store, ret.
  destruct (is_stopword other) eqn:Hso.
  { intros Hhit. cbn [snd]. rewrite Hc. exact Hhit. }
  destruct (PyDict.get (keyword_cache self) keyword) as [l|] eqn:Hk.
  - intros Hhit. inversion Hhit. subst l.
    destruct (c (api_log self) (ExpandPrompt other)) as [|[[|ch t]|]];
      cbn [snd client keyword_cache]; rewrite Hc; try rewrite Hk;
      try reflexivity.
    rewrite get_set.
    destruct (PyStr.eqb keyword other) eqn:E; [|now rewrite Hk].
    apply eqb_eq in E. subst other. congruence.
  - destruct (is_stopword keyword) eqn:Hsk.
    + intros Hhit. inversion Hhit. subst expanded.
      destruct (c (api_log self) (ExpandPrompt other)) as [|[[|ch t]|]];
        cbn [snd client keyword_cache]; rewrite Hc; try rewrite Hk;
        try rewrite Hsk; try reflexivity.
      rewrite get_set.
      destruct (PyStr.eqb keyword other) eqn:E;
        [|rewrite Hk; reflexivity].
      apply eqb_eq in E. subst other. congruence.
    + intros Hhit. exfalso.
      destruct (c (api_log self) (ExpandPrompt keyword)) as [|[[|ch t]|]];
        cbn [client keyword_cache graph target_courses api_log] in Hhit;
        exact (Hstate _ _ _ _ _ Hhit).
Qed.

Lemma expand_each_hit_stable (keyword : str) (expanded : list str)
    (later : list str) (self : CTWPFRecommender) :
  expand_keyword_with_gemini keyword self = (Ok expanded, self) ->
  let self' := snd (expand_each later self) in
  expand_keyword_with_gemini keyword self' = (Ok expanded, self').
Proof.
  revert self. induction later as [|k later IH]; intros self Hhit.
  - exact Hhit.
  - cbn [expand_each]. unfold bind.
    pose proof (expand_hit_stable keyword k expanded self Hhit) as Hnext.
    destruct (expand_returns k self) as (e & s1 & Hk & _).
    rewrite Hk in Hnext |- *. cbn [snd] in Hnext.
    apply IH. exact Hnext.
Qed.

(** A call for a keyword that is neither cached nor a stopword, which the
    client does not answer, returns the empty list, sends one request and
    leaves the cache as it is. *)
Lemma expand_unanswered (keyword : str) (self : CTWPFRecommender)
    (c : Client) :
  client self = Some c ->
  PyDict.get (keyword_cache self) keyword = None ->
  is_stopword keyword = false ->
  unanswered (c (api_log self) (ExpandPrompt keyword)) ->
  expand_keyword_with_gemini keyword self
  = (Ok [], {| client := client self;
               keyword_cache := keyword_cache self;
               graph := graph self;
               target_courses := target_courses self;
               api_log := api_log self ++ [ExpandPrompt keyword] |}).
Proof.
  intros Hc Hk Hs Hun. unfold expand_keyword_with_gemini.
  rewrite Hc, Hk.
  unfold try_except, bind, generate_content, cache_store, ret.
  rewrite Hs.
  destruct Hun as [-> | [-> | ->]]; cbn [client]; rewrite ?Hc; reflexivity.
Qed.

(** A call for a keyword that is neither cached nor a stopword sends one
    request, whatever the client answers. *)
Lemma expand_requests (keyword : str) (self : CTWPFRecommender)
    (c : Client) :
  client self = Some c ->
  PyDict.get (keyword_cache self) keyword = None ->
  is_stopword keyword = false ->
  exists expanded self',
    expand_keyword_with_gemini keyword self = (Ok expanded, self')
    /\ api_log self' = api_log self ++ [ExpandPrompt keyword].
Proof.
  intros Hc Hk Hs. unfold expand_keyword_with_gemini.
  rewrite Hc, Hk.
  unfold try_except, bind, generate_content, cache_store, ret.
  rewrite Hs.
  destruct (c (api_log self) (ExpandPrompt keyword)) as [|[[|ch t]|]];
    eexists; eexists; (split; [reflexivity|]); reflexivity.
Qed.

End Collaborator.

(* ================================================================== *)
(** * ScoringEngine *)
(* ================================================================== *)

Lemma sumQ_app (l l' : list Q) : sumQ (l ++ l') == sumQ l + sumQ l'.
Proof.
  induction l as [|x l IH]; simpl; [ring|]. rewrite IH. ring.
Qed.

Lemma sumQ_perm (l l' : list Q) : Permutation l l' -> sumQ l == sumQ l'.
Proof.
  induction 1 as [|x l l' _ IH|x y l|l l' l'' _ IH1 _ IH2]; simpl.
  - reflexivity.
  - now rewrite IH.
  - ring.
  - now rewrite IH1.
Qed.

Lemma sumQ_map_ext {A} (f g : A -> Q) (l : list A) :
  (forall x, In x l -> f x == g x) -> sumQ (map f l) == sumQ (map g l).
Proof.
  induction l as [|x l IH]; simpl; intros H; [reflexivity|].
  rewrite (H x (or_introl eq_refl)), IH; [reflexivity|].
  intros y Hy. apply H. now right.
Qed.

Lemma filter_perm {A} (f : A -> bool) (l l' : list A) :
  Permutation l l' -> Permutation (filter f l) (filter f l').
Proof.
  induction 1 as [|x l l' _ IH|x y l|l l' l'' _ IH1 _ IH2]; simpl.
  - constructor.
  - destruct (f x); [now constructor | exact IH].
  - destruct (f x), (f y); try reflexivity. apply perm_swap.
  - now transitivity (filter f l').
Qed.

Section DictPermutation.
Context {V : Type}.
Variables d d' : dict V.
Hypothesis Hperm : Permutation d d'.

Lemma keys_perm : Permutation (PyDict.keys d) (PyDict.keys d').
Proof. unfold PyDict.keys. now apply Permutation_map. Qed.

Lemma wf_perm : PyDict.wf d -> PyDict.wf d'.
Proof. unfold PyDict.wf. apply Permutation_NoDup, keys_perm. Qed.

Lemma has_perm (k : str) : PyDict.has d k = PyDict.has d' k.
Proof.
  destruct (PyDict.has d k) eqn:E, (PyDict.has d' k) eqn:E';
    try reflexivity; exfalso.
  - apply has_In in E. apply (Permutation_in _ keys_perm) in E.
    apply has_In in E. congruence.
  - apply has_In in E'.
    apply (Permutation_in _ (Permutation_sym keys_perm)) in E'.
    apply has_In in E'. congruence.
Qed.

Lemma get_perm (k : str) :
  PyDict.wf d -> PyDict.get d k = PyDict.get d' k.
Proof.
  intros Hwf. pose proof (wf_perm Hwf) as Hwf'.
  destruct (PyDict.get d k) as [v|] eqn:E.
  - symmetry. apply In_get; [exact Hwf'|].
    apply (Permutation_in _ Hperm). now apply get_In.
  - destruct (PyDict.get d' k) as [v'|] eqn:E'; [|reflexivity].
    apply get_In in E'.
    apply (Permutation_in _ (Permutation_sym Hperm)) in E'.
    apply (In_get _ _ _ Hwf) in E'. congruence.
Qed.

End DictPermutation.

Lemma get_default_has {V} (d : dict V) (k : str) (a b : V) :
  PyDict.has d k = true ->
  PyDict.get_default d k a = PyDict.get_default d k b.
Proof.
  unfold PyDict.has, PyDict.get_default.
  destruct (PyDict.get d k); [reflexivity | discriminate].
Qed.

Lemma In_firstn {A} (n : nat) (l : list A) (x : A) :
  In x (firstn n l) -> In x l.
Proof.
  revert n. induction l as [|y l IH]; intros [|n]; simpl; try tauto.
  intros [H|H]; [now left | right; eauto].
Qed.

(** ** The stable descending sort *)

Section Sort.
Context {A : Type}.
Variable key : A -> Q.

Let ge_key (a b : A) : Prop := key b <= key a.

Lemma insert_desc_In (x y : A) (l : list A) :
  In y (insert_desc key x l) <-> y = x \/ In y l.
Proof.
  induction l as [|z l IH]; simpl; [intuition|].
  destruct (Qle_bool (key z) (key x)); simpl; [intuition|].
  rewrite IH. intuition.
Qed.

Lemma sorted_desc_In (y : A) (l : list A) :
  In y (sorted_desc key l) <-> In y l.
Proof.
  induction l as [|x l IH]; simpl; [tauto|].
  rewrite insert_desc_In, IH. intuition.
Qed.

Lemma sorted_desc_length (l : list A) :
  List.length (sorted_desc key l) = List.length l.
Proof.
  induction l as [|x l IH]; simpl; [reflexivity|].
  rewrite <- IH. generalize (sorted_desc key l) as s.
  induction s as [|z s IHs]; simpl; [reflexivity|].
  destruct (Qle_bool (key z) (key x)); simpl; [reflexivity|].
  now rewrite IHs.
Qed.

Lemma insert_desc_sorted (x : A) (l : list A) :
  StronglySorted ge_key l -> StronglySorted ge_key (insert_desc key x l).
Proof.
  induction 1 as [|z l Hs IH Hz]; simpl.
  - repeat constructor.
  - destruct (Qle_bool (key z) (key x)) eqn:E.
    + apply Qle_bool_iff in E.
      constructor; [now constructor|].
      constructor; [exact E|].
      rewrite Forall_forall in *. intros y Hy.
      unfold ge_key in *. apply Qle_trans with (key z); auto.
    + constructor; [exact IH|].
      rewrite Forall_forall in *. intros y Hy.
      apply insert_desc_In in Hy. destruct Hy as [->|Hy]; [|auto].
      unfold ge_key. destruct (Qlt_le_dec (key z) (key x)) as [Hlt|Hle].
      * apply Qlt_le_weak in Hlt. apply Qle_bool_iff in Hlt. congruence.
      * exact Hle.
Qed.

Lemma sorted_desc_sorted (l : list A) :
  StronglySorted ge_key (sorted_desc key l).
Proof.
  induction l as [|x l IH]; simpl; [constructor|].
  now apply insert_desc_sorted.
Qed.

Lemma firstn_sorted (n : nat) (l : list A) :
  StronglySorted ge_key l -> StronglySorted ge_key (firstn n l).
Proof.
  revert n. induction l as [|x l IH]; intros [|n] Hs; simpl;
    try constructor.
  - apply IH. now inversion Hs.
  - inversion Hs as [|? ? _ Hall]; subst.
    rewrite Forall_forall in *. intros y Hy. apply Hall.
    eapply In_firstn; eauto.
Qed.

End Sort.

(** ** The CT loop *)

Section CommonTerms.

Variable set_order : list str -> list str.
Hypothesis set_order_perm : forall l, Permutation (set_order l) l.
Variables student_dict course_keywords : dict Q.

Lemma filtered_ct_common :
  Permutation (filtered_ct set_order student_dict course_keywords)
              (common_terms student_dict course_keywords).
Proof.
  unfold filtered_ct, common_terms. rewrite set_order_perm.
  erewrite filter_ext_in; [reflexivity|].
  intros t Ht. unfold is_common_term.
  apply has_In in Ht. now rewrite Ht.
Qed.

Lemma filtered_ct_In (t : str) :
  In t (filtered_ct set_order student_dict course_keywords)
  <-> is_common_term student_dict course_keywords t = true.
Proof.
  split.
  - intros H. apply (Permutation_in _ filtered_ct_common) in H.
    unfold common_terms in H. now apply filter_In in H.
  - intros H. apply (Permutation_in _ (Permutation_sym filtered_ct_common)).
    unfold common_terms. apply filter_In. split; [|exact H].
    unfold is_common_term in H. apply andb_true_iff in H.
    destruct H as [H _]. apply andb_true_iff in H. destruct H as [H _].
    now apply has_In.
Qed.

Lemma ct_fold (l : list str) (ct_score : Q) (matches : list str) :
  (forall t, In t l ->
             is_common_term student_dict course_keywords t = true) ->
  let r := fold_left (ct_step student_dict course_keywords) l
                     (ct_score, matches) in
  fst r == ct_score + sumQ (map (ct_term student_dict course_keywords) l)
  /\ snd r = matches ++ l.
Proof using Type.
  revert ct_score matches.
  induction l as [|t l IH]; intros ct_score matches Hl; simpl.
  - split; [ring | now rewrite app_nil_r].
  - destruct (IH (ct_score
                  + PyDict.get_default student_dict t 1.0
                    * PyDict.get_default course_keywords t 1.0
                    * get_idf_weight t)
                 (matches ++ [t])) as [E1 E2].
    { intros t' Ht'. apply Hl. now right. }
    split.
    + rewrite E1.
      assert (Ht : is_common_term student_dict course_keywords t = true)
        by (apply Hl; now left).
      unfold is_common_term in Ht. rewrite !andb_true_iff in Ht.
      destruct Ht as [[Hs Hc] _]. unfold ct_term.
      rewrite (get_default_has student_dict t 1.0 0 Hs).
      rewrite (get_default_has course_keywords t 1.0 0 Hc).
      ring.
    + rewrite E2, <- app_assoc. reflexivity.
Qed.

(** The CT score is the sum over the common terms, and the match list
    after the first loop is the list of common terms as enumerated. *)
Lemma ct_loop_sum :
  fst (ct_loop set_order student_dict course_keywords)
  == ct_sum student_dict course_keywords
  /\ snd (ct_loop set_order student_dict course_keywords)
     = filtered_ct set_order student_dict course_keywords.
Proof.
  unfold ct_loop.
  destruct (ct_fold (filtered_ct set_order student_dict course_keywords)
                    0 []) as [E1 E2].
  { intros t. apply filtered_ct_In. }
  split; [|exact E2].
  rewrite E1, Qplus_0_l. unfold ct_sum.
  apply sumQ_perm, Permutation_map, filtered_ct_common.
Qed.

End CommonTerms.

(** The sum over the common terms does not depend on the order of the
    entries of either dictionary. *)
Lemma ct_sum_perm (student_dict student_dict' : dict Q)
    (course_keywords course_keywords' : dict Q) :
  PyDict.wf student_dict -> PyDict.wf course_keywords ->
  Permutation student_dict student_dict' ->
  Permutation course_keywords course_keywords' ->
  ct_sum student_dict course_keywords
  == ct_sum student_dict' course_keywords'.
Proof.
  intros Hws Hwc Hs Hc. unfold ct_sum.
  transitivity (sumQ (map (ct_term student_dict course_keywords)
                          (common_terms student_dict' course_keywords'))).
  - apply sumQ_perm, Permutation_map. unfold common_terms.
    rewrite (filter_ext (is_common_term student_dict course_keywords)
                        (is_common_term student_dict' course_keywords')).
    + apply filter_perm, keys_perm, Hs.
    + intros t. unfold is_common_term.
      now rewrite (has_perm _ _ Hs), (has_perm _ _ Hc).
  - apply sumQ_map_ext. intros t _. unfold ct_term, PyDict.get_default.
    rewrite (get_perm _ _ Hs t Hws), (get_perm _ _ Hc t Hwc). reflexivity.
Qed.

(** ** The WP loop *)

Lemma annotate_has_arrow (e_term s_term : str) :
  In ARROW (annotate e_term s_term).
Proof.
  unfold annotate. apply in_or_app. right. simpl. auto.
Qed.

Lemma arrow_free_key (course_keywords : dict Q) (k : str) :
  arrow_free course_keywords = true ->
  In k (PyDict.keys course_keywords) -> ~ In ARROW k.
Proof.
  unfold arrow_free. rewrite forallb_forall. intros H Hk Harrow.
  specialize (H k Hk). apply negb_true_iff in H.
  assert (E : existsb (N.eqb ARROW) k = true).
  { apply existsb_exists. exists ARROW. split; [exact Harrow|].
    apply N.eqb_refl. }
  congruence.
Qed.

(** [wp_loop] never raises. *)
Lemma wp_loop_returns (course_keywords : dict Q) (terms : list (str * Q)) :
  forall acc self,
  exists r self', wp_loop course_keywords terms acc self = (Ok r, self')
                  /\ client self' = client self.
Proof.
  induction terms as [|[s w] terms IH]; intros acc self; simpl.
  - exists acc, self. auto.
  - destruct (is_stopword s); [apply IH|].
    unfold bind.
    destruct (expand_returns s self) as (es & self1 & He & Hc & _).
    rewrite He.
    destruct (IH (fold_left (wp_step course_keywords s w) es acc) self1)
      as (r & self' & Hr & Hc').
    exists r, self'. split; [exact Hr | congruence].
Qed.

Section Propagated.

Variable set_order : list str -> list str.
Hypothesis set_order_perm : forall l, Permutation (set_order l) l.
Variables student_dict course_keywords : dict Q.
Hypothesis course_arrow_free : arrow_free course_keywords = true.

(** The match list holds the common terms and, besides them, only
    annotated matches. *)
Let matches_ok (matches : list str) : Prop :=
  (forall x, is_common_term student_dict course_keywords x = true ->
             In x matches)
  /\ (forall x, In x matches ->
                is_common_term student_dict course_keywords x = true
                \/ In ARROW x).

Lemma wp_step_sum (s_term : str) (s_weight : Q) (e_term : str)
    (wp_score : Q) (matches : list str) :
  PyDict.get student_dict s_term = Some s_weight ->
  matches_ok matches ->
  let r := wp_step course_keywords s_term s_weight
                   (wp_score, matches) e_term in
  fst r == wp_score + wp_term student_dict course_keywords s_term e_term
  /\ matches_ok (snd r).
Proof using course_arrow_free.
  intros Hs [Hin Hout]. unfold wp_step, wp_term.
  destruct (PyDict.has course_keywords e_term) eqn:Hc; simpl;
    [|split; [ring | split; assumption]].
  destruct (is_stopword e_term) eqn:Hstop; simpl;
    [split; [ring | split; assumption]|].
  destruct (PyStr.mem e_term matches) eqn:Hmem; simpl.
  - apply mem_In in Hmem. destruct (Hout _ Hmem) as [Hct|Harrow].
    + rewrite Hct. simpl. split; [ring | split; assumption].
    + exfalso. apply has_In in Hc.
      exact (arrow_free_key _ _ course_arrow_free Hc Harrow).
  - apply mem_false in Hmem.
    destruct (is_common_term student_dict course_keywords e_term) eqn:Hct;
      [exfalso; apply Hmem; now apply Hin|]. simpl.
    split.
    + assert (Hd : PyDict.get_default student_dict s_term 0 = s_weight)
        by (unfold PyDict.get_default; now rewrite Hs).
      rewrite Hd, (get_default_has course_keywords e_term 1.0 0 Hc).
      reflexivity.
    + split.
      * intros x Hx. apply in_or_app. left. now apply Hin.
      * intros x Hx. apply in_app_or in Hx. destruct Hx as [Hx|[<-|[]]].
        -- now apply Hout.
        -- right. apply annotate_has_arrow.
Qed.

Lemma wp_fold_sum (s_term : str) (s_weight : Q) (expanded : list str) :
  PyDict.get student_dict s_term = Some s_weight ->
  forall wp_score matches,
  matches_ok matches ->
  let r := fold_left (wp_step course_keywords s_term s_weight) expanded
                     (wp_score, matches) in
  fst r == wp_score
           + sumQ (map (wp_term student_dict course_keywords s_term)
                       expanded)
  /\ matches_ok (snd r).
Proof using course_arrow_free.
  intros Hs.
  induction expanded as [|e es IH]; intros wp_score matches Hok.
  - simpl. split; [ring | exact Hok].
  - cbn [fold_left].
    destruct (wp_step_sum s_term s_weight e wp_score matches Hs Hok)
      as [E1 Hok1].
    destruct (wp_step course_keywords s_term s_weight
                      (wp_score, matches) e) as [wp1 m1].
    simpl in E1, Hok1.
    destruct (IH wp1 m1 Hok1) as [E2 Hok2].
    split; [|exact Hok2]. rewrite E2, E1. simpl. ring.
Qed.

Lemma wp_loop_sum (terms : list (str * Q)) :
  (forall s w, In (s, w) terms -> PyDict.get student_dict s = Some w) ->
  forall self wp_score matches,
  matches_ok matches ->
  exists expansions r self',
    wp_loop course_keywords terms (wp_score, matches) self = (Ok r, self')
    /\ expand_all
         (filter (fun '(s, _) => negb (is_stopword s)) terms) self
       = (Ok expansions, self')
    /\ fst r == wp_score
                + wp_sum student_dict course_keywords expansions
    /\ matches_ok (snd r).
Proof using course_arrow_free.
  induction terms as [|[s w] terms IH];
    intros Hterms self wp_score matches Hok; simpl.
  - exists [], (wp_score, matches), self. simpl.
    repeat split; try apply Hok. unfold wp_sum. simpl. ring.
  - assert (Hrest : forall s' w', In (s', w') terms ->
                                  PyDict.get student_dict s' = Some w')
      by (intros s' w' H; apply Hterms; now right).
    destruct (is_stopword s) eqn:Hstop; simpl; [now apply IH|].
    unfold bind.
    destruct (expand_returns s self) as (es & self1 & He & _).
    rewrite He.
    assert (Hs : PyDict.get student_dict s = Some w)
      by (apply Hterms; now left).
    destruct (wp_fold_sum s w es Hs wp_score matches Hok) as [E1 Hok1].
    destruct (fold_left (wp_step course_keywords s w) es
                        (wp_score, matches)) as [wp1 m1].
    simpl in E1, Hok1.
    destruct (IH Hrest self1 wp1 m1 Hok1)
      as (exps & r & self' & Hr & Hexp & E2 & Hok2).
    exists ((s, es) :: exps), r, self'.
    rewrite Hr, Hexp. unfold ret.
    repeat split; try apply Hok2.
    rewrite E2, E1. unfold wp_sum. simpl. ring.
Qed.

End Propagated.

(* ================================================================== *)
(** * RankingAggregator *)
(* ================================================================== *)





Lemma assign_percent_recs (recommendations : list Recommendation) :
  map row_rec (assign_percent recommendations) = recommendations.
Proof.
  unfold assign_percent. destruct recommendations as [|r0 rs];
    [reflexivity|].
  rewrite map_map. simpl. f_equal. apply map_id.
Qed.

Section Run.

Variable set_order : list str -> list str.
Variable json_loads : str -> option pyval.

(** [calculate_ctwp_score] never raises and keeps the client. *)
Lemma calculate_returns (student_dict course_keywords : dict Q)
    (self : CTWPFRecommender) :
  exists r self',
    calculate_ctwp_score set_order student_dict course_keywords self
    = (Ok r, self')
    /\ client self' = client self.
Proof.
  unfold calculate_ctwp_score, ctwp_components.
  destruct (ct_loop set_order student_dict course_keywords) as [ct m].
  destruct (wp_loop_returns course_keywords
              (sorted_student_terms student_dict) (0, m) self)
    as ([wp m'] & self' & Hr & Hc).
  unfold bind, ret. rewrite Hr. eauto.
Qed.

Lemma score_courses_length (student_profile : dict Q) (info : StudentInfo)
    (courses : list Course) :
  forall self recs self',
  score_courses set_order json_loads student_profile info courses self
  = (Ok recs, self') ->
  List.length recs = List.length courses.
Proof.
  induction courses as [|c courses IH]; intros self recs self' H.
  - inversion H. reflexivity.
  - cbn [score_courses] in H. unfold bind in H.
    destruct (calculate_ctwp_score _ _ _ _) as [[[ctwp ms]|e] s1];
      [|discriminate].
    destruct (evaluate_relevance_with_gemini _ _ _ _)
      as [[[ai reason]|e] s2]; [|discriminate].
    destruct (py_add ctwp ai s2) as [[total|e] s3]; [|discriminate].
    destruct (score_courses _ _ _ _ courses s3) as [[rest|e] s4] eqn:Hrest;
      [|discriminate].
    inversion H. subst. simpl. f_equal. eapply IH. exact Hrest.
Qed.

(** Without a client no evaluation can return a non-number: the loop
    over the courses returns. *)
Lemma score_courses_offline (student_profile : dict Q)
    (info : StudentInfo) (courses : list Course) :
  forall self, client self = None ->
  exists recs self',
    score_courses set_order json_loads student_profile info courses self
    = (Ok recs, self').
Proof.
  induction courses as [|c courses IH]; intros self Hc.
  - exists [], self. reflexivity.
  - cbn [score_courses]. unfold bind.
    destruct (calculate_returns student_profile (course_keywords c) self)
      as ([ctwp ms] & s1 & Hcalc & Hc1).
    rewrite Hcalc.
    unfold evaluate_relevance_with_gemini.
    rewrite Hc1, Hc. unfold py_add, ret. cbv beta iota.
    destruct (IH s1) as (rest & s2 & Hrest); [congruence|].
    rewrite Hrest. eauto.
Qed.

(** With a decoder whose scores are numbers, an evaluation returns a
    number. *)
Lemma evaluate_returns_number (student_info : StudentInfo)
    (course_info : Course) (self : CTWPFRecommender) :
  scores_are_numbers json_loads ->
  exists score reason self',
    evaluate_relevance_with_gemini json_loads student_info course_info self
    = (Ok (score, reason), self')
    /\ is_number score = true.
Proof.
  intros Hnum. unfold evaluate_relevance_with_gemini.
  destruct (client self) as [c|]; [|do 3 eexists; split; reflexivity].
  unfold try_except, bind, generate_content, loads_text, py_get, raise, ret.
  destruct (c (api_log self) (EvaluatePrompt student_info course_info))
    as [|[t|]];
    try (do 3 eexists; split; reflexivity).
  destruct (json_loads t) as [[| | | | |d]|] eqn:E;
    try (do 3 eexists; split; reflexivity).
  do 3 eexists. split; [reflexivity|]. exact (Hnum t d E).
Qed.

Lemma py_add_number (x : Q) (v : pyval) (self : CTWPFRecommender) :
  is_number v = true -> exists total, py_add x v self = (Ok total, self).
Proof.
  destruct v; simpl; try discriminate; intros _; eexists; reflexivity.
Qed.

(** With such a decoder the loop over the courses returns. *)
Lemma score_courses_returns (student_profile : dict Q)
    (info : StudentInfo) (courses : list Course) :
  scores_are_numbers json_loads ->
  forall self,
  exists recs self',
    score_courses set_order json_loads student_profile info courses self
    = (Ok recs, self').
Proof.
  intros Hnum.
  induction courses as [|c courses IH]; intros self.
  - exists [], self. reflexivity.
  - cbn [score_courses]. unfold bind.
    destruct (calculate_returns student_profile (course_keywords c) self)
      as ([ctwp ms] & s1 & Hcalc & _).
    rewrite Hcalc.
    destruct (evaluate_returns_number info c s1 Hnum)
      as (score & reason & s2 & Heval & Hscore).
    rewrite Heval.
    destruct (py_add_number ctwp score s2 Hscore) as [total Hadd].
    rewrite Hadd.
    destruct (IH s2) as (rest & s3 & Hrest).
    rewrite Hrest. unfold ret. eauto.
Qed.

Lemma run_analysis_returns (major : str) (double_major : option str)
    (history : list str) (interest : option str)
    (self : CTWPFRecommender) :
  scores_are_numbers json_loads ->
  exists df profile self',
    run_analysis set_order json_loads major double_major history interest
                 self = (Ok (df, profile), self').
Proof.
  intros Hnum. unfold run_analysis, bind, ret.
  destruct (score_courses_returns
              (get_keywords_from_input self major double_major history
                 interest)
              (student_info_text
                 (get_keywords_from_input self major double_major history
                    interest) interest)
              (target_courses self) Hnum self) as (recs & s1 & Hs).
  rewrite Hs. eauto.
Qed.

Lemma run_analysis_inv (major : str) (double_major : option str)
    (history : list str) (interest : option str)
    (self self' : CTWPFRecommender) (df : DataFrame) (profile : dict Q) :
  run_analysis set_order json_loads major double_major history interest
               self = (Ok (df, profile), self') ->
  profile
  = get_keywords_from_input self major double_major history interest
  /\ exists recs,
       score_courses set_order json_loads profile
         (student_info_text profile interest) (target_courses self) self
       = (Ok recs, self')
       /\ df = top5 (assign_percent recs).
Proof.
  unfold run_analysis, bind, ret. intros H.
  destruct (score_courses _ _ _ _ _ self) as [[recs|e] s1] eqn:Hs;
    [|discriminate].
  inversion H. subst. split; [reflexivity|]. exists recs. auto.
Qed.

End Run.

(* ================================================================== *)
(** * Binary64 rounding *)
(* ================================================================== *)

Module B64Facts.
Import B64.

























(** The rounded product can fall below an integer that the exact one
    reaches: for the totals 23.75 and 15.75 the percentages are 95 and
    62, while the exact [15.75 / 23.75 * 95] is 63. *)
Lemma percent_below_exact_floor :
  percent_column [23.75; 15.75] = [Some 95%Z; Some 62%Z]
  /\ 15.75 / 23.75 * 95 == 63.
Proof. split; [vm_compute; reflexivity | reflexivity]. Qed.

End B64Facts.

(* ================================================================== *)
(** * Claims about the profile builder *)
(* ================================================================== *)

(** C6.  When the concept graph is absent, the keys of the built profile
    are exactly the seed terms (the major, the double major unless it is
    missing or the "none" sentinel, the history courses) and the interest
    if one is given; every weight is 1.0; no other term appears. *)
Theorem profile_without_graph
    (self : CTWPFRecommender) (major : str) (double_major : option str)
    (history_courses : list str) (interest : option str) :
  graph self = None ->
  let profile :=
    get_keywords_from_input self major double_major history_courses interest
  in
  (forall k, In k (PyDict.keys profile)
             <-> is_seed major double_major history_courses k
                 \/ is_given_interest interest k)
  /\ (forall k v, In (k, v) profile -> v = 1.0)
  /\ PyDict.wf profile.
Proof.
  intros Hg. unfold get_keywords_from_input. rewrite Hg. cbv zeta.
  split; [|split].
  - intros k. rewrite plain_seed_keys, input_items_seed, seed_interest_keys.
    reflexivity.
  - apply fold_left_inv
      with (P := fun kw : dict Q => forall k v, In (k, v) kw -> v = 1.0).
    + intros kw item _ IH k v Hin.
      destruct (In_set _ _ _ _ _ Hin); eauto.
    + apply seed_interest_values.
  - apply fold_left_inv with (P := fun kw : dict Q => PyDict.wf kw).
    + intros kw item _ IH. now apply wf_set.
    + apply seed_interest_wf.
Qed.

Lemma profile_without_graph_witness :
  let profile :=
    get_keywords_from_input Fixtures.bare (u "cs") (Some NONE_SENTINEL)
      [u "db"; u "os"] (Some (u "ai"))
  in
  (forall k, In k (PyDict.keys profile)
             <-> is_seed (u "cs") (Some NONE_SENTINEL) [u "db"; u "os"] k
                 \/ is_given_interest (Some (u "ai")) k)
  /\ (forall k v, In (k, v) profile -> v = 1.0)
  /\ PyDict.wf profile.
Proof.
  apply (profile_without_graph Fixtures.bare). reflexivity.
Defined.

(** C10.  With a loaded graph, a key of the profile that is neither a seed
    term nor the interest is the label of a 1-hop neighbour, is not empty
    and is not a stopword.  Seed terms and the interest are not filtered:
    each of them is a key of the profile, and one that is a stopword has
    weight exactly 1.0. *)
Theorem expansion_filters_stopwords_seeds_bypass
    (self : CTWPFRecommender) (G : DiGraph) (major : str)
    (double_major : option str) (history_courses : list str)
    (interest : option str) :
  graph self = Some G ->
  let profile :=
    get_keywords_from_input self major double_major history_courses interest
  in
  let seed_or_interest k :=
    is_seed major double_major history_courses k
    \/ is_given_interest interest k in
  (forall k, In k (PyDict.keys profile) -> ~ seed_or_interest k ->
             k <> [] /\ is_stopword k = false
             /\ is_expansion_label G
                  (input_items major double_major history_courses) k)
  /\ (forall k, seed_or_interest k -> In k (PyDict.keys profile))
  /\ (forall k, seed_or_interest k -> is_stopword k = true ->
                PyDict.get profile k = Some 1.0).
Proof.
  intros Hg. unfold get_keywords_from_input. rewrite Hg. cbv zeta.
  set (items := input_items major double_major history_courses).
  set (profile := fold_left (visit_item G) items (seed_interest interest)).
  assert (Hall : forall k, is_seed major double_major history_courses k
                           \/ is_given_interest interest k ->
                           In k (PyDict.keys profile)).
  { intros k Hk. apply visit_items_mono.
    destruct Hk as [Hk|Hk]; [right | left].
    - now apply input_items_seed.
    - now apply seed_interest_keys. }
  assert (Hstop : forall k v, is_stopword k = true ->
                              PyDict.get profile k = Some v -> v = 1.0).
  { apply fold_left_inv
      with (P := fun kw : dict Q =>
                   forall k v, is_stopword k = true ->
                               PyDict.get kw k = Some v -> v = 1.0).
    - intros kw item _ IH. now apply visit_item_stop.
    - intros k v _ Hget. apply get_In in Hget.
      eapply seed_interest_values; eauto. }
  split; [|split].
  - intros k Hk Hnot.
    assert (Horigin :
              In k items \/ is_given_interest interest k
              \/ (k <> [] /\ is_stopword k = false
                  /\ is_expansion_label G items k)).
    { clear Hnot. revert k Hk.
      apply fold_left_inv
        with (P := fun kw : dict Q =>
                     forall k, In k (PyDict.keys kw) ->
                     In k items \/ is_given_interest interest k
                     \/ (k <> [] /\ is_stopword k = false
                         /\ is_expansion_label G items k)).
      - intros kw item Hitem IH.
        now apply (visit_item_origin major double_major history_courses
                     interest G kw item).
      - intros k Hk. right; left. now apply seed_interest_keys. }
    destruct Horigin as [H|[H|H]]; [| |exact H].
    + exfalso. apply Hnot. left. now apply input_items_seed.
    + exfalso. apply Hnot. now right.
  - exact Hall.
  - intros k Hk Hs.
    destruct (proj1 (In_keys_get profile k) (Hall k Hk)) as [v Hv].
    rewrite Hv. f_equal. now apply (Hstop k v).
Qed.

Lemma expansion_filters_stopwords_seeds_bypass_witness :
  let profile :=
    get_keywords_from_input Fixtures.with_graph (u "computer")
      (Some [51204; 44277]%N) [] None
  in
  let seed_or_interest k :=
    is_seed (u "computer") (Some [51204; 44277]%N) [] k
    \/ is_given_interest None k in
  (forall k, In k (PyDict.keys profile) -> ~ seed_or_interest k ->
             k <> [] /\ is_stopword k = false
             /\ is_expansion_label Fixtures.small_graph
                  (input_items (u "computer") (Some [51204; 44277]%N) []) k)
  /\ (forall k, seed_or_interest k -> In k (PyDict.keys profile))
  /\ (forall k, seed_or_interest k -> is_stopword k = true ->
                PyDict.get profile k = Some 1.0).
Proof.
  apply (expansion_filters_stopwords_seeds_bypass Fixtures.with_graph).
  reflexivity.
Defined.

(* ================================================================== *)
(** * Claims about the collaborator *)
(* ================================================================== *)

(** C4, as stated, fails twice over.  A call that raises (or answers
    with an empty text) caches nothing, so the next call with the same
    keyword sends a second request.  And the cache belongs to the
    recommender, not to the process: two recommenders built one after the
    other, as the application builds one on every run, each send a
    request for the same keyword, although the client answers. *)
Lemma expand_twice_can_call_twice :
  ~ (calls_made (expand_twice (u "ai"))
       (Fixtures.with_client Fixtures.offline_client []) <= 1)%nat
  /\ (let build :=
        init (Some (u "key")) None (fun _ => Some Fixtures.stub_client)
             None FileMissing in
      exists expanded first second,
        expand_keyword_with_gemini (u "marketing") build
        = (Ok expanded, first)
        /\ expand_keyword_with_gemini (u "marketing") build
           = (Ok expanded, second)
        /\ expanded <> []
        /\ ~ (List.length (api_log first) + List.length (api_log second)
              <= 1)%nat).
Proof.
  split; [vm_compute; lia|].
  do 3 eexists. split; [vm_compute; reflexivity|].
  split; [vm_compute; reflexivity|].
  split; [discriminate | vm_compute; lia].
Qed.

(** C4, amended.  The cache is kept per exact keyword in the recommender,
    for as long as that recommender lives.
    - When the client answers the keyword's prompt with a non-empty text
      (or there is no client), two calls with the same keyword send at
      most one request and return the same list, and from then on every
      call with that keyword, after any other calls, returns that list
      and leaves [self] as it is.
    - When the keyword is neither cached nor a stopword and the call
      raises or the response has no text or an empty one, the call
      returns the empty list and caches nothing, so the next call with
      the same keyword sends a second request.
    - A new recommender starts with an empty cache: with a client, its
      first call for a keyword that is not a stopword sends a request. *)
Theorem expand_caches_per_recommender
    (self : CTWPFRecommender) (keyword : str) :
  (answers_expansion self keyword ->
   exists expanded self',
     expand_keyword_with_gemini keyword self = (Ok expanded, self')
     /\ expand_twice keyword self = (Ok (expanded, expanded), self')
     /\ (calls_made (expand_twice keyword) self <= 1)%nat
     /\ forall later,
          let self'' := snd (expand_each later self') in
          expand_keyword_with_gemini keyword self''
          = (Ok expanded, self''))
  /\ (forall c,
        client self = Some c ->
        PyDict.get (keyword_cache self) keyword = None ->
        is_stopword keyword = false ->
        unanswered (c (api_log self) (ExpandPrompt keyword)) ->
        exists self1 second self2,
          expand_keyword_with_gemini keyword self = (Ok [], self1)
          /\ keyword_cache self1 = keyword_cache self
          /\ expand_keyword_with_gemini keyword self1 = (Ok second, self2)
          /\ api_log self2
             = api_log self ++ [ExpandPrompt keyword; ExpandPrompt keyword]
          /\ calls_made (expand_twice keyword) self = 2%nat)
  /\ (forall api_key env_api_key make_client ontology course_file c,
        let fresh :=
          init api_key env_api_key make_client ontology course_file in
        client fresh = Some c ->
        is_stopword keyword = false ->
        keyword_cache fresh = []
        /\ calls_made (expand_keyword_with_gemini keyword) fresh = 1%nat).
Proof.
  split; [|split].
  - intros Hans.
    assert (H : exists expanded self',
               expand_keyword_with_gemini keyword self = (Ok expanded, self')
               /\ expand_keyword_with_gemini keyword self'
                  = (Ok expanded, self')
               /\ (List.length (api_log self')
                   <= List.length (api_log self) + 1)%nat).
    { destruct (client self) as [c|] eqn:Hc.
      - destruct (PyDict.get (keyword_cache self) keyword) as [l|] eqn:Hk.
        + exists l, self. rewrite (expand_cache_hit _ _ _ _ Hc Hk).
          repeat split. lia.
        + unfold expand_keyword_with_gemini at 1. rewrite Hc, Hk.
          unfold try_except, bind, generate_content, cache_store, ret.
          destruct (is_stopword keyword) eqn:Hs.
          * exists [], self. split; [reflexivity|]. split; [|lia].
            unfold expand_keyword_with_gemini. rewrite Hc, Hk.
            unfold try_except, ret. now rewrite Hs.
          * destruct (Hans c Hc) as (ch & t & Hresp). rewrite Hresp.
            eexists; eexists. split; [reflexivity|]. split.
            -- apply expand_cache_hit with (c := c); [exact Hc|].
               apply get_set_same.
            -- simpl. rewrite length_app. simpl. lia.
      - exists [], self. rewrite (expand_no_client _ _ Hc).
        repeat split. lia. }
    destruct H as (expanded & self' & H1 & H2 & Hlen).
    exists expanded, self'.
    split; [exact H1|]. split; [|split].
    + unfold expand_twice, bind, ret. now rewrite H1, H2.
    + unfold calls_made, expand_twice, bind, ret. rewrite H1, H2.
      simpl. lia.
    + intros later. apply expand_each_hit_stable. exact H2.
  - intros c Hc Hk Hs Hun.
    pose proof (expand_unanswered keyword self c Hc Hk Hs Hun) as H1.
    set (self1 := {| client := client self;
                     keyword_cache := keyword_cache self;
                     graph := graph self;
                     target_courses := target_courses self;
                     api_log := api_log self ++ [ExpandPrompt keyword] |})
      in H1.
    destruct (expand_requests keyword self1 c Hc Hk Hs)
      as (second & self2 & H2 & Hlog).
    exists self1, second, self2.
    split; [exact H1|]. split; [reflexivity|]. split; [exact H2|].
    assert (Hlog2 : api_log self2
                    = api_log self
                      ++ [ExpandPrompt keyword; ExpandPrompt keyword]).
    { rewrite Hlog. unfold self1. cbn [api_log].
      now rewrite <- app_assoc. }
    split; [exact Hlog2|].
    unfold calls_made, expand_twice, bind, ret. rewrite H1, H2.
    cbn [snd]. rewrite Hlog2, length_app. simpl. lia.
  - intros api_key env_api_key make_client ontology course_file c fresh
           Hc Hs.
    split; [reflexivity|].
    destruct (expand_requests keyword fresh c Hc eq_refl Hs)
      as (expanded & self' & H1 & Hlog).
    unfold calls_made. rewrite H1. cbn [snd]. rewrite Hlog.
    rewrite length_app. simpl. lia.
Qed.

Lemma expand_caches_per_recommender_witness :
  (exists expanded self',
     expand_keyword_with_gemini (u "marketing")
       (Fixtures.with_client Fixtures.stub_client []) = (Ok expanded, self')
     /\ expand_twice (u "marketing")
          (Fixtures.with_client Fixtures.stub_client [])
        = (Ok (expanded, expanded), self')
     /\ (calls_made (expand_twice (u "marketing"))
           (Fixtures.with_client Fixtures.stub_client []) <= 1)%nat
     /\ forall later,
          let self'' := snd (expand_each later self') in
          expand_keyword_with_gemini (u "marketing") self''
          = (Ok expanded, self''))
  /\ (exists self1 second self2,
        expand_keyword_with_gemini (u "ai")
          (Fixtures.with_client Fixtures.offline_client [])
        = (Ok [], self1)
        /\ keyword_cache self1 = []
        /\ expand_keyword_with_gemini (u "ai") self1 = (Ok second, self2)
        /\ api_log self2 = [ExpandPrompt (u "ai"); ExpandPrompt (u "ai")]
        /\ calls_made (expand_twice (u "ai"))
             (Fixtures.with_client Fixtures.offline_client []) = 2%nat)
  /\ (keyword_cache
        (init (Some (u "key")) None (fun _ => Some Fixtures.stub_client)
              None FileMissing) = []
      /\ calls_made (expand_keyword_with_gemini (u "marketing"))
           (init (Some (u "key")) None (fun _ => Some Fixtures.stub_client)
                 None FileMissing) = 1%nat).
Proof.
  split; [|split].
  - apply (proj1 (expand_caches_per_recommender
                    (Fixtures.with_client Fixtures.stub_client [])
                    (u "marketing"))).
    intros c Hc. inversion Hc. subst c. simpl. eauto.
  - apply (proj1 (proj2 (expand_caches_per_recommender
                           (Fixtures.with_client Fixtures.offline_client [])
                           (u "ai")))
             Fixtures.offline_client).
    + reflexivity.
    + reflexivity.
    + reflexivity.
    + left. reflexivity.
  - apply (proj2 (proj2 (expand_caches_per_recommender Fixtures.bare
                           (u "marketing")))
             (Some (u "key")) None (fun _ => Some Fixtures.stub_client)
             None FileMissing Fixtures.stub_client).
    + reflexivity.
    + reflexivity.
Defined.

(** C7, as stated, fails for malformed structured output that is a JSON
    object: the object is not checked.  When the client answers with the
    object [{"score": "high"}], the score returned is the string
    ["high"], not 0, and the reason is the default of a successful
    evaluation, not a failure reason. *)
Lemma evaluate_returns_malformed_score :
  exists self',
    evaluate_relevance_with_gemini MoreFixtures.wordy_loads
      Fixtures.no_info (Fixtures.course "A" Fixtures.marketing)
      (Fixtures.with_client MoreFixtures.wordy_client [])
    = (Ok (PStr (u "high"), PStr MSG_NO_REASON), self')
    /\ is_number (PStr (u "high")) = false
    /\ PStr (u "high") <> PNum 0
    /\ PStr MSG_NO_REASON <> PStr MSG_API_ERROR
    /\ PStr MSG_NO_REASON <> PStr MSG_AI_FAILED.
Proof.
  eexists. split; [vm_compute; reflexivity|].
  split; [reflexivity|]. repeat split; discriminate.
Qed.

(** C7, amended.  [evaluate_relevance_with_gemini] never raises.  On
    every failure that the code handles (no client, a call that raises,
    a response without text, a text that is not JSON, a JSON value that
    is not an object) it returns the score 0 with one of the two failure
    reasons.  A decoded object is returned as it is: its entries "score"
    and "reason", with the defaults 0 and the "no reason" string,
    whatever their types and values. *)
Theorem evaluate_never_raises
    (json_loads : str -> option pyval) (self : CTWPFRecommender)
    (student_info : StudentInfo) (course_info : Course) :
  exists score reason self',
    evaluate_relevance_with_gemini json_loads student_info course_info self
    = (Ok (score, reason), self')
    /\ (if evaluation_fails json_loads self student_info course_info
        then score = PNum 0
             /\ (reason = PStr MSG_API_ERROR \/ reason = PStr MSG_AI_FAILED)
        else
          let d :=
            evaluation_object json_loads self student_info course_info in
          score = PyDict.get_default d (u "score") (PNum 0)
          /\ reason = PyDict.get_default d (u "reason") (PStr MSG_NO_REASON)).
Proof.
  unfold evaluate_relevance_with_gemini, evaluation_fails, evaluation_object.
  destruct (client self) as [c|]; [|do 3 eexists; split; [reflexivity|auto]].
  unfold try_except, bind, generate_content, loads_text, py_get, raise, ret.
  destruct (c (api_log self) (EvaluatePrompt student_info course_info))
    as [|[t|]];
    try (do 3 eexists; split; [reflexivity|auto]).
  destruct (json_loads t) as [[| | | | |d]|];
    do 3 eexists; (split; [reflexivity|auto]).
Qed.

(* ================================================================== *)
(** * Claims about the scoring engine *)
(* ================================================================== *)

(** [ctwp_components] returns, and its CT score is the sum over the common
    terms. *)
Lemma ctwp_components_ct (set_order : list str -> list str)
    (student_dict course_keywords : dict Q) (self : CTWPFRecommender) :
  (forall l, Permutation (set_order l) l) ->
  exists ct wp matches self',
    ctwp_components set_order student_dict course_keywords self
    = (Ok (ct, wp, matches), self')
    /\ ct == ct_sum student_dict course_keywords.
Proof.
  intros Hperm. unfold ctwp_components.
  destruct (ct_loop_sum set_order Hperm student_dict course_keywords)
    as [Hct _].
  destruct (ct_loop set_order student_dict course_keywords) as [ct m].
  destruct (wp_loop_returns course_keywords
              (sorted_student_terms student_dict) (0, m) self)
    as ([wp m'] & self' & Hr & _).
  exists ct, wp, m', self'. unfold bind, ret. rewrite Hr. auto.
Qed.

(** C1, as stated, fails when a stopword is among the five heaviest
    profile terms: the code takes the five heaviest terms first and then
    skips the stopword, so the sixth term is never expanded, whereas the
    five heaviest non-stopwords include it. *)
Lemma wp_stopword_takes_a_top5_slot :
  exists expansions r self1 self2,
    expand_all (top5_of_non_stopwords Fixtures.crowded_profile)
      (Fixtures.with_client Fixtures.picky_client [])
    = (Ok expansions, self1)
    /\ ctwp_components Fixtures.insertion_order Fixtures.crowded_profile
         Fixtures.x_course (Fixtures.with_client Fixtures.picky_client [])
       = (Ok r, self2)
    /\ ~ snd (fst r)
         == wp_sum Fixtures.crowded_profile Fixtures.x_course expansions.
Proof.
  do 4 eexists. split; [vm_compute; reflexivity|].
  split; [vm_compute; reflexivity|].
  vm_compute. discriminate.
Qed.

(** Why the amended C1 excludes course keywords that contain the arrow:
    [e_term in matches] also finds the annotated matches appended by
    earlier propagated matches.  Here "a" is matched for "b" and recorded
    as "a(<-b)"; the returned term "a(<-b)", itself a course keyword and
    not a CT match, is then skipped: the WP score is 0.8, not 1.6. *)
Lemma wp_annotated_match_shadows_keyword :
  exists expansions r self1 self2,
    expand_all (non_stopwords_of_top5 [(u "b", 1.0)])
      (Fixtures.with_client Fixtures.echo_client [])
    = (Ok expansions, self1)
    /\ ctwp_components Fixtures.insertion_order [(u "b", 1.0)]
         Fixtures.shadowed_course
         (Fixtures.with_client Fixtures.echo_client [])
       = (Ok r, self2)
    /\ snd (fst r) == 0.8
    /\ wp_sum [(u "b", 1.0)] Fixtures.shadowed_course expansions == 1.6.
Proof.
  do 4 eexists. split; [vm_compute; reflexivity|].
  split; [vm_compute; reflexivity|].
  split; vm_compute; reflexivity.
Qed.

(** C1, amended.  The code takes the five heaviest profile terms (ties in
    the order of the profile) and expands those of them that are not
    stopwords.  When no course keyword contains the arrow of the annotated
    matches, the WP score is the sum, over these terms [s] and over each
    term [e] returned for [s] that is a key of the course keywords, is not
    a stopword and is not a CT match, of
    [profile[s] * 0.8 * courseKeywords[e]]. *)
Theorem wp_score_is_sum_over_expansions
    (set_order : list str -> list str)
    (student_dict course_keywords : dict Q) (self : CTWPFRecommender) :
  (forall l, Permutation (set_order l) l) ->
  PyDict.wf student_dict ->
  arrow_free course_keywords = true ->
  exists expansions ct wp matches self',
    expand_all (non_stopwords_of_top5 student_dict) self
    = (Ok expansions, self')
    /\ ctwp_components set_order student_dict course_keywords self
       = (Ok (ct, wp, matches), self')
    /\ wp == wp_sum student_dict course_keywords expansions.
Proof.
  intros Hperm Hwf Harrow. unfold ctwp_components.
  destruct (ct_loop_sum set_order Hperm student_dict course_keywords)
    as [_ Hm].
  destruct (ct_loop set_order student_dict course_keywords) as [ct m].
  simpl in Hm. subst m.
  destruct (wp_loop_sum student_dict course_keywords Harrow
              (sorted_student_terms student_dict)) with
    (self := self) (wp_score := 0)
    (matches := filtered_ct set_order student_dict course_keywords)
    as (exps & [wp m'] & self' & Hr & Hexp & Hwp & _).
  - intros s w Hin. apply In_get; [exact Hwf|].
    unfold sorted_student_terms in Hin.
    apply In_firstn in Hin. now apply sorted_desc_In in Hin.
  - split.
    + intros x Hx. now apply filtered_ct_In.
    + intros x Hx. left. now apply (filtered_ct_In set_order Hperm) in Hx.
  - exists exps, ct, wp, m', self'. unfold bind, ret. rewrite Hr.
    repeat split; [exact Hexp|]. simpl in Hwp. rewrite Hwp. ring.
Qed.

Ltac solve_wf :=
  unfold PyDict.wf; vm_compute;
  repeat (constructor; [simpl; intuition discriminate|]); constructor.

Lemma wp_score_is_sum_over_expansions_witness :
  exists expansions ct wp matches self',
    expand_all (non_stopwords_of_top5 Fixtures.crowded_profile)
      (Fixtures.with_client Fixtures.picky_client [])
    = (Ok expansions, self')
    /\ ctwp_components Fixtures.insertion_order Fixtures.crowded_profile
         Fixtures.x_course (Fixtures.with_client Fixtures.picky_client [])
       = (Ok (ct, wp, matches), self')
    /\ wp == wp_sum Fixtures.crowded_profile Fixtures.x_course expansions.
Proof.
  apply (wp_score_is_sum_over_expansions Fixtures.insertion_order
           Fixtures.crowded_profile Fixtures.x_course
           (Fixtures.with_client Fixtures.picky_client [])).
  - intros l. apply Permutation_refl.
  - solve_wf.
  - reflexivity.
Defined.

(** C5.  For the profile {"marketing": 1.0} and the course keywords
    {"marketing": 1.0}, whatever the collaborator returns: the CT score
    is 1.0 * 1.0 * 1.5 = 1.5, the WP score is 0, and the final score is
    0.5 * 1.5 * 5.0 = 3.75. *)
Theorem marketing_example_scores
    (set_order : list str -> list str) (self : CTWPFRecommender) :
  (forall l, Permutation (set_order l) l) ->
  exists ct wp matches final shown self',
    ctwp_components set_order Fixtures.marketing Fixtures.marketing self
    = (Ok (ct, wp, matches), self')
    /\ ct == 1.0 * 1.0 * 1.5 /\ ct == 1.5
    /\ wp == 0
    /\ calculate_ctwp_score set_order Fixtures.marketing Fixtures.marketing
         self
       = (Ok (final, shown), self')
    /\ final == 0.5 * 1.5 * 5.0 /\ final == 3.75.
Proof.
  intros Hperm.
  destruct (ctwp_components_ct set_order Fixtures.marketing
              Fixtures.marketing self Hperm)
    as (ct & wp & m & self' & Hrun & Hct).
  assert (Hwp : exists exps,
             wp == wp_sum Fixtures.marketing Fixtures.marketing exps).
  { revert Hrun. unfold ctwp_components.
    destruct (ct_loop_sum set_order Hperm Fixtures.marketing
                Fixtures.marketing) as [_ Hm].
    destruct (ct_loop set_order Fixtures.marketing Fixtures.marketing)
      as [ct0 m0].
    simpl in Hm. subst m0.
    destruct (wp_loop_sum Fixtures.marketing Fixtures.marketing eq_refl
                (sorted_student_terms Fixtures.marketing)) with
      (self := self) (wp_score := 0)
      (matches := filtered_ct set_order Fixtures.marketing
                    Fixtures.marketing)
      as (exps & [wp1 m1] & self1 & Hr & _ & Hsum & _).
    - intros s w [H|[]]. inversion H. reflexivity.
    - split.
      + intros x Hx. now apply filtered_ct_In.
      + intros x Hx. left.
        now apply (filtered_ct_In set_order Hperm) in Hx.
    - unfold bind, ret. rewrite Hr. intros H. inversion H. subst.
      exists exps. simpl in Hsum. rewrite Hsum. ring. }
  destruct Hwp as [exps Hwp].
  assert (Hzero : wp == 0).
  { rewrite Hwp. clear. unfold wp_sum.
    induction exps as [|[s es] exps IH]; simpl; [reflexivity|].
    rewrite IH, Qplus_0_r. clear.
    induction es as [|e es IH]; simpl; [reflexivity|].
    rewrite IH, Qplus_0_r. unfold wp_term.
    destruct (PyDict.has Fixtures.marketing e) eqn:He; [|reflexivity].
    apply has_In in He. destruct He as [<-|[]]. reflexivity. }
  assert (Hct15 : ct == 1.5) by (rewrite Hct; reflexivity).
  exists ct, wp, m, ((0.5 * ct + 0.5 * wp) * 5.0),
         (set_order (distinct m)), self'.
  split; [exact Hrun|].
  split; [rewrite Hct15; reflexivity|].
  split; [exact Hct15|].
  split; [exact Hzero|].
  split; [unfold calculate_ctwp_score, bind, ret; now rewrite Hrun|].
  rewrite Hct15, Hzero. split; reflexivity.
Qed.

Lemma marketing_example_scores_witness :
  exists ct wp matches final shown self',
    ctwp_components Fixtures.insertion_order Fixtures.marketing
      Fixtures.marketing (Fixtures.with_client Fixtures.stub_client [])
    = (Ok (ct, wp, matches), self')
    /\ ct == 1.0 * 1.0 * 1.5 /\ ct == 1.5
    /\ wp == 0
    /\ calculate_ctwp_score Fixtures.insertion_order Fixtures.marketing
         Fixtures.marketing (Fixtures.with_client Fixtures.stub_client [])
       = (Ok (final, shown), self')
    /\ final == 0.5 * 1.5 * 5.0 /\ final == 3.75.
Proof.
  apply (marketing_example_scores Fixtures.insertion_order
           (Fixtures.with_client Fixtures.stub_client [])).
  intros l. apply Permutation_refl.
Defined.




(* ================================================================== *)
(** * Claims about the ranking *)
(* ================================================================== *)



(** C3.  The list returned by [run_analysis] has at most 5 rows (and no
    more rows than there are courses), and its rows are in non-increasing
    order of total score.  [run_analysis] returns whenever the scores the
    decoder yields are numbers. *)
Theorem run_returns_top5_sorted
    (set_order : list str -> list str) (json_loads : str -> option pyval)
    (major : str) (double_major : option str) (history : list str)
    (interest : option str) (self : CTWPFRecommender) :
  (scores_are_numbers json_loads ->
   exists df profile self',
     run_analysis set_order json_loads major double_major history interest
                  self = (Ok (df, profile), self'))
  /\ forall df profile self',
       run_analysis set_order json_loads major double_major history interest
                    self = (Ok (df, profile), self') ->
       (List.length df <= 5)%nat
       /\ (List.length df <= List.length (target_courses self))%nat
       /\ StronglySorted (fun a b => row_total b <= row_total a) df.
Proof.
  split; [apply run_analysis_returns|].
  intros df profile self' Hrun.
  destruct (run_analysis_inv _ _ _ _ _ _ _ _ _ _ Hrun)
    as (_ & recs & Hscore & ->).
  pose proof (score_courses_length _ _ _ _ _ _ _ _ Hscore) as Hlen.
  unfold top5. split; [apply firstn_le_length|]. split.
  - rewrite length_firstn, sorted_desc_length.
    assert (E : List.length (assign_percent recs) = List.length recs).
    { rewrite <- (length_map row_rec). now rewrite assign_percent_recs. }
    lia.
  - apply firstn_sorted, sorted_desc_sorted.
Qed.

Lemma run_returns_top5_sorted_witness :
  let df := Fixtures.frame_of
              (Fixtures.run_marketing
                 (Fixtures.with_client Fixtures.stub_client
                    Fixtures.six_courses)) in
  (List.length df <= 5)%nat
  /\ (List.length df <= List.length Fixtures.six_courses)%nat
  /\ StronglySorted (fun a b => row_total b <= row_total a) df.
Proof.
  apply (proj2 (run_returns_top5_sorted Fixtures.insertion_order
                  Fixtures.stub_loads (u "marketing") None [] None
                  (Fixtures.with_client Fixtures.stub_client
                     Fixtures.six_courses))
           (Fixtures.frame_of
              (Fixtures.run_marketing
                 (Fixtures.with_client Fixtures.stub_client
                    Fixtures.six_courses)))
           (Fixtures.profile_of
              (Fixtures.run_marketing
                 (Fixtures.with_client Fixtures.stub_client
                    Fixtures.six_courses)))
           (snd (Fixtures.run_marketing
                   (Fixtures.with_client Fixtures.stub_client
                      Fixtures.six_courses)))).
  vm_compute. reflexivity.
Defined.

(** C9.  With an empty course corpus, [run_analysis] returns: the
    recommendation list is empty, [self] is unchanged, and the profile is
    the one built from the inputs, which is not empty since the major is
    always one of its keys. *)
Theorem run_on_empty_corpus
    (set_order : list str -> list str) (json_loads : str -> option pyval)
    (major : str) (double_major : option str) (history : list str)
    (interest : option str) (self : CTWPFRecommender) :
  target_courses self = [] ->
  let profile :=
    get_keywords_from_input self major double_major history interest in
  run_analysis set_order json_loads major double_major history interest self
  = (Ok ([], profile), self)
  /\ profile <> []
  /\ forall k, is_seed major double_major history k
               \/ is_given_interest interest k ->
               In k (PyDict.keys profile).
Proof.
  intros Hempty profile.
  assert (Hseeds : forall k, is_seed major double_major history k
                             \/ is_given_interest interest k ->
                             In k (PyDict.keys profile)).
  { intros k Hk. unfold profile, get_keywords_from_input.
    destruct (graph self) as [G|].
    - apply visit_items_mono. destruct Hk as [Hk|Hk]; [right | left].
      + now apply input_items_seed.
      + now apply seed_interest_keys.
    - apply plain_seed_keys. destruct Hk as [Hk|Hk]; [left | right].
      + now apply input_items_seed.
      + now apply seed_interest_keys. }
  split; [|split; [|exact Hseeds]].
  - unfold run_analysis, bind, ret. rewrite Hempty. reflexivity.
  - intros Hnil. specialize (Hseeds major (or_introl (or_introl eq_refl))).
    rewrite Hnil in Hseeds. exact Hseeds.
Qed.

Lemma run_on_empty_corpus_witness :
  let profile :=
    get_keywords_from_input Fixtures.with_graph (u "computer") None
      [u "algo"] None in
  run_analysis Fixtures.insertion_order Fixtures.stub_loads (u "computer")
    None [u "algo"] None Fixtures.with_graph
  = (Ok ([], profile), Fixtures.with_graph)
  /\ profile <> []
  /\ forall k, is_seed (u "computer") None [u "algo"] k
               \/ is_given_interest None k ->
               In k (PyDict.keys profile).
Proof.
  apply (run_on_empty_corpus Fixtures.insertion_order Fixtures.stub_loads
           (u "computer") None [u "algo"] None Fixtures.with_graph).
  reflexivity.
Defined.

(* ================================================================== *)
(** * The ontology loader *)
(* ================================================================== *)

Module GraphFacts.

Lemma adj_init_get (adj : dict (list str)) (n k : str) :
  PyDict.get_default (Graph.adj_init adj n) k []
  = PyDict.get_default adj k [].
Proof.
  unfold Graph.adj_init, PyDict.has, PyDict.get_default.
  destruct (PyDict.get adj n) eqn:E; [reflexivity|].
  rewrite get_set. destruct (PyStr.eqb k n) eqn:Ek; [|reflexivity].
  apply eqb_eq in Ek. subst k. now rewrite E.
Qed.

Lemma adj_add_get_other (adj : dict (list str)) (n m k : str) :
  k <> n ->
  PyDict.get_default (Graph.adj_add adj n m) k []
  = PyDict.get_default adj k [].
Proof.
  intros H. unfold Graph.adj_add, PyDict.get_default at 1.
  now rewrite get_set_other.
Qed.

Lemma adj_add_get_same (adj : dict (list str)) (n m : str) :
  let old := PyDict.get_default adj n [] in
  PyDict.get_default (Graph.adj_add adj n m) n []
  = if PyStr.mem m old then old else old ++ [m].
Proof.
  unfold Graph.adj_add, PyDict.get_default at 1.
  now rewrite get_set_same.
Qed.

Lemma adj_add_In (adj : dict (list str)) (n m k x : str) :
  In x (PyDict.get_default (Graph.adj_add adj n m) k [])
  <-> (k = n /\ x = m) \/ In x (PyDict.get_default adj k []).
Proof.
  destruct (str_eq_dec k n) as [->|Hk].
  - rewrite adj_add_get_same.
    destruct (PyStr.mem m (PyDict.get_default adj n [])) eqn:E.
    + apply mem_In in E. split; [auto | intros [[_ ->]|H]; auto].
    + rewrite in_app_iff. simpl. intuition.
  - rewrite adj_add_get_other by exact Hk. intuition.
Qed.

Lemma adj_add_NoDup (adj : dict (list str)) (n m k : str) :
  NoDup (PyDict.get_default adj k []) ->
  NoDup (PyDict.get_default (Graph.adj_add adj n m) k []).
Proof.
  intros H. destruct (str_eq_dec k n) as [->|Hk].
  - rewrite adj_add_get_same.
    destruct (PyStr.mem m (PyDict.get_default adj n [])) eqn:E; [exact H|].
    apply mem_false in E.
    apply NoDup_rev in H. rewrite <- (rev_involutive (_ ++ [m])).
    apply NoDup_rev. rewrite rev_app_distr. simpl.
    constructor; [|exact H]. intros Hin. apply E. now apply in_rev.
  - now rewrite adj_add_get_other.
Qed.

Lemma successors_add_node (G : DiGraph) (n l u : str) :
  Graph.successors (Graph.add_node G n l) u = Graph.successors G u.
Proof. apply adj_init_get. Qed.

Lemma predecessors_add_node (G : DiGraph) (n l u : str) :
  Graph.predecessors (Graph.add_node G n l) u = Graph.predecessors G u.
Proof. apply adj_init_get. Qed.

Lemma successors_touch (G : DiGraph) (n u : str) :
  Graph.successors (Graph.touch G n) u = Graph.successors G u.
Proof.
  unfold Graph.touch. destruct (PyDict.has (g_node G) n); [reflexivity|].
  apply adj_init_get.
Qed.

Lemma predecessors_touch (G : DiGraph) (n u : str) :
  Graph.predecessors (Graph.touch G n) u = Graph.predecessors G u.
Proof.
  unfold Graph.touch. destruct (PyDict.has (g_node G) n); [reflexivity|].
  apply adj_init_get.
Qed.

Lemma nodes_touch (G : DiGraph) (n k : str) :
  In k (PyDict.keys (g_node (Graph.touch G n)))
  <-> k = n \/ In k (PyDict.keys (g_node G)).
Proof.
  unfold Graph.touch. destruct (PyDict.has (g_node G) n) eqn:E; simpl.
  - apply has_In in E. intuition. now subst.
  - apply keys_set.
Qed.

Lemma label_touch (G : DiGraph) (n k : str) :
  Graph.label (Graph.touch G n) k = Graph.label G k.
Proof.
  unfold Graph.touch, Graph.label.
  destruct (PyDict.has (g_node G) n) eqn:E; [reflexivity|]. simpl.
  rewrite get_set. destruct (PyStr.eqb k n) eqn:Ek; [|reflexivity].
  apply eqb_eq in Ek. subst k. unfold PyDict.has in E.
  destruct (PyDict.get (g_node G) n); [discriminate | reflexivity].
Qed.

Lemma successors_add_edge (G : DiGraph) (s d u v : str) :
  In v (Graph.successors (Graph.add_edge G s d) u)
  <-> (u = s /\ v = d) \/ In v (Graph.successors G u).
Proof.
  unfold Graph.add_edge, Graph.successors at 1. simpl.
  rewrite adj_add_In.
  fold (Graph.successors (Graph.touch (Graph.touch G s) d) u).
  now rewrite !successors_touch.
Qed.

Lemma predecessors_add_edge (G : DiGraph) (s d u v : str) :
  In u (Graph.predecessors (Graph.add_edge G s d) v)
  <-> (v = d /\ u = s) \/ In u (Graph.predecessors G v).
Proof.
  unfold Graph.add_edge, Graph.predecessors at 1. simpl.
  rewrite adj_add_In.
  fold (Graph.predecessors (Graph.touch (Graph.touch G s) d) v).
  now rewrite !predecessors_touch.
Qed.

Lemma nodes_add_edge (G : DiGraph) (s d k : str) :
  In k (PyDict.keys (g_node (Graph.add_edge G s d)))
  <-> k = s \/ k = d \/ In k (PyDict.keys (g_node G)).
Proof.
  unfold Graph.add_edge. simpl. rewrite !nodes_touch. intuition.
Qed.

Lemma label_add_edge (G : DiGraph) (s d k : str) :
  Graph.label (Graph.add_edge G s d) k = Graph.label G k.
Proof.
  unfold Graph.add_edge, Graph.label at 1. simpl.
  fold (Graph.label (Graph.touch (Graph.touch G s) d) k).
  now rewrite !label_touch.
Qed.

Lemma label_add_node (G : DiGraph) (n l k : str) :
  Graph.label (Graph.add_node G n l) k
  = if PyStr.eqb k n then l else Graph.label G k.
Proof.
  unfold Graph.add_node, Graph.label. simpl. rewrite get_set.
  now destruct (PyStr.eqb k n).
Qed.

Lemma nodes_add_node (G : DiGraph) (n l k : str) :
  In k (PyDict.keys (g_node (Graph.add_node G n l)))
  <-> k = n \/ In k (PyDict.keys (g_node G)).
Proof. unfold Graph.add_node. simpl. apply keys_set. Qed.

Lemma add_edges_successors (rows : list (str * str)) :
  forall G u v,
  In v (Graph.successors (add_edges rows G) u)
  <-> In (u, v) rows \/ In v (Graph.successors G u).
Proof.
  induction rows as [|[s d] rows IH]; intros G u v; simpl; [tauto|].
  unfold add_edges in *. simpl. rewrite IH, successors_add_edge.
  split.
  - intros [H|[[-> ->]|H]]; auto.
  - intros [[H|H]|H]; auto. inversion H. auto.
Qed.

Lemma add_edges_predecessors (rows : list (str * str)) :
  forall G u v,
  In u (Graph.predecessors (add_edges rows G) v)
  <-> In (u, v) rows \/ In u (Graph.predecessors G v).
Proof.
  induction rows as [|[s d] rows IH]; intros G u v; simpl; [tauto|].
  unfold add_edges in *. simpl. rewrite IH, predecessors_add_edge.
  split.
  - intros [H|[[-> ->]|H]]; auto.
  - intros [[H|H]|H]; auto. inversion H. auto.
Qed.

Lemma add_edges_nodes (rows : list (str * str)) :
  forall G k,
  In k (PyDict.keys (g_node (add_edges rows G)))
  <-> (exists m, In (k, m) rows \/ In (m, k) rows)
      \/ In k (PyDict.keys (g_node G)).
Proof.
  induction rows as [|[s d] rows IH]; intros G k; simpl.
  - split; [auto | intros [[m [[]|[]]]|H]; exact H].
  - unfold add_edges in *. simpl. rewrite IH, nodes_add_edge.
    split.
    + intros [[m [H|H]]|[->|[->|H]]]; eauto 6.
    + intros [[m [[H|H]|[H|H]]]|H]; eauto 6; inversion H; subst; auto.
Qed.

Lemma add_edges_label (rows : list (str * str)) :
  forall G k, Graph.label (add_edges rows G) k = Graph.label G k.
Proof.
  induction rows as [|[s d] rows IH]; intros G k; simpl; [reflexivity|].
  unfold add_edges in *. simpl. now rewrite IH, label_add_edge.
Qed.

Lemma add_edges_NoDup (rows : list (str * str)) :
  forall G,
  (forall u, NoDup (Graph.successors G u)
             /\ NoDup (Graph.predecessors G u)) ->
  forall u, NoDup (Graph.successors (add_edges rows G) u)
            /\ NoDup (Graph.predecessors (add_edges rows G) u).
Proof.
  induction rows as [|[s d] rows IH]; intros G H; simpl; [exact H|].
  unfold add_edges in *. simpl. apply IH. intros u.
  unfold Graph.add_edge, Graph.successors, Graph.predecessors. simpl.
  split; apply adj_add_NoDup.
  - fold (Graph.successors (Graph.touch (Graph.touch G s) d) u).
    rewrite !successors_touch. apply H.
  - fold (Graph.predecessors (Graph.touch (Graph.touch G s) d) u).
    rewrite !predecessors_touch. apply H.
Qed.

Lemma add_nodes_adjacency (rows : list (str * str)) :
  forall G u,
  Graph.successors (add_nodes rows G) u = Graph.successors G u
  /\ Graph.predecessors (add_nodes rows G) u = Graph.predecessors G u.
Proof.
  induction rows as [|[n l] rows IH]; intros G u; simpl; [auto|].
  unfold add_nodes in *. simpl.
  destruct (IH (Graph.add_node G n l) u) as [-> ->].
  now rewrite successors_add_node, predecessors_add_node.
Qed.

Lemma add_nodes_label (rows : list (str * str)) :
  forall G k,
  Graph.label (add_nodes rows G) k <> [] ->
  In (k, Graph.label (add_nodes rows G) k) rows
  \/ Graph.label (add_nodes rows G) k = Graph.label G k.
Proof.
  induction rows as [|[n l] rows IH]; intros G k Hne; simpl; [auto|].
  unfold add_nodes in *. simpl in *.
  destruct (IH (Graph.add_node G n l) k Hne) as [H|H]; [auto|].
  rewrite H, label_add_node.
  destruct (PyStr.eqb k n) eqn:E; [|auto].
  apply eqb_eq in E. subst. auto.
Qed.

Lemma add_nodes_nodes (rows : list (str * str)) :
  forall G k,
  In k (PyDict.keys (g_node (add_nodes rows G)))
  <-> In k (map fst rows) \/ In k (PyDict.keys (g_node G)).
Proof.
  induction rows as [|[n l] rows IH]; intros G k; simpl; [tauto|].
  unfold add_nodes in *. simpl. rewrite IH, nodes_add_node. intuition.
Qed.

End GraphFacts.

(** X4.  The graph [_load_ontology_data] builds from the two tables:
    [v] is a successor of [u] exactly when [u] is a predecessor of [v],
    exactly when [(u, v)] is an edge row; a repeated edge row counts
    once; every endpoint of an edge is a node, so looking up the label
    of a neighbour cannot fail; the nodes are the ids of the node rows
    and the endpoints of the edge rows; and a node has a non-empty label
    only if a node row gives it. *)
Theorem loaded_graph_well_formed
    (node_rows edge_rows : list (str * str)) (G : DiGraph) :
  load_ontology_data (Some (node_rows, edge_rows)) = Some G ->
  (forall u v, In v (Graph.successors G u) <-> In (u, v) edge_rows)
  /\ (forall u v, In u (Graph.predecessors G v) <-> In (u, v) edge_rows)
  /\ (forall u, NoDup (Graph.successors G u)
                /\ NoDup (Graph.predecessors G u))
  /\ (forall k, In k (PyDict.keys (g_node G))
                <-> In k (map fst node_rows)
                    \/ exists m, In (k, m) edge_rows \/ In (m, k) edge_rows)
  /\ (forall u v, In v (Graph.successors G u ++ Graph.predecessors G u) ->
                  In v (PyDict.keys (g_node G)))
  /\ (forall k, Graph.label G k <> [] ->
                In (k, Graph.label G k) node_rows).
Proof.
  intros H. simpl in H. inversion H as [HG]. clear H.
  fold (add_nodes node_rows Graph.empty).
  fold (add_edges edge_rows
          (add_nodes node_rows Graph.empty)).
  set (G0 := add_nodes node_rows Graph.empty).
  assert (Hadj0 : forall u, Graph.successors G0 u = []
                            /\ Graph.predecessors G0 u = []).
  { intros u. unfold G0.
    destruct (GraphFacts.add_nodes_adjacency node_rows Graph.empty u)
      as [-> ->]. split; reflexivity. }
  assert (Hsucc : forall u v,
             In v (Graph.successors (add_edges edge_rows G0) u)
             <-> In (u, v) edge_rows).
  { intros u v. rewrite GraphFacts.add_edges_successors.
    destruct (Hadj0 u) as [-> _]. simpl. tauto. }
  assert (Hpred : forall u v,
             In u (Graph.predecessors (add_edges edge_rows G0) v)
             <-> In (u, v) edge_rows).
  { intros u v. rewrite GraphFacts.add_edges_predecessors.
    destruct (Hadj0 v) as [_ ->]. simpl. tauto. }
  assert (Hnodes : forall k,
             In k (PyDict.keys (g_node (add_edges edge_rows G0)))
             <-> In k (map fst node_rows)
                 \/ exists m, In (k, m) edge_rows \/ In (m, k) edge_rows).
  { intros k. rewrite GraphFacts.add_edges_nodes.
    unfold G0. rewrite GraphFacts.add_nodes_nodes. simpl. tauto. }
  split; [exact Hsucc|]. split; [exact Hpred|]. split.
  { apply GraphFacts.add_edges_NoDup. intros u.
    destruct (Hadj0 u) as [-> ->]. split; constructor. }
  split; [exact Hnodes|]. split.
  { intros u v Hv. apply Hnodes. right.
    apply in_app_or in Hv. destruct Hv as [Hv|Hv].
    - apply Hsucc in Hv. eauto.
    - apply Hpred in Hv. eauto. }
  intros k. rewrite GraphFacts.add_edges_label. unfold G0. intros Hne.
  destruct (GraphFacts.add_nodes_label node_rows Graph.empty k Hne)
    as [Hin|Heq]; [exact Hin|].
  exfalso. apply Hne. rewrite Heq. reflexivity.
Qed.

Lemma loaded_graph_well_formed_witness :
  let G := Fixtures.small_graph in
  let node_rows := fst MoreFixtures.small_tables in
  let edge_rows := snd MoreFixtures.small_tables in
  (forall u v, In v (Graph.successors G u) <-> In (u, v) edge_rows)
  /\ (forall u v, In u (Graph.predecessors G v) <-> In (u, v) edge_rows)
  /\ (forall u, NoDup (Graph.successors G u)
                /\ NoDup (Graph.predecessors G u))
  /\ (forall k, In k (PyDict.keys (g_node G))
                <-> In k (map fst node_rows)
                    \/ exists m, In (k, m) edge_rows \/ In (m, k) edge_rows)
  /\ (forall u v, In v (Graph.successors G u ++ Graph.predecessors G u) ->
                  In v (PyDict.keys (g_node G)))
  /\ (forall k, Graph.label G k <> [] ->
                In (k, Graph.label G k) node_rows).
Proof.
  apply (loaded_graph_well_formed (fst MoreFixtures.small_tables)
           (snd MoreFixtures.small_tables) Fixtures.small_graph).
  reflexivity.
Defined.

(* ================================================================== *)
(** * Further properties of the profile builder *)
(* ================================================================== *)

Lemma fold_left_reach {A B : Type} (P : A -> Prop) (f : A -> B -> A)
    (l : list B) (x : B) :
  In x l ->
  (forall a, P (f a x)) ->
  (forall a y, P a -> P (f a y)) ->
  forall a, P (fold_left f l a).
Proof.
  intros Hx Hat Hkeep.
  induction l as [|y l IH]; intros a; simpl; [destruct Hx|].
  destruct Hx as [->|Hx]; [|now apply IH].
  apply fold_left_inv; [intros; now apply Hkeep | apply Hat].
Qed.

Lemma fold_left_ext_in {A B : Type} (f g : A -> B -> A) (l : list B) :
  (forall a x, In x l -> f a x = g a x) ->
  forall a, fold_left f l a = fold_left g l a.
Proof.
  induction l as [|y l IH]; intros H a; simpl; [reflexivity|].
  rewrite (H a y (or_introl eq_refl)). apply IH.
  intros a' x Hx. apply H. now right.
Qed.

Section Weights.

Variable G : DiGraph.

(** Every weight is at least 0.5. *)
Let half_or_more (kw : dict Q) : Prop :=
  forall k v, PyDict.get kw k = Some v -> 0.5 <= v.

(** The key [k] is present with a weight of at least 1. *)
Let one_or_more (k : str) (kw : dict Q) : Prop :=
  exists v, PyDict.get kw k = Some v /\ 1 <= v.

Lemma set_one_half (kw : dict Q) (item : str) :
  half_or_more kw -> half_or_more (PyDict.set kw item 1.0).
Proof.
  intros H k v. rewrite get_set.
  destruct (PyStr.eqb k item); [|apply H].
  intros E. inversion E. discriminate.
Qed.

Lemma visit_neighbor_half (kw : dict Q) (neighbor : str) :
  half_or_more kw -> half_or_more (visit_neighbor G kw neighbor).
Proof.
  intros H. unfold visit_neighbor.
  destruct (_ && _); [|exact H].
  intros k v. rewrite get_set.
  destruct (PyStr.eqb k (Graph.label G neighbor)); [|apply H].
  intros E. inversion E. unfold PyDict.get_default.
  destruct (PyDict.get kw (Graph.label G neighbor)) as [old|] eqn:Eold.
  - apply H in Eold. rewrite <- (Qplus_0_l 0.5) at 1.
    apply Qplus_le_compat; [|apply Qle_refl].
    apply Qle_trans with 0.5; [discriminate | exact Eold].
  - discriminate.
Qed.

Lemma visit_item_half (kw : dict Q) (item : str) :
  half_or_more kw -> half_or_more (visit_item G kw item).
Proof.
  intros H. unfold visit_item.
  apply fold_left_inv with (P := half_or_more);
    [|now apply set_one_half].
  intros kw1 root _ H1. unfold visit_root.
  apply fold_left_inv with (P := half_or_more); [|exact H1].
  intros kw2 nb _ H2. now apply visit_neighbor_half.
Qed.

Lemma visit_neighbor_wf (kw : dict Q) (neighbor : str) :
  PyDict.wf kw -> PyDict.wf (visit_neighbor G kw neighbor).
Proof.
  intros H. unfold visit_neighbor.
  destruct (_ && _); [now apply wf_set | exact H].
Qed.

Lemma visit_item_wf (kw : dict Q) (item : str) :
  PyDict.wf kw -> PyDict.wf (visit_item G kw item).
Proof.
  intros H. unfold visit_item.
  apply fold_left_inv with (P := fun kw : dict Q => PyDict.wf kw);
    [|now apply wf_set].
  intros kw1 root _ H1. unfold visit_root.
  apply fold_left_inv with (P := fun kw : dict Q => PyDict.wf kw);
    [|exact H1].
  intros kw2 nb _ H2. now apply visit_neighbor_wf.
Qed.

Lemma set_one_keeps (k : str) (kw : dict Q) (item : str) :
  one_or_more k kw \/ k = item -> one_or_more k (PyDict.set kw item 1.0).
Proof.
  intros H. unfold one_or_more. rewrite get_set.
  destruct (PyStr.eqb k item) eqn:E.
  - exists 1.0. split; [reflexivity | discriminate].
  - apply eqb_neq in E. destruct H as [H|H]; [exact H | contradiction].
Qed.

Lemma visit_neighbor_keeps (k : str) (kw : dict Q) (neighbor : str) :
  one_or_more k kw -> one_or_more k (visit_neighbor G kw neighbor).
Proof.
  intros (v & Hv & Hle). unfold visit_neighbor, one_or_more.
  destruct (_ && _); [|eauto].
  rewrite get_set.
  destruct (PyStr.eqb k (Graph.label G neighbor)) eqn:E; [|eauto].
  apply eqb_eq in E. subst k.
  unfold PyDict.get_default. rewrite Hv.
  exists (v + 0.5). split; [reflexivity|].
  rewrite <- (Qplus_0_r 1).
  apply Qplus_le_compat; [exact Hle | discriminate].
Qed.

Lemma visit_item_keeps (k : str) (kw : dict Q) (item : str) :
  one_or_more k kw \/ k = item -> one_or_more k (visit_item G kw item).
Proof.
  intros H. unfold visit_item.
  apply fold_left_inv with (P := one_or_more k);
    [|now apply set_one_keeps].
  intros kw1 root _ H1. unfold visit_root.
  apply fold_left_inv with (P := one_or_more k); [|exact H1].
  intros kw2 nb _ H2. now apply visit_neighbor_keeps.
Qed.

Lemma visit_items_keep (k : str) (l : list str) (kw : dict Q) :
  one_or_more k kw \/ In k l ->
  one_or_more k (fold_left (visit_item G) l kw).
Proof.
  revert kw. induction l as [|x l IH]; intros kw; simpl.
  - intros [H|[]]. exact H.
  - intros H. apply IH.
    destruct H as [H|[H|H]]; [left | left | now right];
      apply visit_item_keeps; auto.
Qed.

End Weights.

Lemma plain_items_keep (k : str) (l : list str) (kw : dict Q) :
  (exists v, PyDict.get kw k = Some v /\ 1 <= v) \/ In k l ->
  exists v,
    PyDict.get (fold_left (fun kw item => PyDict.set kw item 1.0) l kw) k
    = Some v /\ 1 <= v.
Proof.
  revert kw. induction l as [|x l IH]; intros kw; simpl.
  - intros [H|[]]. exact H.
  - intros H. apply IH.
    destruct H as [H|[H|H]]; [left | left | now right];
      apply (set_one_keeps k kw x); auto.
Qed.

(** In every built profile the keys are distinct and every weight is at
    least 0.5. *)
Lemma profile_wf (self : CTWPFRecommender) (major : str)
    (double_major : option str) (history_courses : list str)
    (interest : option str) :
  PyDict.wf (get_keywords_from_input self major double_major
               history_courses interest).
Proof.
  unfold get_keywords_from_input.
  destruct (graph self) as [G|].
  - apply fold_left_inv with (P := fun kw : dict Q => PyDict.wf kw);
      [|apply seed_interest_wf].
    intros kw item _ H. now apply visit_item_wf.
  - apply fold_left_inv with (P := fun kw : dict Q => PyDict.wf kw);
      [|apply seed_interest_wf].
    intros kw item _ H. now apply wf_set.
Qed.

Lemma profile_half (self : CTWPFRecommender) (major : str)
    (double_major : option str) (history_courses : list str)
    (interest : option str) (k : str) (v : Q) :
  In (k, v) (get_keywords_from_input self major double_major
               history_courses interest) ->
  0.5 <= v.
Proof.
  intros Hin.
  apply (In_get _ _ _ (profile_wf self major double_major history_courses
                         interest)) in Hin.
  revert k v Hin.
  assert (Hstart : forall k v,
             PyDict.get (seed_interest interest) k = Some v -> 0.5 <= v).
  { intros k v H. apply get_In in H.
    rewrite (seed_interest_values interest k v H). discriminate. }
  unfold get_keywords_from_input.
  destruct (graph self) as [G|].
  - apply fold_left_inv
      with (P := fun kw : dict Q =>
                   forall k v, PyDict.get kw k = Some v -> 0.5 <= v);
      [|exact Hstart].
    intros kw item _ H. now apply visit_item_half.
  - apply fold_left_inv
      with (P := fun kw : dict Q =>
                   forall k v, PyDict.get kw k = Some v -> 0.5 <= v);
      [|exact Hstart].
    intros kw item _ H. now apply set_one_half.
Qed.

(** X1.  In every profile [get_keywords_from_input] builds, with or
    without a graph, the keys are distinct, every weight is at least 0.5,
    and every seed term and the interest have a weight of at least 1. *)
Theorem profile_weights_bounded
    (self : CTWPFRecommender) (major : str) (double_major : option str)
    (history_courses : list str) (interest : option str) :
  let profile :=
    get_keywords_from_input self major double_major history_courses interest
  in
  PyDict.wf profile
  /\ (forall k v, In (k, v) profile -> 0.5 <= v)
  /\ (forall k, is_seed major double_major history_courses k
                \/ is_given_interest interest k ->
                exists v, PyDict.get profile k = Some v /\ 1 <= v).
Proof.
  intros profile.
  assert (Hinterest : forall k, is_given_interest interest k ->
             exists v, PyDict.get (seed_interest interest) k = Some v
                       /\ 1 <= v).
  { intros k Hk. apply seed_interest_keys in Hk.
    apply In_keys_get in Hk. destruct Hk as [v Hv]. exists v.
    split; [exact Hv|]. apply get_In in Hv.
    rewrite (seed_interest_values interest k v Hv). discriminate. }
  split; [apply profile_wf|]. split.
  - intros k v. apply profile_half.
  - intros k Hk. unfold profile, get_keywords_from_input.
    assert (Hk' : (exists v, PyDict.get (seed_interest interest) k = Some v
                             /\ 1 <= v)
                  \/ In k (input_items major double_major history_courses)).
    { destruct Hk as [Hk|Hk]; [right | left; auto].
      now apply input_items_seed. }
    destruct (graph self) as [G|].
    + now apply visit_items_keep.
    + now apply plain_items_keep.
Qed.

(** X2.  When no node label contains any seed term, the profile built
    with the graph is the profile built without one: the seed terms and
    the interest, at weight 1.0, in the same order. *)
Theorem profile_without_matching_node
    (self self0 : CTWPFRecommender) (G : DiGraph) (major : str)
    (double_major : option str) (history_courses : list str)
    (interest : option str) :
  graph self = Some G ->
  graph self0 = None ->
  (forall item, In item (input_items major double_major history_courses) ->
                target_nodes G item = []) ->
  get_keywords_from_input self major double_major history_courses interest
  = get_keywords_from_input self0 major double_major history_courses
      interest.
Proof.
  intros HG H0 Hnone. unfold get_keywords_from_input. rewrite HG, H0.
  apply fold_left_ext_in. intros kw item Hitem.
  unfold visit_item. now rewrite (Hnone item Hitem).
Qed.

Lemma profile_without_matching_node_witness :
  get_keywords_from_input Fixtures.with_graph (u "history") None
    [u "law"] (Some (u "art"))
  = get_keywords_from_input Fixtures.bare (u "history") None
      [u "law"] (Some (u "art")).
Proof.
  apply (profile_without_matching_node Fixtures.with_graph Fixtures.bare
           Fixtures.small_graph).
  - reflexivity.
  - reflexivity.
  - intros item [<-|[<-|[]]]; reflexivity.
Defined.

Lemma contains_empty (s : str) : PyStr.contains s [] = true.
Proof. destruct s; reflexivity. Qed.

(** A seed term that is empty once its spaces are removed is contained
    in every label: every node of the graph is a target node. *)
Lemma target_nodes_blank (G : DiGraph) (item : str) :
  remove_spaces item = [] -> target_nodes G item = PyDict.keys (g_node G).
Proof.
  intros Hblank. unfold target_nodes, Graph.nodes_with_label, PyDict.keys.
  rewrite Hblank.
  induction (g_node G) as [|[n a] d IH]; simpl; [reflexivity|].
  rewrite contains_empty. simpl. now rewrite IH.
Qed.

Lemma visit_neighbor_mono (G : DiGraph) (kw : dict Q) (neighbor k : str) :
  In k (PyDict.keys kw) -> In k (PyDict.keys (visit_neighbor G kw neighbor)).
Proof.
  intros H. unfold visit_neighbor.
  destruct (_ && _); [|exact H]. apply keys_set. now right.
Qed.

Lemma visit_root_mono (G : DiGraph) (kw : dict Q) (root_node k : str) :
  In k (PyDict.keys kw) -> In k (PyDict.keys (visit_root G kw root_node)).
Proof.
  intros H. unfold visit_root.
  apply fold_left_inv with (P := fun kw' : dict Q => In k (PyDict.keys kw'));
    [|exact H].
  intros kw' nb _ H'. now apply visit_neighbor_mono.
Qed.

(** Visiting a target node adds the label of each of its neighbours,
    unless the label is empty or a stopword. *)
Lemma visit_item_adds (G : DiGraph) (kw : dict Q)
    (item root_node neighbor : str) :
  In root_node (target_nodes G item) ->
  In neighbor (Graph.successors G root_node
               ++ Graph.predecessors G root_node) ->
  Graph.label G neighbor <> [] ->
  is_stopword (Graph.label G neighbor) = false ->
  In (Graph.label G neighbor) (PyDict.keys (visit_item G kw item)).
Proof.
  intros Hroot Hnb Hne Hstop. unfold visit_item.
  apply fold_left_reach with (x := root_node); [exact Hroot| |].
  - intros kw1. unfold visit_root.
    apply fold_left_reach with (x := neighbor); [exact Hnb| |].
    + intros kw2. unfold visit_neighbor.
      apply truthy_Some in Hne. rewrite Hne, Hstop. simpl.
      apply keys_set. now left.
    + intros kw2 nb H. now apply visit_neighbor_mono.
  - intros kw1 root H. now apply visit_root_mono.
Qed.

(** X3.  A blank seed term (empty, or spaces only: a trailing comma in
    the history field gives one) matches every node of the graph: the
    label of every neighbour of every node enters the profile, unless it
    is empty or a stopword. *)
Theorem blank_seed_expands_every_node
    (self : CTWPFRecommender) (G : DiGraph) (major : str)
    (double_major : option str) (history_courses : list str)
    (interest : option str) (item root_node neighbor : str) :
  graph self = Some G ->
  In item (input_items major double_major history_courses) ->
  remove_spaces item = [] ->
  In root_node (PyDict.keys (g_node G)) ->
  In neighbor (Graph.successors G root_node
               ++ Graph.predecessors G root_node) ->
  Graph.label G neighbor <> [] ->
  is_stopword (Graph.label G neighbor) = false ->
  In (Graph.label G neighbor)
     (PyDict.keys (get_keywords_from_input self major double_major
                     history_courses interest)).
Proof.
  intros HG Hitem Hblank Hroot Hnb Hne Hstop.
  unfold get_keywords_from_input. rewrite HG.
  apply fold_left_reach with (x := item); [exact Hitem| |].
  - intros kw. apply visit_item_adds with (root_node := root_node); auto.
    now rewrite target_nodes_blank.
  - intros kw y H. apply visit_item_mono. now left.
Qed.

Lemma blank_seed_expands_every_node_witness :
  In (u "algorithm")
     (PyDict.keys (get_keywords_from_input Fixtures.with_graph (u "law")
                     None (App.history_list (u "art,")) None)).
Proof.
  apply (blank_seed_expands_every_node Fixtures.with_graph
           Fixtures.small_graph (u "law") None
           (App.history_list (u "art,")) None [] (u "n1") (u "n2")).
  - reflexivity.
  - vm_compute. auto.
  - reflexivity.
  - vm_compute. auto.
  - vm_compute. auto.
  - discriminate.
  - reflexivity.
Defined.

(* ================================================================== *)
(** * Further properties of the collaborator calls *)
(* ================================================================== *)

Module StripFacts.

Lemma lstrip_idem (s : str) :
  PyStr.lstrip (PyStr.lstrip s) = PyStr.lstrip s.
Proof.
  induction s as [|c s IH]; simpl; [reflexivity|].
  destruct (PyStr.isspace c) eqn:E; [exact IH|].
  simpl. now rewrite E.
Qed.

Lemma lstrip_head (s : str) (c : N) (t : str) :
  PyStr.lstrip s = c :: t -> PyStr.isspace c = false.
Proof.
  induction s as [|d s IH]; simpl; [discriminate|].
  destruct (PyStr.isspace d) eqn:E; [exact IH|].
  intros H. inversion H. now subst.
Qed.

Lemma lstrip_split (s : str) :
  exists ws, s = ws ++ PyStr.lstrip s.
Proof.
  induction s as [|c s [ws IH]]; simpl; [now exists []|].
  destruct (PyStr.isspace c); [|now exists []].
  exists (c :: ws). simpl. now rewrite <- IH.
Qed.

Lemma lstrip_fixed (s : str) :
  (forall c t, s = c :: t -> PyStr.isspace c = false) ->
  PyStr.lstrip s = s.
Proof.
  destruct s as [|c t]; intros H; simpl; [reflexivity|].
  now rewrite (H c t eq_refl).
Qed.

Lemma strip_stripped (s : str) : stripped (PyStr.strip s).
Proof.
  unfold stripped, PyStr.strip.
  set (t := PyStr.lstrip s). set (r := PyStr.lstrip (rev t)).
  split.
  - apply lstrip_fixed. intros c x Hx.
    destruct (lstrip_split (rev t)) as [ws Hws]. fold r in Hws.
    assert (Ht : t = rev r ++ rev ws).
    { rewrite <- (rev_involutive t), Hws, rev_app_distr. reflexivity. }
    rewrite Hx in Ht. simpl in Ht.
    apply (lstrip_head s c (x ++ rev ws)). exact Ht.
  - rewrite rev_involutive. unfold r. apply lstrip_idem.
Qed.

Lemma split_length (sep : N) (s : str) :
  List.length (PyStr.split sep s) = S (count_occ N.eq_dec s sep).
Proof.
  induction s as [|c s IH]; simpl; [reflexivity|].
  destruct (N.eqb_spec c sep) as [->|Hne].
  - destruct (N.eq_dec sep sep) as [_|H]; [|contradiction].
    simpl. now rewrite IH.
  - destruct (N.eq_dec c sep) as [H|_]; [contradiction|].
    destruct (PyStr.split sep s); simpl in *; [discriminate | exact IH].
Qed.

Lemma split_not_nil (sep : N) (s : str) : PyStr.split sep s <> [].
Proof.
  intros H. pose proof (split_length sep s) as L. rewrite H in L.
  discriminate.
Qed.

End StripFacts.

(** X5.  [expand_keyword_with_gemini] never raises, never replaces an
    entry of the cache, and adds at most one: for the keyword itself,
    holding the non-empty list it returns, and only after one request
    for a keyword that is not a stopword.  The client, the graph and the
    corpus are untouched. *)
Theorem expand_only_adds_its_keyword
    (keyword : str) (self : CTWPFRecommender) :
  exists expanded self',
    expand_keyword_with_gemini keyword self = (Ok expanded, self')
    /\ client self' = client self
    /\ graph self' = graph self
    /\ target_courses self' = target_courses self
    /\ (forall k l, PyDict.get (keyword_cache self) k = Some l ->
                    PyDict.get (keyword_cache self') k = Some l)
    /\ (forall k l, PyDict.get (keyword_cache self') k = Some l ->
                    PyDict.get (keyword_cache self) k = Some l
                    \/ (k = keyword /\ l = expanded /\ expanded <> []
                        /\ is_stopword keyword = false
                        /\ api_log self'
                           = api_log self ++ [ExpandPrompt keyword])).
Proof.
  unfold expand_keyword_with_gemini.
  destruct (client self) as [c|] eqn:Hc;
    [|exists [], self; do 5 (split; [auto|]); auto].
  destruct (PyDict.get (keyword_cache self) keyword) as [l0|] eqn:Hk;
    [exists l0, self; do 5 (split; [auto|]); auto|].
  unfold try_except, bind, generate_content, cache_store, ret.
  destruct (is_stopword keyword) eqn:Hs;
    [exists [], self; do 5 (split; [auto|]); auto|].
  destruct (c (api_log self) (ExpandPrompt keyword)) as [|[[|ch t]|]];
    try solve [eexists; eexists; split; [reflexivity|];
               cbn [client keyword_cache graph target_courses api_log];
               do 4 (split; [auto|]); auto].
  eexists; eexists. split; [reflexivity|].
  cbn [client keyword_cache graph target_courses api_log].
  do 3 (split; [auto|]). split.
  - intros k l Hl. rewrite get_set.
    destruct (PyStr.eqb k keyword) eqn:E; [|exact Hl].
    apply eqb_eq in E. subst k. congruence.
  - intros k l. rewrite get_set.
    destruct (PyStr.eqb k keyword) eqn:E; [|auto].
    apply eqb_eq in E. subst k. intros Hl. inversion Hl. right.
    do 2 (split; [reflexivity|]). split; [|auto].
    intros Hnil. apply map_eq_nil in Hnil.
    exact (StripFacts.split_not_nil _ _ Hnil).
Qed.

(** X6.  Stopwords are never sent to the client and never cached: when
    no stopword is a key of the cache (as in a new recommender), no call
    makes one a key, and a call for a stopword returns the empty list and
    leaves [self] as it is. *)
Theorem expand_never_asks_about_stopwords
    (keyword : str) (self : CTWPFRecommender) :
  cache_clean self ->
  exists expanded self',
    expand_keyword_with_gemini keyword self = (Ok expanded, self')
    /\ cache_clean self'
    /\ (is_stopword keyword = true -> expanded = [] /\ self' = self).
Proof.
  intros Hclean. unfold expand_keyword_with_gemini.
  destruct (client self) as [c|] eqn:Hc.
  2:{ exists [], self. split; [reflexivity|]. split; [exact Hclean|].
      auto. }
  destruct (PyDict.get (keyword_cache self) keyword) as [l0|] eqn:Hk.
  { exists l0, self. split; [reflexivity|]. split; [exact Hclean|].
    intros Hs. rewrite (Hclean keyword Hs) in Hk. discriminate. }
  unfold try_except, bind, generate_content, cache_store, ret.
  destruct (is_stopword keyword) eqn:Hs.
  { exists [], self. split; [reflexivity|]. split; [exact Hclean|].
    auto. }
  destruct (c (api_log self) (ExpandPrompt keyword)) as [|[[|ch t]|]];
    eexists; eexists; (split; [reflexivity|]);
    (split; [|discriminate]); try exact Hclean.
  intros k Hstop. cbn [keyword_cache]. rewrite get_set.
  destruct (PyStr.eqb k keyword) eqn:E; [|now apply Hclean].
  apply eqb_eq in E. congruence.
Qed.

Lemma expand_never_asks_about_stopwords_witness :
  exists expanded self',
    expand_keyword_with_gemini [48516; 49437]%N
      (Fixtures.with_client Fixtures.stub_client [])
    = (Ok expanded, self')
    /\ cache_clean self'
    /\ (is_stopword [48516; 49437]%N = true ->
        expanded = []
        /\ self' = Fixtures.with_client Fixtures.stub_client []).
Proof.
  apply (expand_never_asks_about_stopwords [48516; 49437]%N
           (Fixtures.with_client Fixtures.stub_client [])).
  intros k _. reflexivity.
Defined.

(** X7.  The terms [expand_keyword_with_gemini] returns have no leading
    or trailing whitespace, and there are as many as the response has
    commas, plus one: when every cached term is stripped (as in a new
    recommender), so is every returned term and every term cached
    afterwards. *)
Theorem expand_returns_stripped_terms
    (keyword : str) (self : CTWPFRecommender) :
  cache_stripped self ->
  exists expanded self',
    expand_keyword_with_gemini keyword self = (Ok expanded, self')
    /\ (forall w, In w expanded -> stripped w)
    /\ cache_stripped self'
    /\ (forall c ch t,
          client self = Some c ->
          PyDict.get (keyword_cache self) keyword = None ->
          is_stopword keyword = false ->
          c (api_log self) (ExpandPrompt keyword)
          = Responds (Some (ch :: t)) ->
          List.length expanded = S (count_occ N.eq_dec (ch :: t) 44%N)).
Proof.
  intros Hcache. unfold expand_keyword_with_gemini.
  destruct (client self) as [c|] eqn:Hc.
  2:{ exists [], self. split; [reflexivity|]. split; [intros w []|].
      split; [exact Hcache|]. intros; discriminate. }
  destruct (PyDict.get (keyword_cache self) keyword) as [l0|] eqn:Hk.
  { exists l0, self. split; [reflexivity|]. split.
    - intros w Hw. exact (Hcache keyword l0 w Hk Hw).
    - split; [exact Hcache|]. intros; discriminate. }
  unfold try_except, bind, generate_content, cache_store, ret.
  destruct (is_stopword keyword) eqn:Hs.
  { exists [], self. split; [reflexivity|]. split; [intros w []|].
    split; [exact Hcache|]. intros; discriminate. }
  destruct (c (api_log self) (ExpandPrompt keyword)) as [|[[|ch t]|]] eqn:Hr;
    try solve [eexists; eexists; split; [reflexivity|];
               split; [intros w []|]; split; [exact Hcache|];
               intros c' ch' t' Hc' _ _ Hr'; inversion Hc'; subst c';
               rewrite Hr in Hr'; discriminate].
  assert (Hwords : forall w,
             In w (map PyStr.strip (PyStr.split 44 (ch :: t))) ->
             stripped w).
  { intros w Hw. apply in_map_iff in Hw. destruct Hw as (x & <- & _).
    apply StripFacts.strip_stripped. }
  eexists; eexists. split; [reflexivity|].
  split; [exact Hwords|]. split.
  - intros k l w. cbn [keyword_cache]. rewrite get_set.
    destruct (PyStr.eqb k keyword); [|apply Hcache].
    intros E. inversion E. apply Hwords.
  - intros c' ch' t' Hc' _ _ Hr'. inversion Hc'. subst c'.
    rewrite Hr in Hr'. inversion Hr'. subst ch' t'.
    rewrite length_map. apply StripFacts.split_length.
Qed.

Lemma expand_returns_stripped_terms_witness :
  exists expanded self',
    expand_keyword_with_gemini (u "marketing")
      (Fixtures.with_client Fixtures.stub_client [])
    = (Ok expanded, self')
    /\ (forall w, In w expanded -> stripped w)
    /\ cache_stripped self'
    /\ (forall c ch t,
          client (Fixtures.with_client Fixtures.stub_client []) = Some c ->
          PyDict.get
            (keyword_cache (Fixtures.with_client Fixtures.stub_client []))
            (u "marketing") = None ->
          is_stopword (u "marketing") = false ->
          c (api_log (Fixtures.with_client Fixtures.stub_client []))
            (ExpandPrompt (u "marketing"))
          = Responds (Some (ch :: t)) ->
          List.length expanded = S (count_occ N.eq_dec (ch :: t) 44%N)).
Proof.
  apply (expand_returns_stripped_terms (u "marketing")
           (Fixtures.with_client Fixtures.stub_client [])).
  intros k l w H. discriminate.
Defined.

(** X8.  [evaluate_relevance_with_gemini] sends exactly one request when
    there is a client and none otherwise; it never touches the expansion
    cache, the client, the graph or the corpus. *)
Theorem evaluate_sends_one_request
    (json_loads : str -> option pyval) (self : CTWPFRecommender)
    (student_info : StudentInfo) (course_info : Course) :
  exists score reason self',
    evaluate_relevance_with_gemini json_loads student_info course_info self
    = (Ok (score, reason), self')
    /\ keyword_cache self' = keyword_cache self
    /\ client self' = client self
    /\ graph self' = graph self
    /\ target_courses self' = target_courses self
    /\ api_log self'
       = api_log self
         ++ match client self with
            | Some _ => [EvaluatePrompt student_info course_info]
            | None => []
            end.
Proof.
  unfold evaluate_relevance_with_gemini.
  destruct (client self) as [c|] eqn:Hc.
  - unfold try_except, bind, generate_content, loads_text, py_get, raise,
      ret.
    destruct (c (api_log self) (EvaluatePrompt student_info course_info))
      as [|[t|]];
      try solve [do 3 eexists; split; [reflexivity|];
                 cbn [client keyword_cache graph target_courses api_log];
                 auto 6].
    destruct (json_loads t) as [[| | | | |d]|];
      do 3 eexists; (split; [reflexivity|]);
      cbn [client keyword_cache graph target_courses api_log]; auto 6.
  - do 3 eexists. split; [reflexivity|]. rewrite app_nil_r. auto 6.
Qed.

(* ================================================================== *)
(** * Further properties of the scoring engine *)
(* ================================================================== *)

Lemma wp_fold_no_keywords (s_term : str) (s_weight : Q)
    (expanded : list str) (acc : Q * list str) :
  fold_left (wp_step [] s_term s_weight) expanded acc = acc.
Proof.
  induction expanded as [|e es IH]; simpl; [reflexivity|].
  destruct acc as [wp m]. simpl. exact IH.
Qed.

Lemma wp_loop_no_keywords (terms : list (str * Q)) :
  forall acc self,
  exists self', wp_loop [] terms acc self = (Ok acc, self').
Proof.
  induction terms as [|[s w] terms IH]; intros acc self; simpl.
  - exists self. reflexivity.
  - destruct (is_stopword s); [apply IH|].
    unfold bind.
    destruct (expand_returns s self) as (es & self1 & He & _).
    rewrite He, wp_fold_no_keywords. apply IH.
Qed.

(** X9.  A course without keywords scores 0 and has no matches, whatever
    the collaborator answers; an empty profile scores 0 with no matches
    and leaves [self] as it is (no request is sent). *)
Theorem empty_inputs_score_zero (set_order : list str -> list str) :
  (forall l, Permutation (set_order l) l) ->
  (forall student_dict self,
     exists final self',
       calculate_ctwp_score set_order student_dict [] self
       = (Ok (final, []), self')
       /\ final == 0)
  /\ (forall course_keywords self,
        exists final,
          calculate_ctwp_score set_order [] course_keywords self
          = (Ok (final, []), self)
          /\ final == 0).
Proof.
  intros Hperm.
  assert (Hnil : set_order [] = []).
  { apply Permutation_nil. apply Permutation_sym, Hperm. }
  split.
  - intros student_dict self.
    unfold calculate_ctwp_score, ctwp_components, ct_loop, filtered_ct.
    assert (E : filter (fun t => PyDict.has ([] : dict Q) t
                                 && negb (is_stopword t))
                       (PyDict.keys student_dict) = []).
    { induction (PyDict.keys student_dict) as [|k ks IH];
        [reflexivity | exact IH]. }
    rewrite E, Hnil. cbn [fold_left].
    destruct (wp_loop_no_keywords (sorted_student_terms student_dict)
                (0, []) self) as [self' Hr].
    unfold bind, ret. rewrite Hr. cbn [distinct]. rewrite Hnil.
    eexists; eexists. split; reflexivity.
  - intros course_keywords self.
    unfold calculate_ctwp_score, ctwp_components, ct_loop, filtered_ct.
    cbn. rewrite Hnil. cbn. rewrite Hnil.
    eexists. split; reflexivity.
Qed.

Lemma empty_inputs_score_zero_witness :
  (forall student_dict self,
     exists final self',
       calculate_ctwp_score Fixtures.insertion_order student_dict [] self
       = (Ok (final, []), self')
       /\ final == 0)
  /\ (forall course_keywords self,
        exists final,
          calculate_ctwp_score Fixtures.insertion_order [] course_keywords
            self
          = (Ok (final, []), self)
          /\ final == 0).
Proof.
  apply (empty_inputs_score_zero Fixtures.insertion_order).
  intros l. apply Permutation_refl.
Defined.

Lemma get_default_nonneg (d : dict Q) (k : str) (default : Q) :
  nonneg_weights d -> 0 <= default -> 0 <= PyDict.get_default d k default.
Proof.
  intros Hd H0. unfold PyDict.get_default.
  destruct (PyDict.get d k) as [v|] eqn:E; [|exact H0].
  apply get_In in E. exact (Hd k v E).
Qed.

Lemma idf_positive (word : str) : 0 <= get_idf_weight word.
Proof.
  unfold get_idf_weight. destruct (_ <? _)%nat; discriminate.
Qed.

Section NonNegative.

Variables student_dict course_keywords : dict Q.
Hypothesis student_nonneg : nonneg_weights student_dict.
Hypothesis course_nonneg : nonneg_weights course_keywords.

Lemma ct_step_nonneg (acc : Q * list str) (term : str) :
  0 <= fst acc -> 0 <= fst (ct_step student_dict course_keywords acc term).
Proof.
  destruct acc as [ct m]. simpl. intros H.
  rewrite <- (Qplus_0_r 0). apply Qplus_le_compat; [exact H|].
  apply Qmult_le_0_compat; [|apply idf_positive].
  apply Qmult_le_0_compat; apply get_default_nonneg;
    assumption || discriminate.
Qed.

Lemma wp_step_nonneg (s_term : str) (s_weight : Q) (acc : Q * list str)
    (e_term : str) :
  0 <= s_weight -> 0 <= fst acc ->
  0 <= fst (wp_step course_keywords s_term s_weight acc e_term).
Proof.
  destruct acc as [wp m]. intros Hw H. unfold wp_step.
  destruct (PyDict.has course_keywords e_term); [|exact H].
  destruct (_ || _); [exact H|]. simpl in *.
  rewrite <- (Qplus_0_r 0). apply Qplus_le_compat; [exact H|].
  apply Qmult_le_0_compat.
  - apply Qmult_le_0_compat; [exact Hw | discriminate].
  - apply get_default_nonneg; [assumption | discriminate].
Qed.

Lemma wp_loop_nonneg (terms : list (str * Q)) :
  (forall s w, In (s, w) terms -> 0 <= w) ->
  forall acc self, 0 <= fst acc ->
  exists r self',
    wp_loop course_keywords terms acc self = (Ok r, self') /\ 0 <= fst r.
Proof using course_nonneg.
  induction terms as [|[s w] terms IH]; intros Hterms acc self Hacc; simpl.
  - exists acc, self. auto.
  - assert (Hrest : forall s' w', In (s', w') terms -> 0 <= w')
      by (intros s' w' H; apply (Hterms s' w'); now right).
    destruct (is_stopword s); [now apply IH|].
    unfold bind.
    destruct (expand_returns s self) as (es & self1 & He & _).
    rewrite He. apply IH; [exact Hrest|].
    apply fold_left_inv with (P := fun a : Q * list str => 0 <= fst a);
      [|exact Hacc].
    intros a e _ Ha. apply wp_step_nonneg; [|exact Ha].
    apply (Hterms s w). now left.
Qed.

End NonNegative.

Lemma ctwp_components_nonneg (set_order : list str -> list str)
    (student_dict course_keywords : dict Q) (self : CTWPFRecommender) :
  nonneg_weights student_dict ->
  nonneg_weights course_keywords ->
  exists ct wp matches self',
    ctwp_components set_order student_dict course_keywords self
    = (Ok (ct, wp, matches), self')
    /\ 0 <= ct /\ 0 <= wp.
Proof.
  intros Hs Hc. unfold ctwp_components, ct_loop.
  assert (Hct : 0 <= fst (fold_left (ct_step student_dict course_keywords)
                            (filtered_ct set_order student_dict
                               course_keywords) (0, []))).
  { apply fold_left_inv with (P := fun a : Q * list str => 0 <= fst a);
      [|apply Qle_refl].
    intros a t _ Ha. now apply ct_step_nonneg. }
  destruct (fold_left (ct_step student_dict course_keywords) _ _)
    as [ct m]. simpl in Hct.
  destruct (wp_loop_nonneg course_keywords Hc
              (sorted_student_terms student_dict)) with
    (acc := (0, m)) (self := self) as ([wp m'] & self' & Hr & Hwp).
  - intros s w Hin. unfold sorted_student_terms in Hin.
    apply In_firstn in Hin. apply sorted_desc_In in Hin.
    exact (Hs s w Hin).
  - apply Qle_refl.
  - unfold bind, ret. rewrite Hr. simpl in Hwp.
    do 4 eexists. split; [reflexivity|]. auto.
Qed.

Lemma final_score_nonneg (ct wp : Q) :
  0 <= ct -> 0 <= wp -> 0 <= (0.5 * ct + 0.5 * wp) * 5.0.
Proof.
  intros Hct Hwp.
  apply Qmult_le_0_compat; [|discriminate].
  rewrite <- (Qplus_0_r 0).
  apply Qplus_le_compat; apply Qmult_le_0_compat;
    assumption || discriminate.
Qed.

(** X10.  When no weight of the profile and no weight of the course
    keywords is negative, the CT score, the WP score and the final score
    are not negative, whatever the collaborator answers. *)
Theorem scores_not_negative
    (set_order : list str -> list str)
    (student_dict course_keywords : dict Q) (self : CTWPFRecommender) :
  nonneg_weights student_dict ->
  nonneg_weights course_keywords ->
  exists ct wp matches final shown self',
    ctwp_components set_order student_dict course_keywords self
    = (Ok (ct, wp, matches), self')
    /\ calculate_ctwp_score set_order student_dict course_keywords self
       = (Ok (final, shown), self')
    /\ 0 <= ct /\ 0 <= wp /\ 0 <= final.
Proof.
  intros Hs Hc.
  destruct (ctwp_components_nonneg set_order student_dict course_keywords
              self Hs Hc) as (ct & wp & m & self' & Hrun & Hct & Hwp).
  exists ct, wp, m, ((0.5 * ct + 0.5 * wp) * 5.0),
         (set_order (distinct m)), self'.
  split; [exact Hrun|]. split.
  - unfold calculate_ctwp_score, bind, ret. now rewrite Hrun.
  - split; [exact Hct|]. split; [exact Hwp|].
    now apply final_score_nonneg.
Qed.

Lemma scores_not_negative_witness :
  exists ct wp matches final shown self',
    ctwp_components Fixtures.insertion_order Fixtures.two_terms
      Fixtures.two_keywords (Fixtures.with_client Fixtures.stub_client [])
    = (Ok (ct, wp, matches), self')
    /\ calculate_ctwp_score Fixtures.insertion_order Fixtures.two_terms
         Fixtures.two_keywords
         (Fixtures.with_client Fixtures.stub_client [])
       = (Ok (final, shown), self')
    /\ 0 <= ct /\ 0 <= wp /\ 0 <= final.
Proof.
  apply (scores_not_negative Fixtures.insertion_order Fixtures.two_terms
           Fixtures.two_keywords
           (Fixtures.with_client Fixtures.stub_client [])).
  - intros k v [H|[H|[]]]; inversion H; discriminate.
  - intros k v [H|[H|[]]]; inversion H; discriminate.
Defined.

(** What a call of [expand_keyword_with_gemini] can change. *)
Lemma expand_frame (keyword : str) (self : CTWPFRecommender) :
  exists expanded self',
    expand_keyword_with_gemini keyword self = (Ok expanded, self')
    /\ client self' = client self
    /\ graph self' = graph self
    /\ target_courses self' = target_courses self
    /\ (api_log self' = api_log self
        \/ (api_log self' = api_log self ++ [ExpandPrompt keyword]
            /\ is_stopword keyword = false))
    /\ (client self = None -> self' = self).
Proof.
  unfold expand_keyword_with_gemini.
  destruct (client self) as [c|] eqn:Hc;
    [|exists [], self; do 4 (split; [auto|]); auto].
  destruct (PyDict.get (keyword_cache self) keyword) as [l0|];
    [exists l0, self; do 4 (split; [auto|]); split; [auto | discriminate]|].
  unfold try_except, bind, generate_content, cache_store, ret.
  destruct (is_stopword keyword);
    [exists [], self; do 4 (split; [auto|]); split; [auto | discriminate]|].
  destruct (c (api_log self) (ExpandPrompt keyword)) as [|[[|ch t]|]];
    eexists; eexists; (split; [reflexivity|]);
    cbn [client keyword_cache graph target_courses api_log];
    do 3 (split; [auto|]); (split; [auto | discriminate]).
Qed.

Lemma wp_loop_requests (course_keywords : dict Q)
    (terms : list (str * Q)) :
  forall acc self,
  exists r self' requests,
    wp_loop course_keywords terms acc self = (Ok r, self')
    /\ api_log self' = api_log self ++ requests
    /\ (List.length requests <= List.length terms)%nat
    /\ Forall (fun q => exists s w, q = ExpandPrompt s /\ In (s, w) terms
                                    /\ is_stopword s = false) requests
    /\ client self' = client self
    /\ graph self' = graph self
    /\ target_courses self' = target_courses self
    /\ (client self = None -> self' = self).
Proof.
  induction terms as [|[s w] terms IH]; intros acc self.
  - exists acc, self, []. simpl. rewrite app_nil_r.
    do 3 (split; [auto|]). split; [constructor|]. auto.
  - cbn [wp_loop].
    assert (Hweaken : forall reqs,
               Forall (fun q => exists s0 w0, q = ExpandPrompt s0
                                 /\ In (s0, w0) terms
                                 /\ is_stopword s0 = false) reqs ->
               Forall (fun q => exists s0 w0, q = ExpandPrompt s0
                                 /\ In (s0, w0) ((s, w) :: terms)
                                 /\ is_stopword s0 = false) reqs).
    { intros reqs. apply Forall_impl.
      intros q (s0 & w0 & E & Hin & Hs). exists s0, w0.
      split; [exact E|]. split; [now right | exact Hs]. }
    destruct (is_stopword s) eqn:Hstop.
    + destruct (IH acc self)
        as (r & self' & reqs & Hr & Hlog & Hlen & Hall & Hrest).
      exists r, self', reqs. split; [exact Hr|]. split; [exact Hlog|].
      split; [simpl; lia|]. split; [now apply Hweaken | exact Hrest].
    + unfold bind.
      destruct (expand_frame s self)
        as (es & self1 & He & Hc1 & Hg1 & Ht1 & Hlog1 & Hoff1).
      rewrite He.
      destruct (IH (fold_left (wp_step course_keywords s w) es acc) self1)
        as (r & self' & reqs & Hr & Hlog & Hlen & Hall & Hc & Hg & Ht
            & Hoff).
      destruct Hlog1 as [Hlog1|[Hlog1 _]].
      * exists r, self', reqs. split; [exact Hr|].
        split; [congruence|]. split; [simpl; lia|].
        split; [now apply Hweaken|].
        do 3 (split; [congruence|]).
        intros Hnone. rewrite <- (Hoff1 Hnone). apply Hoff. congruence.
      * exists r, self', (ExpandPrompt s :: reqs). split; [exact Hr|].
        split; [rewrite Hlog, Hlog1, <- app_assoc; reflexivity|].
        split; [simpl; lia|].
        split.
        { constructor; [|now apply Hweaken].
          exists s, w. split; [reflexivity|]. split; [now left | exact Hstop]. }
        do 3 (split; [congruence|]).
        intros Hnone. rewrite <- (Hoff1 Hnone). apply Hoff. congruence.
Qed.

(** X12.  One call of [calculate_ctwp_score] never raises and sends at
    most 5 requests, each the expansion of a profile term that is not a
    stopword; without a client it sends none and leaves [self] as it
    is. *)
Theorem calculate_sends_at_most_five_requests
    (set_order : list str -> list str)
    (student_dict course_keywords : dict Q) (self : CTWPFRecommender) :
  exists r self' requests,
    calculate_ctwp_score set_order student_dict course_keywords self
    = (Ok r, self')
    /\ api_log self' = api_log self ++ requests
    /\ (List.length requests <= 5)%nat
    /\ (List.length requests <= List.length student_dict)%nat
    /\ Forall (fun q => exists s w, q = ExpandPrompt s
                                    /\ In (s, w) student_dict
                                    /\ is_stopword s = false) requests
    /\ (client self = None -> self' = self).
Proof.
  unfold calculate_ctwp_score, ctwp_components.
  destruct (ct_loop set_order student_dict course_keywords) as [ct m].
  destruct (wp_loop_requests course_keywords
              (sorted_student_terms student_dict) (0, m) self)
    as ([wp m'] & self' & reqs & Hr & Hlog & Hlen & Hall & _ & _ & _ & Hoff).
  unfold bind, ret. rewrite Hr.
  eexists; exists self', reqs. split; [reflexivity|].
  split; [exact Hlog|].
  unfold sorted_student_terms in Hlen, Hall.
  rewrite length_firstn, sorted_desc_length in Hlen.
  split; [lia|]. split; [lia|]. split; [|exact Hoff].
  revert Hall. apply Forall_impl.
  intros q (s & w & E & Hin & Hs). exists s, w.
  split; [exact E|]. split; [|exact Hs].
  apply In_firstn in Hin. now apply sorted_desc_In in Hin.
Qed.

Lemma distinct_In (l : list str) (x : str) :
  In x (distinct l) <-> In x l.
Proof.
  induction l as [|y l IH]; simpl; [tauto|].
  rewrite filter_In, IH, negb_true_iff, eqb_neq.
  destruct (str_eq_dec x y) as [->|H]; intuition.
Qed.

Lemma distinct_NoDup (l : list str) : NoDup (distinct l).
Proof.
  induction l as [|y l IH]; simpl; constructor.
  - rewrite filter_In, negb_true_iff, eqb_neq. intros [_ H]. now apply H.
  - now apply NoDup_filter.
Qed.

Section Matches.

Variables student_dict course_keywords : dict Q.

(** An annotated match "e(<-s)" records a returned term [e] that is a
    course keyword and not a stopword, for a profile term [s] that is
    not a stopword. *)
Let sound_match (x : str) : Prop :=
  is_common_term student_dict course_keywords x = true
  \/ exists e s w, x = annotate e s /\ In (s, w) student_dict
                   /\ is_stopword s = false
                   /\ PyDict.has course_keywords e = true
                   /\ is_stopword e = false.

Lemma wp_step_matches (s_term : str) (s_weight : Q) (acc : Q * list str)
    (e_term : str) :
  In (s_term, s_weight) student_dict -> is_stopword s_term = false ->
  (forall x, In x (snd acc) -> sound_match x) ->
  (forall x, In x (snd (wp_step course_keywords s_term s_weight acc e_term))
             -> sound_match x)
  /\ (forall x, In x (snd acc) ->
                In x (snd (wp_step course_keywords s_term s_weight acc
                             e_term))).
Proof.
  destruct acc as [wp m]. intros Hin Hs Hm. unfold wp_step.
  destruct (PyDict.has course_keywords e_term) eqn:Hc; [|auto].
  destruct (is_stopword e_term) eqn:He; [auto|]. simpl.
  destruct (PyStr.mem e_term m); [auto|]. simpl. split.
  - intros x Hx. apply in_app_or in Hx. destruct Hx as [Hx|[<-|[]]];
      [now apply Hm|].
    right. exists e_term, s_term, s_weight. auto.
  - intros x Hx. apply in_or_app. now left.
Qed.

Lemma wp_loop_matches (terms : list (str * Q)) :
  (forall s w, In (s, w) terms -> In (s, w) student_dict) ->
  forall acc self,
  (forall x, In x (snd acc) -> sound_match x) ->
  exists r self',
    wp_loop course_keywords terms acc self = (Ok r, self')
    /\ (forall x, In x (snd r) -> sound_match x)
    /\ (forall x, In x (snd acc) -> In x (snd r)).
Proof.
  induction terms as [|[s w] terms IH]; intros Hterms acc self Hacc.
  - exists acc, self. auto.
  - cbn [wp_loop].
    assert (Hrest : forall s' w', In (s', w') terms ->
                                  In (s', w') student_dict)
      by (intros s' w' H; apply Hterms; now right).
    destruct (is_stopword s) eqn:Hstop; [now apply IH|].
    unfold bind.
    destruct (expand_returns s self) as (es & self1 & He & _).
    rewrite He.
    assert (Hfold :
              (forall x, In x (snd (fold_left
                                      (wp_step course_keywords s w) es acc))
                         -> sound_match x)
              /\ (forall x, In x (snd acc) ->
                            In x (snd (fold_left
                                         (wp_step course_keywords s w)
                                         es acc)))).
    { clear He. revert acc Hacc.
      induction es as [|e es IHes]; intros acc Hacc; [simpl; auto|].
      cbn [fold_left].
      destruct (wp_step_matches s w acc e) as [H1 H2];
        [apply Hterms; now left | exact Hstop | exact Hacc |].
      destruct (IHes _ H1) as [H3 H4]. split; [exact H3 | auto]. }
    destruct Hfold as [Hsound Hmono].
    destruct (IH Hrest _ self1 Hsound) as (r & self' & Hr & Hr1 & Hr2).
    exists r, self'. split; [exact Hr|]. split; [exact Hr1 | auto].
Qed.

End Matches.

(** X11.  The match list [calculate_ctwp_score] returns has no
    duplicates and contains every common term (a key of both mappings
    that is not a stopword); each of its other elements is an annotated
    match "e(<-s)" of a returned term [e] that is a course keyword and
    not a stopword, for a profile term [s] that is not a stopword. *)
Theorem match_list_is_sound
    (set_order : list str -> list str)
    (student_dict course_keywords : dict Q) (self : CTWPFRecommender) :
  (forall l, Permutation (set_order l) l) ->
  exists final shown self',
    calculate_ctwp_score set_order student_dict course_keywords self
    = (Ok (final, shown), self')
    /\ NoDup shown
    /\ (forall t, is_common_term student_dict course_keywords t = true ->
                  In t shown)
    /\ (forall x, In x shown ->
          is_common_term student_dict course_keywords x = true
          \/ exists e s w, x = annotate e s /\ In (s, w) student_dict
                           /\ is_stopword s = false
                           /\ PyDict.has course_keywords e = true
                           /\ is_stopword e = false).
Proof.
  intros Hperm. unfold calculate_ctwp_score, ctwp_components.
  destruct (ct_loop_sum set_order Hperm student_dict course_keywords)
    as [_ Hm].
  destruct (ct_loop set_order student_dict course_keywords) as [ct m].
  simpl in Hm. subst m.
  destruct (wp_loop_matches student_dict course_keywords
              (sorted_student_terms student_dict)) with
    (acc := (0, filtered_ct set_order student_dict course_keywords))
    (self := self) as ([wp m'] & self' & Hr & Hsound & Hmono).
  - intros s w Hin. unfold sorted_student_terms in Hin.
    apply In_firstn in Hin. now apply sorted_desc_In in Hin.
  - intros x Hx. left. now apply (filtered_ct_In set_order Hperm) in Hx.
  - unfold bind, ret. rewrite Hr. simpl in Hsound, Hmono.
    do 3 eexists. split; [reflexivity|].
    assert (Hshown : forall x, In x (set_order (distinct m')) <-> In x m').
    { intros x. rewrite <- (distinct_In m' x).
      split; apply Permutation_in;
        [apply Hperm | apply Permutation_sym, Hperm]. }
    split.
    { apply (Permutation_NoDup (Permutation_sym (Hperm (distinct m')))).
      apply distinct_NoDup. }
    split.
    + intros t Ht. apply Hshown, Hmono. now apply filtered_ct_In.
    + intros x Hx. apply Hshown in Hx. now apply Hsound.
Qed.

Lemma match_list_is_sound_witness :
  exists final shown self',
    calculate_ctwp_score Fixtures.insertion_order Fixtures.two_terms
      Fixtures.two_keywords (Fixtures.with_client Fixtures.stub_client [])
    = (Ok (final, shown), self')
    /\ NoDup shown
    /\ (forall t, is_common_term Fixtures.two_terms Fixtures.two_keywords t
                  = true -> In t shown)
    /\ (forall x, In x shown ->
          is_common_term Fixtures.two_terms Fixtures.two_keywords x = true
          \/ exists e s w, x = annotate e s
                           /\ In (s, w) Fixtures.two_terms
                           /\ is_stopword s = false
                           /\ PyDict.has Fixtures.two_keywords e = true
                           /\ is_stopword e = false).
Proof.
  apply (match_list_is_sound Fixtures.insertion_order Fixtures.two_terms
           Fixtures.two_keywords
           (Fixtures.with_client Fixtures.stub_client [])).
  intros l. apply Permutation_refl.
Defined.

(* ================================================================== *)
(** * Further properties of the ranking *)
(* ================================================================== *)







Section SortMore.

Context {A : Type}.
Variable key : A -> Q.

Lemma insert_desc_perm (x : A) (l : list A) :
  Permutation (insert_desc key x l) (x :: l).
Proof.
  induction l as [|y l IH]; simpl; [reflexivity|].
  destruct (Qle_bool (key y) (key x)); [reflexivity|].
  rewrite IH. apply perm_swap.
Qed.

Lemma sorted_desc_perm (l : list A) : Permutation (sorted_desc key l) l.
Proof.
  induction l as [|x l IH]; simpl; [reflexivity|].
  rewrite insert_desc_perm. now constructor.
Qed.

Lemma sorted_app_cross (R : A -> A -> Prop) (l1 l2 : list A) :
  StronglySorted R (l1 ++ l2) ->
  forall a b, In a l1 -> In b l2 -> R a b.
Proof.
  induction l1 as [|x l1 IH]; simpl; intros H a b Ha Hb; [destruct Ha|].
  inversion H as [|? ? Hs Hall]; subst.
  destruct Ha as [<-|Ha]; [|now apply IH].
  rewrite Forall_forall in Hall. apply Hall. apply in_or_app. now right.
Qed.


End SortMore.





(** X15.  [run_analysis] returns the best rows: the frame has
    min(5, number of courses) rows, it is the start of a rearrangement
    of all scored records, and no record left out has a larger total
    than a row returned. *)
Theorem run_returns_the_best_rows
    (set_order : list str -> list str) (json_loads : str -> option pyval)
    (major : str) (double_major : option str) (history : list str)
    (interest : option str) (self self' : CTWPFRecommender)
    (df : DataFrame) (profile : dict Q) :
  run_analysis set_order json_loads major double_major history interest self
  = (Ok (df, profile), self') ->
  exists recs left_out,
    score_courses set_order json_loads profile
      (student_info_text profile interest) (target_courses self) self
    = (Ok recs, self')
    /\ Permutation (assign_percent recs) (df ++ left_out)
    /\ List.length df = Nat.min 5 (List.length (target_courses self))
    /\ forall a b, In a df -> In b left_out -> row_total b <= row_total a.
Proof.
  intros Hrun.
  destruct (run_analysis_inv _ _ _ _ _ _ _ _ _ _ Hrun)
    as (_ & recs & Hscore & ->).
  pose proof (score_courses_length _ _ _ _ _ _ _ _ Hscore) as Hlen.
  exists recs, (skipn 5 (sorted_desc row_total (assign_percent recs))).
  unfold top5. split; [exact Hscore|]. split.
  - rewrite firstn_skipn. apply Permutation_sym, sorted_desc_perm.
  - split.
    + rewrite length_firstn, sorted_desc_length, <- Hlen.
      rewrite <- (length_map row_rec (assign_percent recs)).
      now rewrite assign_percent_recs.
    + intros a b Ha Hb.
      apply (sorted_app_cross (fun a b => row_total b <= row_total a)
               (firstn 5 (sorted_desc row_total (assign_percent recs)))
               (skipn 5 (sorted_desc row_total (assign_percent recs))));
        [|exact Ha | exact Hb].
      rewrite firstn_skipn. apply sorted_desc_sorted.
Qed.

Lemma run_returns_the_best_rows_witness :
  let df := Fixtures.frame_of MoreFixtures.six_run in
  let profile := Fixtures.profile_of MoreFixtures.six_run in
  exists recs left_out,
    score_courses Fixtures.insertion_order Fixtures.stub_loads profile
      (student_info_text profile None) Fixtures.six_courses
      (Fixtures.offline Fixtures.six_courses)
    = (Ok recs, snd MoreFixtures.six_run)
    /\ Permutation (assign_percent recs) (df ++ left_out)
    /\ List.length df = Nat.min 5 (List.length Fixtures.six_courses)
    /\ forall a b, In a df -> In b left_out -> row_total b <= row_total a.
Proof.
  apply (run_returns_the_best_rows Fixtures.insertion_order
           Fixtures.stub_loads (u "marketing") None [] None
           (Fixtures.offline Fixtures.six_courses)
           (snd MoreFixtures.six_run)
           (Fixtures.frame_of MoreFixtures.six_run)
           (Fixtures.profile_of MoreFixtures.six_run)).
  vm_compute. reflexivity.
Defined.

Section RunMore.

Variable set_order : list str -> list str.
Variable json_loads : str -> option pyval.

(** Without a client [calculate_ctwp_score] leaves [self] as it is. *)
Lemma calculate_offline (student_dict course_keywords : dict Q)
    (self : CTWPFRecommender) :
  client self = None ->
  exists r,
    calculate_ctwp_score set_order student_dict course_keywords self
    = (Ok r, self).
Proof.
  intros Hc. unfold calculate_ctwp_score, ctwp_components.
  destruct (ct_loop set_order student_dict course_keywords) as [ct m].
  destruct (wp_loop_requests course_keywords
              (sorted_student_terms student_dict) (0, m) self)
    as ([wp m'] & self' & reqs & Hr & _ & _ & _ & _ & _ & _ & Hoff).
  unfold bind, ret. rewrite Hr, (Hoff Hc). eauto.
Qed.

Lemma score_courses_offline_records (student_profile : dict Q)
    (info : StudentInfo) (courses : list Course)
    (self : CTWPFRecommender) :
  client self = None ->
  exists recs,
    score_courses set_order json_loads student_profile info courses self
    = (Ok recs, self)
    /\ Forall (fun r => rec_ai r = PNum 0
                        /\ rec_reason r = PStr MSG_API_ERROR
                        /\ rec_total r == rec_ctwp r) recs.
Proof.
  intros Hc. induction courses as [|c courses (rest & Hrest & Hall)].
  - exists []. split; [reflexivity | constructor].
  - cbn [score_courses]. unfold bind.
    destruct (calculate_offline student_profile (course_keywords c) self Hc)
      as ([ctwp ms] & Hcalc).
    rewrite Hcalc. unfold evaluate_relevance_with_gemini. rewrite Hc.
    unfold py_add, ret. cbv beta iota. rewrite Hrest.
    eexists. split; [reflexivity|].
    constructor; [|exact Hall]. simpl.
    split; [reflexivity|]. split; [reflexivity | apply Qplus_0_r].
Qed.

End RunMore.

(** X16.  Without a client, [run_analysis] returns and leaves [self]
    exactly as it was (no request, no cache entry); every row has the AI
    score 0 with the reason "API" error, and its total is its CTWP
    score. *)
Theorem run_without_client_is_lexical_only
    (set_order : list str -> list str) (json_loads : str -> option pyval)
    (major : str) (double_major : option str) (history : list str)
    (interest : option str) (self : CTWPFRecommender) :
  client self = None ->
  exists df,
    run_analysis set_order json_loads major double_major history interest
                 self
    = (Ok (df, get_keywords_from_input self major double_major history
                 interest), self)
    /\ forall row, In row df ->
         rec_ai (row_rec row) = PNum 0
         /\ rec_reason (row_rec row) = PStr MSG_API_ERROR
         /\ row_total row == rec_ctwp (row_rec row).
Proof.
  intros Hc. unfold run_analysis, bind, ret.
  set (profile := get_keywords_from_input self major double_major history
                    interest).
  destruct (score_courses_offline_records set_order json_loads profile
              (student_info_text profile interest) (target_courses self)
              self Hc) as (recs & Hrecs & Hall).
  rewrite Hrecs. eexists. split; [reflexivity|].
  intros row Hrow. unfold top5 in Hrow.
  apply In_firstn in Hrow. apply sorted_desc_In in Hrow.
  assert (Hin : In (row_rec row) recs).
  { rewrite <- (assign_percent_recs recs). now apply in_map. }
  rewrite Forall_forall in Hall. exact (Hall _ Hin).
Qed.

Lemma run_without_client_is_lexical_only_witness :
  exists df,
    run_analysis Fixtures.insertion_order Fixtures.stub_loads
      (u "marketing") None [] None (Fixtures.offline Fixtures.six_courses)
    = (Ok (df, get_keywords_from_input
                 (Fixtures.offline Fixtures.six_courses) (u "marketing")
                 None [] None),
       Fixtures.offline Fixtures.six_courses)
    /\ forall row, In row df ->
         rec_ai (row_rec row) = PNum 0
         /\ rec_reason (row_rec row) = PStr MSG_API_ERROR
         /\ row_total row == rec_ctwp (row_rec row).
Proof.
  apply (run_without_client_is_lexical_only Fixtures.insertion_order
           Fixtures.stub_loads (u "marketing") None [] None
           (Fixtures.offline Fixtures.six_courses)).
  reflexivity.
Defined.

(** X17.  A score that is not a number aborts the whole run: when the
    client answers every evaluation with a text that decodes to an
    object whose "score" is not a number, [run_analysis] on a non-empty
    corpus raises [TypeError] at [ctwp_score + ai_score], and no
    recommendation is returned for any course. *)
Theorem non_numeric_score_aborts_run
    (set_order : list str -> list str) (json_loads : str -> option pyval)
    (major : str) (double_major : option str) (history : list str)
    (interest : option str) (self : CTWPFRecommender)
    (c : Client) (t : str) (d : list (str * pyval)) :
  client self = Some c ->
  (forall log info course,
     c log (EvaluatePrompt info course) = Responds (Some t)) ->
  json_loads t = Some (PDict d) ->
  is_number (PyDict.get_default d (u "score") (PNum 0)) = false ->
  target_courses self <> [] ->
  exists self',
    run_analysis set_order json_loads major double_major history interest
                 self = (Raise TypeError, self').
Proof.
  intros Hc Hanswer Hloads Hscore Hne.
  unfold run_analysis, bind.
  destruct (target_courses self) as [|c0 rest]; [contradiction|].
  cbn [score_courses]. unfold bind.
  destruct (calculate_returns set_order
              (get_keywords_from_input self major double_major history
                 interest) (course_keywords c0) self)
    as ([ctwp ms] & s1 & Hcalc & Hc1).
  rewrite Hcalc. unfold evaluate_relevance_with_gemini.
  rewrite Hc1, Hc.
  unfold try_except, bind, generate_content, loads_text, py_get, ret.
  rewrite Hanswer, Hloads. cbv beta iota.
  destruct (PyDict.get_default d (u "score") (PNum 0));
    try discriminate; eexists; reflexivity.
Qed.

Lemma non_numeric_score_aborts_run_witness :
  exists self',
    run_analysis Fixtures.insertion_order MoreFixtures.wordy_loads
      (u "marketing") None [] None
      (Fixtures.with_client MoreFixtures.wordy_client Fixtures.six_courses)
    = (Raise TypeError, self').
Proof.
  apply (non_numeric_score_aborts_run Fixtures.insertion_order
           MoreFixtures.wordy_loads (u "marketing") None [] None
           (Fixtures.with_client MoreFixtures.wordy_client
              Fixtures.six_courses)
           MoreFixtures.wordy_client (u "H")
           [(u "score", PStr (u "high"))]).
  - reflexivity.
  - reflexivity.
  - reflexivity.
  - reflexivity.
  - discriminate.
Defined.

Section RunBounds.

Variable set_order : list str -> list str.
Variable json_loads : str -> option pyval.



Lemma py_add_state (x : Q) (v : pyval) (s : CTWPFRecommender) :
  snd (py_add x v s) = s.
Proof. destruct v; reflexivity. Qed.

Lemma calculate_log (student_dict course_keywords : dict Q)
    (self : CTWPFRecommender) :
  exists r self' requests,
    calculate_ctwp_score set_order student_dict course_keywords self
    = (Ok r, self')
    /\ api_log self' = api_log self ++ requests
    /\ (List.length requests <= 5)%nat.
Proof.
  unfold calculate_ctwp_score, ctwp_components.
  destruct (ct_loop set_order student_dict course_keywords) as [ct m].
  destruct (wp_loop_requests course_keywords
              (sorted_student_terms student_dict) (0, m) self)
    as ([wp m'] & self' & reqs & Hr & Hlog & Hlen & _).
  unfold bind, ret. rewrite Hr.
  eexists; exists self', reqs. split; [reflexivity|].
  split; [exact Hlog|].
  unfold sorted_student_terms in Hlen. rewrite length_firstn in Hlen. lia.
Qed.

Lemma evaluate_log (student_info : StudentInfo) (course_info : Course)
    (self : CTWPFRecommender) :
  exists r self' requests,
    evaluate_relevance_with_gemini json_loads student_info course_info self
    = (Ok r, self')
    /\ api_log self' = api_log self ++ requests
    /\ (List.length requests <= 1)%nat.
Proof.
  unfold evaluate_relevance_with_gemini.
  destruct (client self) as [c|].
  - unfold try_except, bind, generate_content, loads_text, py_get, raise,
      ret.
    destruct (c (api_log self) (EvaluatePrompt student_info course_info))
      as [|[t|]];
      try solve [eexists; eexists;
                 exists [EvaluatePrompt student_info course_info];
                 split; [reflexivity|]; split; [reflexivity | simpl; lia]].
    destruct (json_loads t) as [[| | | | |d]|];
      eexists; eexists; exists [EvaluatePrompt student_info course_info];
      (split; [reflexivity|]); (split; [reflexivity | simpl; lia]).
  - eexists; exists self, []. split; [reflexivity|].
    rewrite app_nil_r. split; [reflexivity | simpl; lia].
Qed.

(** Whether the loop over the courses returns or raises, it sends at
    most 6 requests per course. *)
Lemma score_courses_log (student_profile : dict Q) (info : StudentInfo)
    (courses : list Course) :
  forall self,
  exists requests,
    api_log (snd (score_courses set_order json_loads student_profile info
                    courses self))
    = api_log self ++ requests
    /\ (List.length requests <= 6 * List.length courses)%nat.
Proof.
  induction courses as [|c courses IH]; intros self.
  - exists []. simpl. rewrite app_nil_r. split; [reflexivity | lia].
  - cbn [score_courses]. unfold bind.
    destruct (calculate_log student_profile (course_keywords c) self)
      as ([ctwp ms] & s1 & reqs1 & Hcalc & Hlog1 & Hlen1).
    rewrite Hcalc.
    destruct (evaluate_log info c s1)
      as ([score reason] & s2 & reqs2 & Heval & Hlog2 & Hlen2).
    rewrite Heval.
    pose proof (py_add_state ctwp score s2) as Hadd.
    destruct (py_add ctwp score s2) as [[total|e] s3]; simpl in Hadd;
      subst s3.
    + destruct (IH s2) as (reqs3 & Hlog3 & Hlen3).
      destruct (score_courses set_order json_loads student_profile info
                  courses s2) as [[rest|e] s4]; simpl in Hlog3;
        exists (reqs1 ++ reqs2 ++ reqs3); simpl;
        (split; [rewrite Hlog3, Hlog2, Hlog1, <- !app_assoc; reflexivity|]);
        rewrite !length_app; simpl; lia.
    + exists (reqs1 ++ reqs2). simpl.
      split; [rewrite Hlog2, Hlog1, <- app_assoc; reflexivity|].
      rewrite length_app. simpl. lia.
Qed.

End RunBounds.



(** X19.  Whether [run_analysis] returns or raises, the log of requests
    only grows, and by at most 6 requests per course: at most 5
    expansions and one evaluation. *)
Theorem run_sends_at_most_six_requests_per_course
    (set_order : list str -> list str) (json_loads : str -> option pyval)
    (major : str) (double_major : option str) (history : list str)
    (interest : option str) (self : CTWPFRecommender) :
  exists requests,
    api_log (snd (run_analysis set_order json_loads major double_major
                    history interest self))
    = api_log self ++ requests
    /\ (List.length requests <= 6 * List.length (target_courses self))%nat.
Proof.
  unfold run_analysis, bind, ret.
  set (profile := get_keywords_from_input self major double_major history
                    interest).
  destruct (score_courses_log set_order json_loads profile
              (student_info_text profile interest) (target_courses self)
              self) as (reqs & Hlog & Hlen).
  exists reqs.
  destruct (score_courses set_order json_loads profile
              (student_info_text profile interest) (target_courses self)
              self) as [[recs|e] s1]; simpl in *; auto.
Qed.

Section Amortised.

Variable set_order : list str -> list str.
Variable json_loads : str -> option pyval.
Variable c : Client.
Hypothesis c_answers : answers_every_expansion c.

(** With such a client, a call for a keyword that is not a stopword
    leaves the keyword cached. *)
Lemma expand_caches (keyword : str) (self : CTWPFRecommender) :
  client self = Some c ->
  is_stopword keyword = false ->
  exists expanded self' requests,
    expand_keyword_with_gemini keyword self = (Ok expanded, self')
    /\ client self' = Some c
    /\ PyDict.has (keyword_cache self') keyword = true
    /\ (forall k, PyDict.has (keyword_cache self) k = true ->
                  PyDict.has (keyword_cache self') k = true)
    /\ api_log self' = api_log self ++ requests
    /\ (List.length requests <= 1)%nat.
Proof using c_answers.
  intros Hc Hs. unfold expand_keyword_with_gemini. rewrite Hc.
  destruct (PyDict.get (keyword_cache self) keyword) as [l0|] eqn:Hk.
  - exists l0, self, []. split; [reflexivity|]. split; [exact Hc|].
    split; [unfold PyDict.has; now rewrite Hk|]. split; [auto|].
    rewrite app_nil_r. split; [reflexivity | simpl; lia].
  - unfold try_except, bind, generate_content, cache_store, ret.
    rewrite Hs.
    destruct (c_answers (api_log self) keyword) as (ch & t & Hr).
    rewrite Hr.
    eexists; eexists; exists [ExpandPrompt keyword].
    split; [reflexivity|].
    cbn [client keyword_cache api_log].
    split; [exact Hc|]. split.
    { unfold PyDict.has. now rewrite get_set_same. }
    split.
    { intros k. unfold PyDict.has. rewrite get_set.
      now destruct (PyStr.eqb k keyword). }
    split; [reflexivity | simpl; lia].
Qed.

Lemma wp_loop_fills_cache (course_keywords : dict Q)
    (terms : list (str * Q)) :
  forall acc self,
  client self = Some c ->
  exists r self' requests,
    wp_loop course_keywords terms acc self = (Ok r, self')
    /\ client self' = Some c
    /\ all_cached terms self'
    /\ (forall k, PyDict.has (keyword_cache self) k = true ->
                  PyDict.has (keyword_cache self') k = true)
    /\ api_log self' = api_log self ++ requests
    /\ (List.length requests <= List.length terms)%nat.
Proof using c_answers.
  induction terms as [|[s w] terms IH]; intros acc self Hc.
  - exists acc, self, []. split; [reflexivity|]. split; [exact Hc|].
    split; [intros s w []|]. split; [auto|].
    rewrite app_nil_r. split; [reflexivity | simpl; lia].
  - cbn [wp_loop]. destruct (is_stopword s) eqn:Hs.
    + destruct (IH acc self Hc)
        as (r & self' & reqs & Hr & Hc' & Hall & Hmono & Hlog & Hlen).
      exists r, self', reqs. split; [exact Hr|]. split; [exact Hc'|].
      split.
      { intros s0 w0 [E|Hin] Hs0; [inversion E; congruence|].
        now apply (Hall s0 w0). }
      split; [exact Hmono|]. split; [exact Hlog | simpl; lia].
    + unfold bind.
      destruct (expand_caches s self Hc Hs)
        as (es & s1 & reqs1 & He & Hc1 & Hhas & Hmono1 & Hlog1 & Hlen1).
      rewrite He.
      destruct (IH (fold_left (wp_step course_keywords s w) es acc) s1 Hc1)
        as (r & self' & reqs & Hr & Hc' & Hall & Hmono & Hlog & Hlen).
      exists r, self', (reqs1 ++ reqs). split; [exact Hr|].
      split; [exact Hc'|]. split.
      { intros s0 w0 [E|Hin] Hs0.
        - inversion E. subst s0 w0. now apply Hmono.
        - now apply (Hall s0 w0). }
      split; [auto|]. split.
      * rewrite Hlog, Hlog1, <- app_assoc. reflexivity.
      * rewrite length_app. simpl. lia.
Qed.

(** When every term to expand is cached, the loop leaves [self] as it
    is. *)
Lemma wp_loop_all_cached (course_keywords : dict Q)
    (terms : list (str * Q)) :
  forall acc self,
  client self = Some c ->
  all_cached terms self ->
  exists r, wp_loop course_keywords terms acc self = (Ok r, self).
Proof using Type.
  induction terms as [|[s w] terms IH]; intros acc self Hc Hall.
  - exists acc. reflexivity.
  - cbn [wp_loop].
    assert (Hrest : all_cached terms self).
    { intros s0 w0 Hin. apply (Hall s0 w0). now right. }
    destruct (is_stopword s) eqn:Hs; [now apply IH|].
    pose proof (Hall s w (or_introl eq_refl) Hs) as Hhas.
    unfold PyDict.has in Hhas.
    destruct (PyDict.get (keyword_cache self) s) as [l0|] eqn:Hk;
      [|discriminate].
    unfold bind. rewrite (expand_cache_hit s self c l0 Hc Hk).
    now apply IH.
Qed.

Lemma evaluate_frame (student_info : StudentInfo) (course_info : Course)
    (self : CTWPFRecommender) :
  exists r self' requests,
    evaluate_relevance_with_gemini json_loads student_info course_info self
    = (Ok r, self')
    /\ keyword_cache self' = keyword_cache self
    /\ client self' = client self
    /\ api_log self' = api_log self ++ requests
    /\ (List.length requests <= 1)%nat.
Proof using Type.
  unfold evaluate_relevance_with_gemini.
  destruct (client self) as [c0|] eqn:Hc.
  - unfold try_except, bind, generate_content, loads_text, py_get, raise,
      ret.
    destruct (c0 (api_log self) (EvaluatePrompt student_info course_info))
      as [|[t|]];
      try solve [eexists; eexists;
                 exists [EvaluatePrompt student_info course_info];
                 split; [reflexivity|];
                 cbn [client keyword_cache api_log];
                 do 3 (split; [auto|]); simpl; lia].
    destruct (json_loads t) as [[| | | | |d]|];
      eexists; eexists; exists [EvaluatePrompt student_info course_info];
      (split; [reflexivity|]);
      cbn [client keyword_cache api_log];
      do 3 (split; [auto|]); simpl; lia.
  - eexists; exists self, []. split; [reflexivity|].
    rewrite app_nil_r. do 3 (split; [auto|]). simpl; lia.
Qed.

(** Once the terms to expand are cached, each further course costs at
    most one request. *)
Lemma score_courses_cached (student_profile : dict Q) (info : StudentInfo)
    (courses : list Course) :
  forall self,
  client self = Some c ->
  all_cached (sorted_student_terms student_profile) self ->
  exists requests,
    api_log (snd (score_courses set_order json_loads student_profile info
                    courses self))
    = api_log self ++ requests
    /\ (List.length requests <= List.length courses)%nat.
Proof using Type.
  induction courses as [|c0 courses IH]; intros self Hc Hall.
  - exists []. simpl. rewrite app_nil_r. split; [reflexivity | lia].
  - cbn [score_courses]. unfold bind.
    unfold calculate_ctwp_score at 1, ctwp_components.
    destruct (ct_loop set_order student_profile (course_keywords c0))
      as [ct m].
    destruct (wp_loop_all_cached (course_keywords c0)
                (sorted_student_terms student_profile) (0, m) self Hc Hall)
      as ([wp m'] & Hr).
    unfold bind, ret. rewrite Hr.
    destruct (evaluate_frame info c0 self)
      as ([score reason] & s2 & reqs2 & Heval & Hcache & Hc2 & Hlog2
          & Hlen2).
    rewrite Heval.
    pose proof (py_add_state ((0.5 * ct + 0.5 * wp) * 5.0) score s2) as Hadd.
    destruct (py_add ((0.5 * ct + 0.5 * wp) * 5.0) score s2)
      as [[total|e] s3]; simpl in Hadd; subst s3.
    + destruct (IH s2) as (reqs3 & Hlog3 & Hlen3); [congruence| |].
      { intros s w Hin Hs. rewrite Hcache. now apply (Hall s w). }
      destruct (score_courses set_order json_loads student_profile info
                  courses s2) as [[rest|e] s4]; simpl in Hlog3;
        exists (reqs2 ++ reqs3); simpl;
        (split; [rewrite Hlog3, Hlog2, <- !app_assoc; reflexivity|]);
        rewrite !length_app; simpl; lia.
    + exists reqs2. simpl. split; [exact Hlog2 | lia].
Qed.

Lemma score_courses_amortised (student_profile : dict Q)
    (info : StudentInfo) (courses : list Course)
    (self : CTWPFRecommender) :
  client self = Some c ->
  exists requests,
    api_log (snd (score_courses set_order json_loads student_profile info
                    courses self))
    = api_log self ++ requests
    /\ (List.length requests <= 5 + List.length courses)%nat.
Proof using c_answers.
  intros Hc. destruct courses as [|c0 courses].
  - exists []. simpl. rewrite app_nil_r. split; [reflexivity | lia].
  - cbn [score_courses]. unfold bind.
    unfold calculate_ctwp_score at 1, ctwp_components.
    destruct (ct_loop set_order student_profile (course_keywords c0))
      as [ct m].
    destruct (wp_loop_fills_cache (course_keywords c0)
                (sorted_student_terms student_profile) (0, m) self Hc)
      as ([wp m'] & s1 & reqs1 & Hr & Hc1 & Hall & _ & Hlog1 & Hlen1).
    unfold bind, ret. rewrite Hr.
    assert (Hlen5 : (List.length reqs1 <= 5)%nat).
    { unfold sorted_student_terms in Hlen1.
      rewrite length_firstn in Hlen1. lia. }
    destruct (evaluate_frame info c0 s1)
      as ([score reason] & s2 & reqs2 & Heval & Hcache & Hc2 & Hlog2
          & Hlen2).
    rewrite Heval.
    pose proof (py_add_state ((0.5 * ct + 0.5 * wp) * 5.0) score s2) as Hadd.
    destruct (py_add ((0.5 * ct + 0.5 * wp) * 5.0) score s2)
      as [[total|e] s3]; simpl in Hadd; subst s3.
    + destruct (score_courses_cached student_profile info courses s2)
        as (reqs3 & Hlog3 & Hlen3); [congruence| |].
      { intros s w Hin Hs. rewrite Hcache. now apply (Hall s w). }
      destruct (score_courses set_order json_loads student_profile info
                  courses s2) as [[rest|e] s4]; simpl in Hlog3;
        exists (reqs1 ++ reqs2 ++ reqs3); simpl;
        (split; [rewrite Hlog3, Hlog2, Hlog1, <- !app_assoc; reflexivity|]);
        rewrite !length_app; simpl; lia.
    + exists (reqs1 ++ reqs2). simpl.
      split; [rewrite Hlog2, Hlog1, <- app_assoc; reflexivity|].
      rewrite length_app. simpl. lia.
Qed.

End Amortised.

(** X26.  The expansion cache pays off across courses: when the client
    answers every expansion prompt with a non-empty text, one run over
    [n] courses sends at most [5 + n] requests (the expansions of the
    first course are reused for all the others), whether it returns or
    raises. *)
Theorem cache_bounds_requests_of_a_run
    (set_order : list str -> list str) (json_loads : str -> option pyval)
    (major : str) (double_major : option str) (history : list str)
    (interest : option str) (self : CTWPFRecommender) (c : Client) :
  client self = Some c ->
  answers_every_expansion c ->
  exists requests,
    api_log (snd (run_analysis set_order json_loads major double_major
                    history interest self))
    = api_log self ++ requests
    /\ (List.length requests <= 5 + List.length (target_courses self))%nat.
Proof.
  intros Hc Hans. unfold run_analysis, bind, ret.
  set (profile := get_keywords_from_input self major double_major history
                    interest).
  destruct (score_courses_amortised set_order json_loads c Hans profile
              (student_info_text profile interest) (target_courses self)
              self Hc) as (reqs & Hlog & Hlen).
  exists reqs.
  destruct (score_courses set_order json_loads profile
              (student_info_text profile interest) (target_courses self)
              self) as [[recs|e] s1]; simpl in *; auto.
Qed.

Lemma cache_bounds_requests_of_a_run_witness :
  exists requests,
    api_log (snd (run_analysis Fixtures.insertion_order Fixtures.stub_loads
                    (u "marketing") None [] None
                    (Fixtures.with_client Fixtures.stub_client
                       Fixtures.six_courses)))
    = api_log (Fixtures.with_client Fixtures.stub_client
                 Fixtures.six_courses) ++ requests
    /\ (List.length requests
        <= 5 + List.length
                 (target_courses
                    (Fixtures.with_client Fixtures.stub_client
                       Fixtures.six_courses)))%nat.
Proof.
  apply (cache_bounds_requests_of_a_run Fixtures.insertion_order
           Fixtures.stub_loads (u "marketing") None [] None
           (Fixtures.with_client Fixtures.stub_client Fixtures.six_courses)
           Fixtures.stub_client).
  - reflexivity.
  - intros log keyword. simpl. eauto.
Defined.

(* ================================================================== *)
(** * Corpus lookup, construction and the caller *)
(* ================================================================== *)

(** X20.  [get_course_data] returns the first course of the corpus with
    the requested name; when no course has that name it returns the
    default record, whose keywords are empty. *)
Theorem get_course_data_finds_first
    (self : CTWPFRecommender) (name : str) :
  let found := get_course_data self name in
  (Forall (fun c => course_name c <> Some name) (target_courses self)
   /\ found = no_course_data /\ course_keywords found = [])
  \/ (exists before after,
        target_courses self = before ++ found :: after
        /\ course_name found = Some name
        /\ Forall (fun c => course_name c <> Some name) before).
Proof.
  unfold get_course_data.
  assert (Hname : forall c, has_name name c = true <->
                            course_name c = Some name).
  { intros c. unfold has_name. destruct (course_name c) as [n|].
    - rewrite eqb_eq. split; congruence.
    - split; discriminate. }
  induction (target_courses self) as [|c cs IH]; simpl.
  - left. repeat split. constructor.
  - destruct (has_name name c) eqn:E.
    + right. exists [], cs. apply Hname in E. repeat split; auto.
    + assert (Hc : course_name c <> Some name).
      { intros H. apply Hname in H. congruence. }
      destruct IH as [(Hall & Hd & Hk)|(before & after & Hsplit & Hn & Hall)].
      * left. repeat split; auto.
      * right. exists (c :: before), after. rewrite Hsplit at 1.
        repeat split; auto.
Qed.

(** X21.  The history field of the form: an empty field gives no term;
    otherwise there is one term per comma plus one, and no term has
    leading or trailing whitespace (a part that is blank becomes the
    empty term). *)
Theorem history_terms_are_stripped (input_history : str) :
  (input_history = [] -> App.history_list input_history = [])
  /\ (input_history <> [] ->
      List.length (App.history_list input_history)
      = S (count_occ N.eq_dec input_history 44%N))
  /\ (forall w, In w (App.history_list input_history) -> stripped w).
Proof.
  unfold App.history_list.
  destruct input_history as [|c s].
  - split; [reflexivity|]. split; [intros H; contradiction | intros w []].
  - split; [discriminate|]. split.
    + intros _. rewrite length_map. apply StripFacts.split_length.
    + intros w Hw. apply in_map_iff in Hw. destruct Hw as (x & <- & _).
      apply StripFacts.strip_stripped.
Qed.

Lemma init_without_client (api_key env_api_key : option str)
    (make_client : str -> option Client)
    (ontology : option (list (str * str) * list (str * str)))
    (course_file : CourseFile) :
  (PyStr.truthy api_key = false /\ PyStr.truthy env_api_key = false)
  \/ (forall k, make_client k = None) ->
  client (init api_key env_api_key make_client ontology course_file) = None.
Proof.
  unfold init. intros [[Ha He]|Hfail]; simpl.
  - rewrite Ha. destruct env_api_key as [k|]; [|reflexivity].
    now rewrite He.
  - destruct (PyStr.truthy api_key).
    + destruct api_key as [k|]; [|reflexivity].
      destruct (PyStr.truthy (Some k)); [apply Hfail | reflexivity].
    + destruct env_api_key as [k|]; [|reflexivity].
      destruct (PyStr.truthy (Some k)); [apply Hfail | reflexivity].
Qed.

(** X22.  A recommender built without an API key (neither the argument
    nor the environment gives a non-empty one), or whose client cannot
    be created, has no client: [run_analysis] on it returns, sends no
    request and caches nothing, and every row has the AI score 0. *)
Theorem recommender_without_key_never_calls
    (set_order : list str -> list str) (json_loads : str -> option pyval)
    (api_key env_api_key : option str)
    (make_client : str -> option Client)
    (ontology : option (list (str * str) * list (str * str)))
    (course_file : CourseFile)
    (major : str) (double_major : option str) (history : list str)
    (interest : option str) :
  (PyStr.truthy api_key = false /\ PyStr.truthy env_api_key = false)
  \/ (forall k, make_client k = None) ->
  let self := init api_key env_api_key make_client ontology course_file in
  exists df profile self',
    run_analysis set_order json_loads major double_major history interest
                 self = (Ok (df, profile), self')
    /\ api_log self' = [] /\ keyword_cache self' = []
    /\ forall row, In row df -> rec_ai (row_rec row) = PNum 0.
Proof.
  intros Hkey self.
  pose proof (init_without_client api_key env_api_key make_client ontology
                course_file Hkey) as Hc. fold self in Hc.
  unfold run_analysis, bind, ret.
  set (profile := get_keywords_from_input self major double_major history
                    interest).
  destruct (score_courses_offline_records set_order json_loads profile
              (student_info_text profile interest) (target_courses self)
              self Hc) as (recs & Hrecs & Hall).
  rewrite Hrecs. do 3 eexists. split; [reflexivity|].
  split; [reflexivity|]. split; [reflexivity|].
  intros row Hrow. unfold top5 in Hrow.
  apply In_firstn in Hrow. apply sorted_desc_In in Hrow.
  assert (Hin : In (row_rec row) recs).
  { rewrite <- (assign_percent_recs recs). now apply in_map. }
  rewrite Forall_forall in Hall. exact (proj1 (Hall _ Hin)).
Qed.

Lemma recommender_without_key_never_calls_witness :
  let self :=
    init None (Some []) (fun _ => Some Fixtures.stub_client) None
      (FileContents Fixtures.six_courses) in
  exists df profile self',
    run_analysis Fixtures.insertion_order Fixtures.stub_loads
      (u "marketing") None [] None self = (Ok (df, profile), self')
    /\ api_log self' = [] /\ keyword_cache self' = []
    /\ forall row, In row df -> rec_ai (row_rec row) = PNum 0.
Proof.
  apply (recommender_without_key_never_calls Fixtures.insertion_order
           Fixtures.stub_loads None (Some [])
           (fun _ => Some Fixtures.stub_client) None
           (FileContents Fixtures.six_courses) (u "marketing") None []
           None).
  left. split; reflexivity.
Defined.

(** X23.  The run button of the form: without an API key nothing is
    run.  With a key, when the corpus file is missing or cannot be read,
    the run returns an empty frame and sends no request, and the profile
    it returns still contains the major. *)
Theorem app_run_without_corpus
    (set_order : list str -> list str) (json_loads : str -> option pyval)
    (api_key : str) (env_api_key : option str)
    (make_client : str -> option Client)
    (ontology : option (list (str * str) * list (str * str)))
    (course_file : CourseFile)
    (input_major input_double input_history input_interest : str) :
  let outcome :=
    App.on_run set_order json_loads api_key env_api_key make_client
      ontology course_file input_major input_double input_history
      input_interest in
  (api_key = [] -> outcome = None)
  /\ (api_key <> [] ->
      (forall data, course_file <> FileContents data) ->
      exists profile self',
        outcome = Some (Ok ([], profile), self')
        /\ api_log self' = []
        /\ In input_major (PyDict.keys profile)).
Proof.
  unfold App.on_run. destruct api_key as [|c k].
  - split; [reflexivity | intros H; contradiction].
  - split; [discriminate|]. intros _ Hfile.
    assert (Hcorpus : load_course_data course_file = []).
    { destruct course_file as [| |data]; try reflexivity.
      now contradiction (Hfile data). }
    unfold run_analysis, bind, ret.
    cbn [init target_courses]. rewrite Hcorpus. cbn [score_courses].
    unfold ret. do 2 eexists. split; [reflexivity|].
    split; [reflexivity|].
    unfold get_keywords_from_input.
    destruct (graph _) as [G|].
    + apply visit_items_mono. right. unfold input_items. now left.
    + apply plain_seed_keys. left. unfold input_items. now left.
Qed.

Lemma app_run_without_corpus_witness :
  let outcome :=
    App.on_run Fixtures.insertion_order Fixtures.stub_loads (u "key") None
      (fun _ => Some Fixtures.stub_client) None FileMissing
      (u "marketing") NONE_SENTINEL (u "db, os") [] in
  (u "key" = [] -> outcome = None)
  /\ (u "key" <> [] ->
      (forall data, FileMissing <> FileContents data) ->
      exists profile self',
        outcome = Some (Ok ([], profile), self')
        /\ api_log self' = []
        /\ In (u "marketing") (PyDict.keys profile)).
Proof.
  apply (app_run_without_corpus Fixtures.insertion_order
           Fixtures.stub_loads (u "key") None
           (fun _ => Some Fixtures.stub_client) None FileMissing
           (u "marketing") NONE_SENTINEL (u "db, os") []).
Defined.

(* ================================================================== *)
(** * Properties of the syllabus processor *)
(* ================================================================== *)

Module SubstringFacts.

Lemma startswith_iff (s p : str) :
  PyStr.startswith s p = true <-> exists b, s = p ++ b.
Proof.
  revert s. induction p as [|c p IH]; intros s; simpl.
  - split; [intros _; now exists s | intros _; now destruct s].
  - destruct s as [|d s]; simpl.
    + split; [discriminate | intros [b H]; discriminate].
    + rewrite andb_true_iff, N.eqb_eq, IH. split.
      * intros [-> [b ->]]. now exists b.
      * intros [b H]. inversion H. split; [reflexivity | now exists b].
Qed.

Lemma contains_nil (p : str) :
  PyStr.contains [] p = PyStr.startswith [] p.
Proof. unfold PyStr.contains. apply orb_false_r. Qed.

Lemma contains_cons (c : N) (s p : str) :
  PyStr.contains (c :: s) p
  = PyStr.startswith (c :: s) p || PyStr.contains s p.
Proof. reflexivity. Qed.

Lemma contains_iff (s p : str) :
  PyStr.contains s p = true <-> exists a b, s = a ++ p ++ b.
Proof.
  induction s as [|c s IH].
  - rewrite contains_nil, startswith_iff. split.
    + intros [b H]. now exists [], b.
    + intros (a & b & H). destruct a; [now exists b|discriminate].
  - rewrite contains_cons, orb_true_iff, startswith_iff, IH. split.
    + intros [[b H]|(a & b & H)].
      * now exists [], b.
      * exists (c :: a), b. simpl. now rewrite H.
    + intros (a & b & H). destruct a as [|d a].
      * left. now exists b.
      * right. inversion H. now exists a, b.
Qed.

(** A string contained in a part of [s] is contained in [s]. *)
Lemma contains_part (s part p : str) :
  (exists a b, s = a ++ part ++ b) ->
  PyStr.contains part p = true -> PyStr.contains s p = true.
Proof.
  intros (a & b & ->) H. apply contains_iff in H.
  destruct H as (a' & b' & ->). apply contains_iff.
  exists (a ++ a'), (b' ++ b). now rewrite <- !app_assoc.
Qed.

Lemma join_cons (sep w w' : str) (l : list str) :
  PyStr.join sep (w :: w' :: l) = w ++ sep ++ PyStr.join sep (w' :: l).
Proof. reflexivity. Qed.

(** Splitting at a separator and joining with it gives the string
    back. *)
Lemma join_split (sep : N) (s : str) :
  PyStr.join [sep] (PyStr.split sep s) = s.
Proof.
  induction s as [|c s IH]; [reflexivity|].
  cbn [PyStr.split].
  destruct (PyStr.split sep s) as [|w ws] eqn:E;
    [exfalso; exact (StripFacts.split_not_nil _ _ E)|].
  destruct (N.eqb_spec c sep) as [->|Hne].
  - rewrite join_cons, IH. reflexivity.
  - destruct ws as [|w' ws].
    + simpl in *. now rewrite IH.
    + rewrite join_cons in *. rewrite <- IH. reflexivity.
Qed.

Lemma join_last (sep : str) (l : list str) :
  exists a, PyStr.join sep l = a ++ last l [].
Proof.
  induction l as [|w l [a IH]]; [now exists []|].
  destruct l as [|w' l]; [now exists []|].
  exists (w ++ sep ++ a). rewrite join_cons, IH.
  change (last (w :: w' :: l) []) with (last (w' :: l) []).
  now rewrite <- !app_assoc.
Qed.

Lemma last_split_part (sep : N) (s : str) :
  exists a b, s = a ++ last (PyStr.split sep s) [] ++ b.
Proof.
  destruct (join_last [sep] (PyStr.split sep s)) as [a H].
  rewrite join_split in H. exists a, []. now rewrite app_nil_r.
Qed.

Lemma until_close_part (s content : str) :
  Syllabus.until_close s = Some content ->
  exists b, s = content ++ b.
Proof.
  revert content. induction s as [|c s IH]; intros content; simpl;
    [discriminate|].
  destruct (N.eqb c 41); [intros H; inversion H; now exists (c :: s)|].
  destruct (N.eqb c 10); [discriminate|].
  destruct (Syllabus.until_close s) as [x|]; [|discriminate].
  intros H. inversion H. destruct (IH x eq_refl) as [b ->].
  now exists b.
Qed.

Lemma search_parens_part (s content : str) :
  Syllabus.search_parens s = Some content ->
  exists a b, s = a ++ content ++ b.
Proof.
  induction s as [|c s IH]; simpl; [discriminate|].
  assert (Hrec : Syllabus.search_parens s = Some content ->
                 exists a b, c :: s = a ++ content ++ b).
  { intros H. destruct (IH H) as (a & b & ->). now exists (c :: a), b. }
  destruct (N.eqb c 40); [|exact Hrec].
  destruct (Syllabus.until_close s) as [x|] eqn:E; [|exact Hrec].
  intros H. inversion H. subst x.
  destruct (until_close_part s content E) as [b ->]. now exists [c], b.
Qed.

End SubstringFacts.

(** X24.  [extract_university_from_filename] depends on the name (the
    file name without extension) only through these tests, in this
    order: a name containing U+C11C U+C6B8 U+B300 gives that name; one
    containing U+C2DC U+B9BD U+B300 gives the long form U+C11C U+C6B8
    U+C2DC U+B9BD U+B300; one containing U+D55C U+C608 U+C885 gives that
    name; otherwise the part after the last underscore is returned when
    it contains U+C5F0 U+C138 U+B300 or U+ACE0 U+B824 U+B300, and else
    the default.  The text in parentheses never decides the result. *)
Theorem university_depends_on_three_tests
    (splitext_root : str -> str) (filename : str) :
  let name := splitext_root filename in
  let potential_uni := last (PyStr.split 95 name) [] in
  Syllabus.extract_university_from_filename splitext_root filename
  = if PyStr.contains name Syllabus.SEOUL then Syllabus.SEOUL
    else if PyStr.contains name Syllabus.CITY then Syllabus.SEOUL_CITY
    else if PyStr.contains name Syllabus.ARTS then Syllabus.ARTS
    else if PyStr.contains name [95%N]
            && (PyStr.contains potential_uni Syllabus.YONSEI
                || PyStr.contains potential_uni Syllabus.KOREA)
         then potential_uni
         else OTHER_UNIVERSITY.
Proof.
  intros name potential_uni.
  unfold Syllabus.extract_university_from_filename.
  fold name. fold potential_uni.
  destruct (PyStr.contains name Syllabus.SEOUL) eqn:H1; [reflexivity|].
  destruct (PyStr.contains name Syllabus.CITY) eqn:H2; [reflexivity|].
  destruct (PyStr.contains name Syllabus.ARTS) eqn:H3; [reflexivity|].
  assert (Hpart : forall part p,
             (exists a b, name = a ++ part ++ b) ->
             PyStr.contains name p = false ->
             PyStr.contains part p = false).
  { intros part p Hp Hn.
    destruct (PyStr.contains part p) eqn:E; [|reflexivity].
    rewrite (SubstringFacts.contains_part name part p Hp E) in Hn.
    discriminate. }
  assert (Hparens :
            match Syllabus.search_parens name with
            | Some content =>
                Syllabus.any_in [Syllabus.SEOUL; Syllabus.CITY;
                                 Syllabus.ARTS] content = false
            | None => True
            end).
  { destruct (Syllabus.search_parens name) as [content|] eqn:E; [|exact I].
    pose proof (SubstringFacts.search_parens_part name content E) as Hc.
    unfold Syllabus.any_in. simpl.
    now rewrite (Hpart content _ Hc H1), (Hpart content _ Hc H2),
      (Hpart content _ Hc H3). }
  assert (Hlast : Syllabus.any_in
                    [Syllabus.SEOUL; Syllabus.CITY; Syllabus.ARTS;
                     Syllabus.YONSEI; Syllabus.KOREA] potential_uni
                  = PyStr.contains potential_uni Syllabus.YONSEI
                    || PyStr.contains potential_uni Syllabus.KOREA).
  { pose proof (SubstringFacts.last_split_part 95 name) as Hl.
    fold potential_uni in Hl.
    unfold Syllabus.any_in. simpl.
    rewrite (Hpart potential_uni _ Hl H1), (Hpart potential_uni _ Hl H2),
      (Hpart potential_uni _ Hl H3).
    simpl. now rewrite orb_false_r. }
  rewrite Hlast.
  destruct (Syllabus.search_parens name) as [content|].
  - rewrite Hparens.
    destruct (PyStr.contains name [95%N]); [|reflexivity].
    simpl. now destruct (_ || _).
  - destruct (PyStr.contains name [95%N]); [|reflexivity].
    simpl. now destruct (_ || _).
Qed.

(** X25.  [analyze_content_with_gemini] always returns a dict: the
    decoded object, or the first element of a decoded list when that is
    an object, or the empty dict for an empty list; in every other case
    (no client, a call that raises, no text, a text that is not JSON, a
    value that is neither an object nor such a list) a record whose
    "course_name" is the file name and whose "keywords" are empty. *)
Theorem analysis_always_returns_a_dict
    (client : option (str -> Response)) (json_loads : str -> option pyval)
    (raw_text file_name : str) :
  exists d,
    Syllabus.analyze_content_with_gemini client json_loads raw_text
      file_name = PDict d
    /\ ((exists c t, client = Some c
                     /\ c (firstn 20000 raw_text) = Responds (Some t)
                     /\ (json_loads t = Some (PDict d)
                         \/ (exists rest,
                               json_loads t = Some (PList (PDict d :: rest)))
                         \/ (json_loads t = Some (PList []) /\ d = [])))
        \/ (PyDict.get d (u "course_name") = Some (PStr file_name)
            /\ PyDict.get d (u "keywords") = Some (PDict [])
            /\ exists reason,
                 PyDict.get d (u "description") = Some (PStr reason)
                 /\ In reason [Syllabus.MSG_NO_KEY;
                               Syllabus.MSG_ANALYSIS_FAILED;
                               Syllabus.MSG_BAD_FORMAT])).
Proof.
  unfold Syllabus.analyze_content_with_gemini.
  destruct client as [c|].
  2:{ eexists. split; [reflexivity|]. right.
      do 2 (split; [reflexivity|]). eexists. split; [reflexivity|].
      simpl. auto. }
  destruct (c (firstn 20000 raw_text)) as [|[t|]] eqn:Hr;
    try (eexists; split; [reflexivity|]; right;
         do 2 (split; [reflexivity|]); eexists; split; [reflexivity|];
         simpl; now auto).
  assert (Hbad : exists d,
             PDict [(u "course_name", PStr file_name);
                    (u "keywords", PDict []);
                    (u "description", PStr Syllabus.MSG_BAD_FORMAT)]
             = PDict d
             /\ (PyDict.get d (u "course_name") = Some (PStr file_name)
                 /\ PyDict.get d (u "keywords") = Some (PDict [])
                 /\ exists reason,
                      PyDict.get d (u "description") = Some (PStr reason)
                      /\ In reason [Syllabus.MSG_NO_KEY;
                                    Syllabus.MSG_ANALYSIS_FAILED;
                                    Syllabus.MSG_BAD_FORMAT])).
  { eexists. split; [reflexivity|]. do 2 (split; [reflexivity|]).
    eexists. split; [reflexivity|]. simpl. auto. }
  destruct (json_loads t) as [data|] eqn:Hj.
  2:{ eexists. split; [reflexivity|]. right.
      do 2 (split; [reflexivity|]). eexists. split; [reflexivity|].
      simpl. auto. }
  destruct data as [|b|q|s|l|d];
    try (destruct Hbad as (d0 & E & H); exists d0; split; [exact E|];
         right; exact H).
  - destruct l as [|first rest].
    + exists []. split; [reflexivity|]. left. exists c, t.
      split; [reflexivity|]. split; [exact Hr|]. right. right.
      split; [exact Hj | reflexivity].
    + destruct first as [|b|q|s|l|d];
        try (destruct Hbad as (d0 & E & H); exists d0; split; [exact E|];
             right; exact H).
      exists d. split; [reflexivity|]. left. exists c, t.
      split; [reflexivity|]. split; [exact Hr|]. right. left.
      now exists rest.
  - exists d. split; [reflexivity|]. left. exists c, t.
    split; [reflexivity|]. split; [exact Hr|]. now left.
Qed.
